(** * fried-wiki: NLI service and trainer, embedded and verified

    A shallow embedding of the three Python sources of the repository

      - [src/modules/model_trainer.py]  (module [ModelTrainer])
      - [src/start.py]                  (module [Start])
      - [src/modules/api.py]            (module [Api])

    Python objects that live outside these files (the sentence-embedding
    library, the web framework, the model classes of [modules.model_complex]
    and [modules.sentence_bert_model], the helpers of
    [modules.utils.logging_utils], [modules.logging_utils] and
    [fairapi.modules.snli_utils]) are
    collected in interfaces ([TrainerEnv], [ServiceEnv]); the code of the
    three files is written against them in a state-and-exception monad. *)

From Stdlib Require Import ZArith.
From stdpp Require Import gmap strings list pretty.

Set Warnings "-register-all".
Set Default Proof Using "Type".
Open Scope Z_scope.
Open Scope string_scope.
Open Scope list_scope.

(** ** Python values, exceptions and the effect monad *)

Module Py.

(** Exceptions that the modelled code or its collaborators raise. *)
Inductive exn :=
| KeyError (key : string)
| IndexError
| AttributeError (attr : string)
| ValueError (msg : string)
| NameError (name : string)
| OSError (msg : string)
| JSONDecodeError (msg : string)
| InvalidInputError
| InferenceError (msg : string)
| ModelLoadError (msg : string)
| SystemExit (code : Z).

(** What [json.load] produces. *)
Inductive pyval :=
| PyNone
| PyBool (b : bool)
| PyInt (z : Z)
| PyFloat (literal : string)
| PyStr (s : string)
| PyList (l : list pyval)
| PyDict (d : gmap string pyval).

(** [d.get(key, default)]: only a dict has the method. *)
Definition dict_get (d : pyval) (key : string) (default : pyval) : exn + pyval :=
  match d with
  | PyDict items =>
      match items !! key with
      | Some v => inr v
      | None => inr default
      end
  | _ => inl (AttributeError "get")
  end.

(** A computation over a state [S] that returns an [A] or raises; the state
    reached before a raise is kept, as in Python. *)
Definition M (S A : Type) : Type := S -> (exn + A) * S.

Definition ret {S A} (a : A) : M S A := fun s => (inr a, s).

Definition raise {S A} (e : exn) : M S A := fun s => (inl e, s).

Definition bind {S A B} (m : M S A) (k : A -> M S B) : M S B :=
  fun s =>
    match m s with
    | (inl e, s') => (inl e, s')
    | (inr a, s') => k a s'
    end.

Definition gets {S A} (f : S -> A) : M S A := fun s => (inr (f s), s).

Definition modify {S} (f : S -> S) : M S unit := fun s => (inr tt, f s).

Definition lift_exc {S A} (r : exn + A) : M S A := fun s => (r, s).

(** [for x in xs: acc = body x acc] *)
Fixpoint for_each {S A B} (xs : list A) (body : A -> B -> M S B) (acc : B) : M S B :=
  match xs with
  | [] => ret acc
  | x :: xs' => bind (body x acc) (for_each xs' body)
  end.

(** [range(n)] for an [int]: empty when [n <= 0]. *)
Definition range (n : Z) : list Z := Z.of_nat <$> seq 0 (Z.to_nat n).

(** [l[-1]] *)
Definition index_last {S A} (l : list A) : M S A :=
  match last l with
  | Some a => ret a
  | None => raise IndexError
  end.

End Py.

Import Py.

Declare Scope py_scope.
Delimit Scope py_scope with py.
Notation "x <~ m ;; k" := (bind m (fun x => k))
  (at level 100, m at next level, right associativity) : py_scope.
Notation "m ;;; k" := (bind m (fun _ => k))
  (at level 100, right associativity) : py_scope.
Open Scope py_scope.

(** ** src/modules/model_trainer.py *)

Module ModelTrainer.

(** One example as the [_create_examples_*] helpers return it: the loops
    read [row[0]], [row[1]], [row[2]] and [row[3]]. *)
Record row := {
  row0 : string;
  row1 : string;
  row2 : string;
  row3 : string
}.

Record InputExample := {
  guid : string;
  texts : list string;
  label : Z
}.

(** Objects of the embedding library, described by how they were built;
    their weights live in the external world. *)
Inductive SentenceTransformer :=
| STModules (base_model : string) (max_seq_length : Z)
| STPath (text_model_path : string).

Inductive Classifier :=
| ClassifierInit
| ClassifierPath (classifier_path : string).

Record SoftmaxLoss := {
  sl_model : SentenceTransformer;
  sl_num_labels : nat;
  sl_classifier : Classifier
}.

Record SentencesDataset := {
  sd_examples : list InputExample;
  sd_model : SentenceTransformer
}.

Record DataLoader := {
  dl_dataset : SentencesDataset;
  dl_shuffle : bool;
  dl_batch_size : Z
}.

Record LabelAccuracyEvaluator := {
  ev_dataloader : DataLoader;
  ev_name : string;
  ev_softmax_model : SoftmaxLoss
}.

(** The attributes of a [BertTrainer]; those set after construction are
    optional, and reading one that is not set raises [AttributeError]. *)
Record BertTrainer := {
  train_path : string;
  dev_path : string;
  test_path : string;
  base_model : string;
  batch_size : Z;
  label2int : gmap string Z;
  path_to_save : string;
  model : option SentenceTransformer;
  train_loss_nli : option SoftmaxLoss;
  classification_model : option Classifier;
  train_dataloader_nli : option DataLoader;
  dev_dataloader_nli : option DataLoader;
  test_dataloader_nli : option DataLoader
}.

(** The collaborators: the data readers, the training and evaluation
    calls of the embedding library, and the state they act on. *)
Class TrainerEnv := {
  World : Type;
  score : Type;
  str_score : score -> string;
  (** [_create_examples_snli(_read_tsv(path), set_type)] *)
  snli_examples : string -> string -> World -> exn + list row;
  (** [_create_examples_fever(read_fever(path), set_type)] *)
  fever_examples : string -> string -> World -> exn + list row;
  (** [_create_examples_mnli(read_mnli(path), set_type)] *)
  mnli_examples : string -> string -> World -> exn + list row;
  (** [model.fit(train_objectives=...)] *)
  fit : SentenceTransformer -> list (DataLoader * SoftmaxLoss) -> World -> World;
  (** [model.evaluate(evaluator)] *)
  evaluate : SentenceTransformer -> LabelAccuracyEvaluator -> World -> score * World;
  (** the exception, if any, with which building the model so described
      ends: [models.Transformer(base_model, max_seq_length=128)],
      [models.Pooling(...)] and [SentenceTransformer(modules=[...])], or
      [SentenceTransformer(text_model_path)] *)
  model_error : SentenceTransformer -> World -> option exn;
  (** the same for [torch.load(classifier_path)] *)
  classifier_error : Classifier -> World -> option exn;
  (** [torch.save(classifier, path)] and [model.save(path)]: the exception
      if the call raises, and what it leaves in the world either way *)
  torch_save : Classifier -> string -> World -> option exn * World;
  model_save : SentenceTransformer -> string -> World -> option exn * World
}.

(** Calls into the library, in the order they are made. *)
Inductive call :=
| CallFit (m : SentenceTransformer) (train_objectives : list (DataLoader * SoftmaxLoss))
| CallEvaluate (m : SentenceTransformer) (evaluator : LabelAccuracyEvaluator).

Inductive output :=
| LogInfo (msg : string)
| Printed (msg : string).

Section WithEnv.
Context {TE : TrainerEnv}.

Record state := {
  self : BertTrainer;
  world : World;
  calls : list call;
  out : list output
}.

Definition set_self (f : BertTrainer -> BertTrainer) : M state unit :=
  modify (fun s => {| self := f (self s); world := world s;
                      calls := calls s; out := out s |}).

Definition emit (o : output) : M state unit :=
  modify (fun s => {| self := self s; world := world s;
                      calls := calls s; out := out s ++ [o] |}).

Definition logger_info (msg : string) : M state unit := emit (LogInfo msg).

Definition print (msg : string) : M state unit := emit (Printed msg).

(** [self.<name>] for an attribute that a later method sets. *)
Definition getattr {A} (name : string) (f : BertTrainer -> option A) : M state A :=
  fun s =>
    match f (self s) with
    | Some a => (inr a, s)
    | None => (inl (AttributeError name), s)
    end.

Definition read_examples (reader : string -> string -> World -> exn + list row)
    (path set_type : string) : M state (list row) :=
  fun s => (reader path set_type (world s), s).

(** A constructor of the library: it returns the object described, or
    raises. *)
Definition construct (err : World -> option exn) : M state unit :=
  fun s =>
    match err (world s) with
    | Some e => (inl e, s)
    | None => (inr tt, s)
    end.

(** A call that writes to the file system, and may raise after writing. *)
Definition call_save (save : World -> option exn * World) : M state unit :=
  fun s =>
    let r := save (world s) in
    (match r.1 with
     | Some e => inl e
     | None => inr tt
     end,
     {| self := self s; world := r.2; calls := calls s; out := out s |}).

Definition call_fit (m : SentenceTransformer)
    (train_objectives : list (DataLoader * SoftmaxLoss)) : M state unit :=
  modify (fun s => {| self := self s;
                      world := fit m train_objectives (world s);
                      calls := calls s ++ [CallFit m train_objectives];
                      out := out s |}).

Definition call_evaluate (m : SentenceTransformer)
    (evaluator : LabelAccuracyEvaluator) : M state score :=
  fun s =>
    let r := evaluate m evaluator (world s) in
    (inr r.1, {| self := self s; world := r.2;
                 calls := calls s ++ [CallEvaluate m evaluator];
                 out := out s |}).

Definition snli_label2int : gmap string Z :=
  {[ "contradiction" := 0; "entailment" := 1; "neutral" := 2 ]}.

Definition fever_label2int : gmap string Z :=
  {[ "SUPPORTS" := 1; "REFUTES" := 0 ]}.

(** [BertTrainer.__init__] *)
Definition __init__ (train_path dev_path test_path base_model : string)
    (batch_size : Z) (path_to_save : string) : BertTrainer * list output :=
  let dataset := "snli" in
  ({| train_path := train_path;
      dev_path := dev_path;
      test_path := test_path;
      base_model := base_model;
      batch_size := batch_size;
      label2int := if String.eqb dataset "snli"
                   then snli_label2int
                   else fever_label2int;
      path_to_save := path_to_save;
      model := None;
      train_loss_nli := None;
      classification_model := None;
      train_dataloader_nli := None;
      dev_dataloader_nli := None;
      test_dataloader_nli := None |},
   [LogInfo "Models are loaded and ready to use."]).

(** [BertTrainer.initialize_model] *)
Definition initialize_model : M state unit :=
  base <~ gets (fun s => base_model (self s)) ;;
  let m := STModules base 128 in
  construct (model_error m) ;;;
  set_self (fun t =>
    {| train_path := train_path t; dev_path := dev_path t;
       test_path := test_path t; base_model := base_model t;
       batch_size := batch_size t; label2int := label2int t;
       path_to_save := path_to_save t;
       model := Some m;
       train_loss_nli := train_loss_nli t;
       classification_model := classification_model t;
       train_dataloader_nli := train_dataloader_nli t;
       dev_dataloader_nli := dev_dataloader_nli t;
       test_dataloader_nli := test_dataloader_nli t |}) ;;;
  m <~ getattr "model" model ;;
  n <~ gets (fun s => size (label2int (self s))) ;;
  set_self (fun t =>
    {| train_path := train_path t; dev_path := dev_path t;
       test_path := test_path t; base_model := base_model t;
       batch_size := batch_size t; label2int := label2int t;
       path_to_save := path_to_save t;
       model := model t;
       train_loss_nli := Some {| sl_model := m; sl_num_labels := n;
                                 sl_classifier := ClassifierInit |};
       classification_model := classification_model t;
       train_dataloader_nli := train_dataloader_nli t;
       dev_dataloader_nli := dev_dataloader_nli t;
       test_dataloader_nli := test_dataloader_nli t |}).

(** The body of the loop
    [for row in rows: label_id = self.label2int[row[3]]; samples.append(...)] *)
Definition nli_sample (r : row) (samples : list InputExample)
    : M state (list InputExample) :=
  l2i <~ gets (fun s => label2int (self s)) ;;
  match l2i !! row3 r with
  | None => raise (KeyError (row3 r))
  | Some label_id =>
      ret (samples ++ [{| guid := row0 r;
                          texts := [row1 r; row2 r];
                          label := label_id |}])
  end.

(** The loop itself, from the empty list of samples. *)
Definition nli_samples (rows : list row) : M state (list InputExample) :=
  for_each rows nli_sample [].

(** [DataLoader(dataset, shuffle=True, batch_size=batch_size)]: the random
    sampler refuses an empty dataset and the batch sampler a batch size that
    is not positive, each with a [ValueError]. *)
Definition new_dataloader (dataset : SentencesDataset) (batch_size : Z)
    : exn + DataLoader :=
  match sd_examples dataset with
  | [] =>
      inl (ValueError
             "num_samples should be a positive integer value, but got num_samples=0")
  | _ :: _ =>
      if (batch_size <=? 0)%Z
      then inl (ValueError
                  ("batch_size should be a positive integer value, but got batch_size="
                   +:+ pretty batch_size))
      else inr {| dl_dataset := dataset; dl_shuffle := true;
                  dl_batch_size := batch_size |}
  end.

(** [DataLoader(SentencesDataset(samples, model=self.model), shuffle=True,
    batch_size=self.batch_size)] *)
Definition make_dataloader (samples : list InputExample) : M state DataLoader :=
  m <~ getattr "model" model ;;
  let dataset := {| sd_examples := samples; sd_model := m |} in
  bs <~ gets (fun s => batch_size (self s)) ;;
  lift_exc (new_dataloader dataset bs).

Definition set_train_dataloader (d : DataLoader) : M state unit :=
  set_self (fun t =>
    {| train_path := train_path t; dev_path := dev_path t;
       test_path := test_path t; base_model := base_model t;
       batch_size := batch_size t; label2int := label2int t;
       path_to_save := path_to_save t; model := model t;
       train_loss_nli := train_loss_nli t;
       classification_model := classification_model t;
       train_dataloader_nli := Some d;
       dev_dataloader_nli := dev_dataloader_nli t;
       test_dataloader_nli := test_dataloader_nli t |}).

Definition set_dev_dataloader (d : DataLoader) : M state unit :=
  set_self (fun t =>
    {| train_path := train_path t; dev_path := dev_path t;
       test_path := test_path t; base_model := base_model t;
       batch_size := batch_size t; label2int := label2int t;
       path_to_save := path_to_save t; model := model t;
       train_loss_nli := train_loss_nli t;
       classification_model := classification_model t;
       train_dataloader_nli := train_dataloader_nli t;
       dev_dataloader_nli := Some d;
       test_dataloader_nli := test_dataloader_nli t |}).

Definition set_test_dataloader (d : DataLoader) : M state unit :=
  set_self (fun t =>
    {| train_path := train_path t; dev_path := dev_path t;
       test_path := test_path t; base_model := base_model t;
       batch_size := batch_size t; label2int := label2int t;
       path_to_save := path_to_save t; model := model t;
       train_loss_nli := train_loss_nli t;
       classification_model := classification_model t;
       train_dataloader_nli := train_dataloader_nli t;
       dev_dataloader_nli := dev_dataloader_nli t;
       test_dataloader_nli := Some d |}).

(** The part the three [preparing_data*] methods share once the examples
    are read: the three loops, then the three loaders. *)
Definition samples_and_loaders (train_snli dev_snli test_snli : list row)
    : M state unit :=
  train_nli_samples <~ nli_samples train_snli ;;
  dev_nli_samples <~ nli_samples dev_snli ;;
  test_nli_samples <~ nli_samples test_snli ;;
  d <~ make_dataloader train_nli_samples ;;
  set_train_dataloader d ;;;
  d <~ make_dataloader dev_nli_samples ;;
  set_dev_dataloader d ;;;
  d <~ make_dataloader test_nli_samples ;;
  set_test_dataloader d.

Definition preparing_with (reader : string -> string -> World -> exn + list row)
    : M state unit :=
  p <~ gets (fun s => train_path (self s)) ;;
  train_snli <~ read_examples reader p "train_s" ;;
  p <~ gets (fun s => dev_path (self s)) ;;
  dev_snli <~ read_examples reader p "dev_s" ;;
  p <~ gets (fun s => test_path (self s)) ;;
  test_snli <~ read_examples reader p "test_s" ;;
  logger_info "Read train dataset" ;;;
  samples_and_loaders train_snli dev_snli test_snli.

(** [BertTrainer.preparing_data] *)
Definition preparing_data : M state unit := preparing_with snli_examples.

(** [BertTrainer.preparing_data_fever] *)
Definition preparing_data_fever : M state unit := preparing_with fever_examples.

(** [BertTrainer.preparing_data_mnli]: as the other two, with the two
    [print(len(...))] calls around the loops. *)
Definition preparing_data_mnli : M state unit :=
  p <~ gets (fun s => train_path (self s)) ;;
  train_snli <~ read_examples mnli_examples p "train_s" ;;
  p <~ gets (fun s => dev_path (self s)) ;;
  dev_snli <~ read_examples mnli_examples p "dev_s" ;;
  p <~ gets (fun s => test_path (self s)) ;;
  test_snli <~ read_examples mnli_examples p "test_s" ;;
  logger_info "Read train dataset" ;;;
  print (pretty (Z.of_nat (length train_snli))) ;;;
  train_nli_samples <~ nli_samples train_snli ;;
  dev_nli_samples <~ nli_samples dev_snli ;;
  test_nli_samples <~ nli_samples test_snli ;;
  print (pretty (Z.of_nat (length train_nli_samples))) ;;;
  d <~ make_dataloader train_nli_samples ;;
  set_train_dataloader d ;;;
  d <~ make_dataloader dev_nli_samples ;;
  set_dev_dataloader d ;;;
  d <~ make_dataloader test_nli_samples ;;
  set_test_dataloader d.

(** [BertTrainer.save_model] *)
Definition save_model : M state unit :=
  loss <~ getattr "train_loss_nli" train_loss_nli ;;
  dir <~ gets (fun s => path_to_save (self s)) ;;
  call_save (torch_save (sl_classifier loss) (dir +:+ "classifier_model")) ;;;
  m <~ getattr "model" model ;;
  dir <~ gets (fun s => path_to_save (self s)) ;;
  call_save (model_save m (dir +:+ "bert_model_trained")).

(** [BertTrainer.load_model] *)
Definition load_model (text_model_path classifier_path : string) : M state unit :=
  construct (model_error (STPath text_model_path)) ;;;
  set_self (fun t =>
    {| train_path := train_path t; dev_path := dev_path t;
       test_path := test_path t; base_model := base_model t;
       batch_size := batch_size t; label2int := label2int t;
       path_to_save := path_to_save t;
       model := Some (STPath text_model_path);
       train_loss_nli := train_loss_nli t;
       classification_model := classification_model t;
       train_dataloader_nli := train_dataloader_nli t;
       dev_dataloader_nli := dev_dataloader_nli t;
       test_dataloader_nli := test_dataloader_nli t |}) ;;;
  construct (classifier_error (ClassifierPath classifier_path)) ;;;
  set_self (fun t =>
    {| train_path := train_path t; dev_path := dev_path t;
       test_path := test_path t; base_model := base_model t;
       batch_size := batch_size t; label2int := label2int t;
       path_to_save := path_to_save t;
       model := model t;
       train_loss_nli := train_loss_nli t;
       classification_model := Some (ClassifierPath classifier_path);
       train_dataloader_nli := train_dataloader_nli t;
       dev_dataloader_nli := dev_dataloader_nli t;
       test_dataloader_nli := test_dataloader_nli t |}) ;;;
  m <~ getattr "model" model ;;
  n <~ gets (fun s => size (label2int (self s))) ;;
  c <~ getattr "classification_model" classification_model ;;
  set_self (fun t =>
    {| train_path := train_path t; dev_path := dev_path t;
       test_path := test_path t; base_model := base_model t;
       batch_size := batch_size t; label2int := label2int t;
       path_to_save := path_to_save t;
       model := model t;
       train_loss_nli := Some {| sl_model := m; sl_num_labels := n;
                                 sl_classifier := c |};
       classification_model := classification_model t;
       train_dataloader_nli := train_dataloader_nli t;
       dev_dataloader_nli := dev_dataloader_nli t;
       test_dataloader_nli := test_dataloader_nli t |}).

(** The body of the loop of [train_model], for the epoch index [i]. *)
Definition epoch (train_objectives : list (DataLoader * SoftmaxLoss))
    (dev_evaluator test_evaluator : LabelAccuracyEvaluator)
    (i : Z) (acc : list score * list score) : M state (list score * list score) :=
  let validation_performance := acc.1 in
  let test_performance := acc.2 in
  m <~ getattr "model" model ;;
  call_fit m train_objectives ;;;
  m <~ getattr "model" model ;;
  v <~ call_evaluate m dev_evaluator ;;
  let validation_performance := validation_performance ++ [v] in
  m <~ getattr "model" model ;;
  t <~ call_evaluate m test_evaluator ;;
  let test_performance := test_performance ++ [t] in
  print ("Iteration - " +:+ pretty (i + 1) +:+ " ...") ;;;
  v_last <~ index_last validation_performance ;;
  print ("Validation performance - " +:+ str_score v_last +:+ " ...") ;;;
  t_last <~ index_last test_performance ;;
  print ("Test performance - " +:+ str_score t_last +:+ " ...") ;;;
  ret (validation_performance, test_performance).

(** [BertTrainer.train_model] *)
Definition train_model (number_of_epochs : Z) : M state (list score * list score) :=
  let warmup_steps := 10000 in
  logger_info ("Warmup-steps: " +:+ pretty warmup_steps) ;;;
  train_dl <~ getattr "train_dataloader_nli" train_dataloader_nli ;;
  loss <~ getattr "train_loss_nli" train_loss_nli ;;
  let train_objectives := [(train_dl, loss)] in
  test_dl <~ getattr "test_dataloader_nli" test_dataloader_nli ;;
  loss <~ getattr "train_loss_nli" train_loss_nli ;;
  let test_evaluator := {| ev_dataloader := test_dl; ev_name := "nli_test";
                           ev_softmax_model := loss |} in
  dev_dl <~ getattr "dev_dataloader_nli" dev_dataloader_nli ;;
  loss <~ getattr "train_loss_nli" train_loss_nli ;;
  let dev_evaluator := {| ev_dataloader := dev_dl; ev_name := "nli_test";
                          ev_softmax_model := loss |} in
  for_each (range number_of_epochs)
    (epoch train_objectives dev_evaluator test_evaluator)
    ([], []).

End WithEnv.

End ModelTrainer.

(** ** The web service: what [src/start.py] and [src/modules/api.py] share *)

Module Service.

(** A query parameter as the handler sees it: [None] or a [str]. *)
Abbreviation pystr := (option string).

(** [f"{x}"] for such a value. *)
Definition fmt (x : pystr) : string :=
  match x with
  | Some s => s
  | None => "None"
  end.

Section Schemas.
Variable float : Type.

(** [response = api.model('model_response', {...})] *)
Record model_response := {
  label : string;
  contradiction_prob : float;
  entailment_prob : float;
  neutral_prob : float
}.

(** [response_full = api.model('Record', {...})]; [label] is the one field
    declared [required=False]. *)
Record Record_ := {
  r_claim : string;
  r_text : string;
  r_article : string;
  r_label : option string;
  r_contradiction_prob : float;
  r_entailment_prob : float;
  r_neutral_prob : float
}.

(** [response_model = api.model("Result", {'results': List(Nested(response_full))})] *)
Record Result := {
  results : list Record_
}.

End Schemas.

(** Modelled from the spec: the collaborators that the two service files
    import and that are not part of them.  [check_if_none] and [get_logger]
    ([modules.utils.logging_utils] for [start.py], [modules.logging_utils] for
    [modules/api.py]), [WikiFactChecker] with its
    [model_level_two.predict] and [predict_all] ([modules.model_complex]) and
    [SentenceBertModel] with its [predict] ([modules.sentence_bert_model])
    enter as functions: a loader that returns a model handle or fails (spec
    4.4), and predictions that are functions of the handle and of their string
    arguments and return a value or fail (spec 4.2, 4.3).  The clock, the file
    system and the marshalling of the web framework are fields as well. *)
Class ServiceEnv := {
  Model : Type;
  float : Type;
  (** the object a single prediction returns, before marshalling *)
  Raw : Type;
  (** an element of the list [predict_all] returns, before marshalling *)
  RawRecord : Type;
  (** the [k]-th reading of [datetime.datetime.now()] *)
  clock : nat -> Z;
  (** [str(end_time - start_time)] *)
  str_timedelta : Z -> string;
  (** [Path(p).absolute()] *)
  absolute : string -> string;
  (** [f"{v}"] for a value read from the configuration *)
  format_pyval : pyval -> string;
  (** [with open(path) as f: json.load(f)] *)
  read_json : string -> exn + pyval;
  (** [check_if_none] as [start.py] imports it, from
      [modules.utils.logging_utils] *)
  check_if_none : pystr -> exn + pystr;
  (** [check_if_none] as [modules/api.py] imports it, from
      [modules.logging_utils] *)
  api_check_if_none : pystr -> exn + pystr;
  WikiFactChecker : pyval -> exn + Model;
  model_level_two_predict : Model -> pystr -> pystr -> exn + Raw;
  predict_all : Model -> pystr -> exn + list RawRecord;
  SentenceBertModel : pyval -> exn + Model;
  predict : Model -> pystr -> pystr -> exn + Raw;
  (** the reading of the configuration file and the construction of the
      model in the child process that the reloader of [modules/api.py]
      starts *)
  child_read_json : string -> exn + pyval;
  child_SentenceBertModel : pyval -> exn + Model;
  (** [marshal(result, response)] and [marshal(record, response_full)] *)
  marshal_response : Raw -> model_response float;
  marshal_full : RawRecord -> Record_ float
}.

Record request := {
  method : string;
  path : string;
  args : gmap string string
}.

Section WithEnv.
Context {SE : ServiceEnv}.

(** What the process does that is visible from outside, in order:
    [Construct c] is the call of the model constructor on the configuration
    [c], recorded when the call is made; the predictions are recorded with the
    handle they are made on. *)
Inductive event :=
| LogInfo (msg : string)
| Construct (config : pyval)
| Predict (m : Model) (text hypothesis : pystr)
| PredictAll (m : Model) (claim : pystr)
| Listen (debug : bool) (port : Z) (host : string) (threaded : bool).

Inductive body :=
| VerdictBody (v : model_response float)
| ResultBody (r : Result float).

(** What the client receives: the marshalled value, the exception that
    escaped the handler, or the framework's answer for an unrouted request. *)
Inductive response :=
| Ok (b : body)
| Error (e : exn)
| NotFound
| MethodNotAllowed.

End WithEnv.

End Service.

(** ** src/start.py *)

Module Start.
Import Service.

(** [Api(app, version=..., title=...)] with its namespaces (name, description). *)
Record Api := {
  version : pyval;
  title : string;
  namespaces : list (string * pyval)
}.

Section WithEnv.
Context {SE : ServiceEnv}.

(** The module globals that the script binds ([None]: not bound yet), the
    number of clock readings made so far, and the events so far. *)
Record proc := {
  config : option pyval;
  complex_model : option Model;
  api : option Api;
  ticks : nat;
  trace : list event
}.

Definition emit (e : event) : M proc unit :=
  modify (fun s => {| config := config s; complex_model := complex_model s;
                      api := api s; ticks := ticks s;
                      trace := trace s ++ [e] |}).

Definition logger_info (msg : string) : M proc unit := emit (LogInfo msg).

(** [datetime.datetime.now()] *)
Definition now : M proc Z :=
  fun s => (inr (clock (ticks s)),
            {| config := config s; complex_model := complex_model s;
               api := api s; ticks := S (ticks s); trace := trace s |}).

(** Reading a module global. *)
Definition global {A} (name : string) (f : proc -> option A) : M proc A :=
  fun s =>
    match f s with
    | Some a => (inr a, s)
    | None => (inl (NameError name), s)
    end.

Definition bind_config (c : pyval) : M proc unit :=
  modify (fun s => {| config := Some c; complex_model := complex_model s;
                      api := api s; ticks := ticks s; trace := trace s |}).

Definition bind_complex_model (m : Model) : M proc unit :=
  modify (fun s => {| config := config s; complex_model := Some m;
                      api := api s; ticks := ticks s; trace := trace s |}).

Definition bind_api (a : Api) : M proc unit :=
  modify (fun s => {| config := config s; complex_model := complex_model s;
                      api := Some a; ticks := ticks s; trace := trace s |}).

(** [api.namespace(name, description=...)] *)
Definition add_namespace (name : string) (description : pyval) : M proc unit :=
  a <~ global "api" api ;;
  bind_api {| version := version a; title := title a;
              namespaces := namespaces a ++ [(name, description)] |}.

(** [WikiFactChecker(config, logger=logger)] *)
Definition call_load (c : pyval) : M proc Model :=
  emit (Construct c) ;;;
  lift_exc (WikiFactChecker c).

(** [complex_model.model_level_two.predict(text, hypothesis)] *)
Definition call_predict (m : Model) (text hypothesis : pystr) : M proc Raw :=
  emit (Predict m text hypothesis) ;;;
  lift_exc (model_level_two_predict m text hypothesis).

(** [complex_model.predict_all(claim)] *)
Definition call_predict_all (m : Model) (claim : pystr) : M proc (list RawRecord) :=
  emit (PredictAll m claim) ;;;
  lift_exc (predict_all m claim).

(** [TodoList.get] of the namespace [nli_model], lines 78-95. *)
Definition nli_model_get (args : gmap string string) : M proc Raw :=
  start_time <~ now ;;
  let text := args !! "text" in
  let hypothesis := args !! "hypothesis" in
  text <~ lift_exc (check_if_none text) ;;
  hypothesis <~ lift_exc (check_if_none hypothesis) ;;
  logger_info ("Query with params={text: " +:+ fmt text +:+
               ", hypothesis: " +:+ fmt hypothesis +:+ "}") ;;;
  m <~ global "complex_model" complex_model ;;
  result <~ call_predict m text hypothesis ;;
  end_time <~ now ;;
  let dif_time := str_timedelta (end_time - start_time) in
  logger_info ("[MODEL_LEVEL_TWO] API; ModelOne Get response; difference: "
               +:+ dif_time) ;;;
  logger_info "[MODEL_LEVEL_TWO] API; ModelFull sending the response" ;;;
  ret result.

(** [TodoList.get] of the namespace [fact_checking_model], lines 104-119;
    the value is the dict [{'results': result}]. *)
Definition fact_checking_model_get (args : gmap string string)
    : M proc (list RawRecord) :=
  start_time <~ now ;;
  let claim := args !! "claim" in
  claim <~ lift_exc (check_if_none claim) ;;
  logger_info ("Query with params={text: " +:+ fmt claim +:+ "}") ;;;
  m <~ global "complex_model" complex_model ;;
  result <~ call_predict_all m claim ;;
  end_time <~ now ;;
  let dif_time := str_timedelta (end_time - start_time) in
  logger_info ("[COMPLEX MODEL] API; ModelFull Get response; difference: "
               +:+ dif_time) ;;;
  logger_info "[COMPLEX MODEL] API; ModelFull sending the response" ;;;
  ret result.

(** [@ns1.marshal_list_with(response)] around the first handler. *)
Definition nli_model_resource (args : gmap string string) : M proc body :=
  result <~ nli_model_get args ;;
  ret (VerdictBody (marshal_response result)).

(** [@ns2.marshal_with(response_model)] around the second handler. *)
Definition fact_checking_model_resource (args : gmap string string) : M proc body :=
  result <~ fact_checking_model_get args ;;
  ret (ResultBody {| results := marshal_full <$> result |}).

(** An exception that escapes a handler becomes the response; the process
    goes on. *)
Definition respond (h : M proc body) : proc -> response * proc :=
  fun s =>
    match h s with
    | (inr b, s') => (Ok b, s')
    | (inl e, s') => (Error e, s')
    end.

(** Routing: [@ns1.route('/')] and [@ns2.route('/')], each with a [get]. *)
Definition dispatch (r : request) : proc -> response * proc :=
  if String.eqb (path r) "/nli_model/" then
    if String.eqb (method r) "GET"
    then respond (nli_model_resource (args r))
    else fun s => (MethodNotAllowed, s)
  else if String.eqb (path r) "/fact_checking_model/" then
    if String.eqb (method r) "GET"
    then respond (fact_checking_model_resource (args r))
    else fun s => (MethodNotAllowed, s)
  else fun s => (NotFound, s).

(** The requests are served one after the other: [threaded=True] lets the
    framework overlap handlers, which share only the log and the bound model;
    the order below is the order in which the requests are taken up. *)
Fixpoint serve (incoming : list request) (s : proc) : list response * proc :=
  match incoming with
  | [] => ([], s)
  | r :: rest =>
      let (a, s1) := dispatch r s in
      let (answers, s2) := serve rest s1 in
      (a :: answers, s2)
  end.

(** [app.run(debug, port, host, threaded)] *)
Definition app_run (debug : bool) (port : Z) (host : string) (threaded : bool)
    (incoming : list request) : M proc (list response) :=
  emit (Listen debug port host threaded) ;;;
  fun s => let (answers, s') := serve incoming s in (inr answers, s').

(** The module top level, lines 19-68: [argv_config] is the value of
    [--config] when it is given.  The construction of the logger and of the
    Flask application with its proxy and CORS wrappers binds objects that no
    later statement of the file inspects; they are left out. *)
Definition script (argv_config : option string) : M proc unit :=
  let config_path :=
    default "configs/inference/sentence_bert_config.json" argv_config in
  logger_info ("Reading config from " +:+ absolute config_path) ;;;
  c <~ lift_exc (read_json config_path) ;;
  bind_config c ;;;
  c <~ global "config" config ;;
  logger_info ("Using config " +:+ format_pyval c) ;;;
  logger_info "Loading models ..." ;;;
  c <~ global "config" config ;;
  m <~ call_load c ;;
  bind_complex_model m ;;;
  logger_info "Models loaded." ;;;
  c <~ global "config" config ;;
  v <~ lift_exc (dict_get c "api_version" (PyStr "0.0")) ;;
  bind_api {| version := v; title := "WikiCheck API"; namespaces := [] |} ;;;
  c <~ global "config" config ;;
  d <~ lift_exc (dict_get c "model_name" (PyStr "Wikipedia NLI model")) ;;
  add_namespace "nli_model" d ;;;
  add_namespace "fact_checking_model" (PyStr "Fact checking model").

(** The whole file: the script, then [app.run] under
    [if __name__ == '__main__'], serving [incoming]. *)
Definition main (argv_config : option string) (__name__ : string)
    (incoming : list request) : M proc (list response) :=
  script argv_config ;;;
  if String.eqb __name__ "__main__"
  then app_run false 80 "0.0.0.0" true incoming
  else ret [].

(** The process before its first statement. *)
Definition boot : proc :=
  {| config := None; complex_model := None; api := None;
     ticks := 0; trace := [] |}.

End WithEnv.

End Start.

(** ** src/modules/api.py *)

Module Api.
Import Service.

Section WithEnv.
Context {SE : ServiceEnv}.

(** The process: whether the reloader started it (the environment variable
    [WERKZEUG_RUN_MAIN]), the module globals of this file, the clock readings
    and the events. *)
Record proc := {
  run_main : bool;
  config : option pyval;
  model : option Model;
  api : option Start.Api;
  ticks : nat;
  trace : list event
}.

Definition emit (e : event) : M proc unit :=
  modify (fun s => {| run_main := run_main s; config := config s;
                      model := model s; api := api s;
                      ticks := ticks s; trace := trace s ++ [e] |}).

Definition logger_info (msg : string) : M proc unit := emit (LogInfo msg).

Definition now : M proc Z :=
  fun s => (inr (clock (ticks s)),
            {| run_main := run_main s; config := config s; model := model s;
               api := api s; ticks := S (ticks s); trace := trace s |}).

Definition global {A} (name : string) (f : proc -> option A) : M proc A :=
  fun s =>
    match f s with
    | Some a => (inr a, s)
    | None => (inl (NameError name), s)
    end.

Definition bind_config (c : pyval) : M proc unit :=
  modify (fun s => {| run_main := run_main s; config := Some c;
                      model := model s; api := api s;
                      ticks := ticks s; trace := trace s |}).

Definition bind_model (m : Model) : M proc unit :=
  modify (fun s => {| run_main := run_main s; config := config s;
                      model := Some m; api := api s;
                      ticks := ticks s; trace := trace s |}).

Definition bind_api (a : Start.Api) : M proc unit :=
  modify (fun s => {| run_main := run_main s; config := config s;
                      model := model s; api := Some a;
                      ticks := ticks s; trace := trace s |}).

(** [model.predict(text, hypothesis)] *)
Definition call_predict (m : Model) (text hypothesis : pystr) : M proc Raw :=
  emit (Predict m text hypothesis) ;;;
  lift_exc (predict m text hypothesis).

(** [TodoList.get], lines 57-73. *)
Definition get (args : gmap string string) : M proc Raw :=
  start_time <~ now ;;
  let text := args !! "text" in
  let hypothesis := args !! "hypothesis" in
  text <~ lift_exc (api_check_if_none text) ;;
  hypothesis <~ lift_exc (api_check_if_none hypothesis) ;;
  logger_info ("Query with params={text: " +:+ fmt text +:+
               ", hypothesis: " +:+ fmt hypothesis +:+ "}") ;;;
  m <~ global "model" model ;;
  result <~ call_predict m text hypothesis ;;
  end_time <~ now ;;
  let dif_time := str_timedelta (end_time - start_time) in
  logger_info ("API; ModelOne Get response; difference: " +:+ dif_time) ;;;
  ret result.

(** [@ns1.marshal_list_with(response)] around the handler. *)
Definition resource (args : gmap string string) : M proc body :=
  result <~ get args ;;
  ret (VerdictBody (marshal_response result)).

Definition respond (h : M proc body) : proc -> response * proc :=
  fun s =>
    match h s with
    | (inr b, s') => (Ok b, s')
    | (inl e, s') => (Error e, s')
    end.

(** Routing: the one namespace [nli_model] with its [get]. *)
Definition dispatch (r : request) : proc -> response * proc :=
  if String.eqb (path r) "/nli_model/" then
    if String.eqb (method r) "GET"
    then respond (resource (args r))
    else fun s => (MethodNotAllowed, s)
  else fun s => (NotFound, s).

Fixpoint serve (incoming : list request) (s : proc) : list response * proc :=
  match incoming with
  | [] => ([], s)
  | r :: rest =>
      let (a, s1) := dispatch r s in
      let (answers, s2) := serve rest s1 in
      (a :: answers, s2)
  end.

(** What the reloader does in the process that reaches [app.run] first: it
    starts a child process with [WERKZEUG_RUN_MAIN] set, which executes
    [file] -- this script -- from its first statement, with globals of its
    own.  The first process serves nothing: it waits for the child and leaves
    with its exit status, which is 1 after an uncaught exception. *)
Definition restart_with_reloader (file : M proc (list response))
    : M proc (list response) :=
  fun s =>
    match file {| run_main := true; config := None; model := None; api := None;
                  ticks := ticks s; trace := trace s |} with
    | (inr answers, child) => (inr answers, child)
    | (inl _, child) =>
        (inl (SystemExit 1),
         {| run_main := run_main s; config := config s; model := model s;
            api := api s; ticks := ticks child; trace := trace child |})
    end.

(** [app.run(debug, port, host, threaded)].  The process that reaches the
    call first opens the socket.  With [debug] the reloader is on: that
    process hands over to a child, which serves on the socket it inherits
    when it reaches the call in its turn.  Without [debug] the process serves
    itself. *)
Definition app_run (file : M proc (list response))
    (debug : bool) (port : Z) (host : string) (threaded : bool)
    (incoming : list request) : M proc (list response) :=
  reloaded <~ gets run_main ;;
  (if reloaded then ret tt else emit (Listen debug port host threaded)) ;;;
  if debug && negb reloaded
  then restart_with_reloader file
  else fun s => let (answers, s') := serve incoming s in (inr answers, s').

(** [with open(config_path) as con_file: json.load(con_file)], in the
    process at hand. *)
Definition load_config (config_path : string) : M proc pyval :=
  fun s =>
    ((if run_main s then child_read_json config_path else read_json config_path),
     s).

(** [SentenceBertModel(logger, **config)], in the process at hand. *)
Definition call_load (c : pyval) : M proc Model :=
  emit (Construct c) ;;;
  fun s =>
    ((if run_main s then child_SentenceBertModel c else SentenceBertModel c), s).

(** [api.namespace(name, description=...)] *)
Definition add_namespace (name : string) (description : pyval) : M proc unit :=
  a <~ global "api" api ;;
  bind_api {| Start.version := Start.version a; Start.title := Start.title a;
              Start.namespaces := Start.namespaces a ++ [(name, description)] |}.

(** The module top level, lines 16-47. *)
Definition script (argv_config : option string) : M proc unit :=
  let config_path :=
    default "modules/configs/sentence_bert_config.json" argv_config in
  logger_info ("Reading config from " +:+ absolute config_path) ;;;
  c <~ load_config config_path ;;
  bind_config c ;;;
  c <~ global "config" config ;;
  logger_info ("Using config " +:+ format_pyval c) ;;;
  c <~ global "config" config ;;
  n <~ lift_exc (dict_get c "model_name" PyNone) ;;
  logger_info ("Loading model " +:+ format_pyval n +:+ "...") ;;;
  c <~ global "config" config ;;
  m <~ call_load c ;;
  bind_model m ;;;
  c <~ global "config" config ;;
  v <~ lift_exc (dict_get c "api_version" (PyStr "0.0")) ;;
  bind_api {| Start.version := v; Start.title := "Wikipedia fact checking API";
              Start.namespaces := [] |} ;;;
  c <~ global "config" config ;;
  d <~ lift_exc (dict_get c "model_name" (PyStr "Wikipedia NLI model")) ;;
  add_namespace "nli_model" d.

(** The file from its first statement to [app.run] under
    [if __name__ == '__main__']; [again] is what the reloader executes. *)
Definition file (again : M proc (list response)) (argv_config : option string)
    (__name__ : string) (incoming : list request) : M proc (list response) :=
  script argv_config ;;;
  if String.eqb __name__ "__main__"
  then app_run again true 8001 "0.0.0.0" true incoming
  else ret [].

(** The whole file, run as a program: the reloader executes the same file
    with the same command line; the child it starts has [WERKZEUG_RUN_MAIN]
    set and starts no reloader of its own. *)
Definition main (argv_config : option string) (__name__ : string)
    (incoming : list request) : M proc (list response) :=
  file (file (ret []) argv_config __name__ incoming)
    argv_config __name__ incoming.

Definition boot : proc :=
  {| run_main := false; config := None; model := None; api := None;
     ticks := 0; trace := [] |}.

End WithEnv.

End Api.

(** ** The parts of the repository that the specification describes and the
    sources do not contain *)

Module Spec.
Import Service.

(** Modelled from the spec: [check_if_none] of [modules.utils.logging_utils],
    the input normalisation of section 4.1: an absent or empty string fails
    with [InvalidInputError], any other string is passed on. *)
Definition check_if_none (x : pystr) : exn + pystr :=
  match x with
  | None => inl InvalidInputError
  | Some s => if String.eqb s "" then inl InvalidInputError else inr (Some s)
  end.

(** One evidence candidate of a claim: the sentence and its article. *)
Record candidate := {
  c_text : string;
  c_article : string
}.

(** One entry of a batch: the pair it was computed from and the outcome of
    the inference on it, a verdict or the failure. *)
Record entry (Raw : Type) := {
  e_claim : string;
  e_text : string;
  e_article : string;
  e_outcome : exn + Raw
}.
Arguments e_claim {Raw} _.
Arguments e_text {Raw} _.
Arguments e_article {Raw} _.
Arguments e_outcome {Raw} _.

(** Modelled from the spec: [WikiFactChecker.predict_all] of
    [modules.model_complex], the batch fact-check of section 4.3: the
    inference pipeline is run on each candidate of the claim independently,
    in the order of the candidates, and a failure on one pair is collected in
    its entry.  [retrieve] is the external retrieval collaborator, [infer]
    the inference pipeline of section 4.2. *)
Definition predict_all {Model Raw : Type}
    (retrieve : Model -> string -> list candidate)
    (infer : Model -> pystr -> pystr -> exn + Raw)
    (m : Model) (claim : pystr) : exn + list (entry Raw) :=
  match claim with
  | None => inl InvalidInputError
  | Some c =>
      inr ((fun cand => {| e_claim := c;
                           e_text := c_text cand;
                           e_article := c_article cand;
                           e_outcome := infer m (Some c) (Some (c_text cand)) |})
             <$> retrieve m c)
  end.


(** An environment with the input normalisation of the specification, for
    both files. *)
Definition with_check_if_none (E : ServiceEnv) : ServiceEnv :=
  {| Model := @Model E;
     float := @float E;
     Raw := @Raw E;
     RawRecord := @RawRecord E;
     clock := @clock E;
     str_timedelta := @str_timedelta E;
     absolute := @absolute E;
     format_pyval := @format_pyval E;
     read_json := @read_json E;
     Service.check_if_none := check_if_none;
     api_check_if_none := check_if_none;
     WikiFactChecker := @WikiFactChecker E;
     model_level_two_predict := @model_level_two_predict E;
     Service.predict_all := @Service.predict_all E;
     SentenceBertModel := @SentenceBertModel E;
     predict := @predict E;
     child_read_json := @child_read_json E;
     child_SentenceBertModel := @child_SentenceBertModel E;
     marshal_response := @marshal_response E;
     marshal_full := @marshal_full E |}.


End Spec.

(** ** What the claims about the trainer speak of *)

Module TrainerSpec.
Import ModelTrainer.

Section WithEnv.
Context {TE : TrainerEnv}.

(** The methods a caller can invoke on an instance. *)
Inductive method :=
| InitializeModel
| PreparingData
| PreparingDataFever
| PreparingDataMnli
| SaveModel
| LoadModel (text_model_path classifier_path : string)
| TrainModel (number_of_epochs : Z).

(** The state in which a method call leaves the instance and the world,
    whether it returns or raises. *)
Definition invoke (m : method) (s : state) : state :=
  match m with
  | InitializeModel => (initialize_model s).2
  | PreparingData => (preparing_data s).2
  | PreparingDataFever => (preparing_data_fever s).2
  | PreparingDataMnli => (preparing_data_mnli s).2
  | SaveModel => (save_model s).2
  | LoadModel a b => (load_model a b s).2
  | TrainModel n => (train_model n s).2
  end.

(** An instance right after its construction, in the world [w]. *)
Definition constructed (train_path dev_path test_path base_model : string)
    (batch_size : Z) (path_to_save : string) (w : World) : state :=
  let r := __init__ train_path dev_path test_path base_model batch_size path_to_save in
  {| self := r.1; world := w; calls := []; out := r.2 |}.

(** An instance after construction and any sequence of method calls. *)
Inductive instance : state -> Prop :=
| instance_new tp dp sp bm bs ps w :
    instance (constructed tp dp sp bm bs ps w)
| instance_call m s :
    instance s -> instance (invoke m s).

(** One epoch as the claim describes it: a fit, then the evaluation on the
    dev set, then the evaluation on the test set. *)
Definition dev_result (m : SentenceTransformer)
    (objs : list (DataLoader * SoftmaxLoss))
    (dev test : LabelAccuracyEvaluator) (w : World) : score :=
  (evaluate m dev (fit m objs w)).1.

Definition test_result (m : SentenceTransformer)
    (objs : list (DataLoader * SoftmaxLoss))
    (dev test : LabelAccuracyEvaluator) (w : World) : score :=
  (evaluate m test (evaluate m dev (fit m objs w)).2).1.

Definition after_epoch (m : SentenceTransformer)
    (objs : list (DataLoader * SoftmaxLoss))
    (dev test : LabelAccuracyEvaluator) (w : World) : World :=
  (evaluate m test (evaluate m dev (fit m objs w)).2).2.

(** The world after [k] epochs that started in [w]. *)
Fixpoint after_epochs (m : SentenceTransformer)
    (objs : list (DataLoader * SoftmaxLoss))
    (dev test : LabelAccuracyEvaluator) (k : nat) (w : World) : World :=
  match k with
  | O => w
  | S k' => after_epochs m objs dev test k' (after_epoch m objs dev test w)
  end.

(** The three library calls of one epoch. *)
Definition epoch_calls (m : SentenceTransformer)
    (objs : list (DataLoader * SoftmaxLoss))
    (dev test : LabelAccuracyEvaluator) : list call :=
  [CallFit m objs; CallEvaluate m dev; CallEvaluate m test].

(** A computation that leaves the label mapping of the instance as it is. *)
Definition keeps {A} (m : M state A) : Prop :=
  forall s, label2int (self (m s).2) = label2int (self s).

(** A row whose label is one of the two FEVER labels. *)
Definition fever_label (r : row) : Prop :=
  row3 r = "SUPPORTS" \/ row3 r = "REFUTES".

End WithEnv.

End TrainerSpec.

(** ** Concrete environments, on which the theorems are exercised *)

Module Demo.
Import ModelTrainer.

(** A trainer world that counts the fits; the score is that count. *)
#[local] Instance trainer_env : TrainerEnv := {|
  World := nat;
  score := nat;
  str_score := fun n => pretty (Z.of_nat n);
  snli_examples := fun _ _ _ =>
    inr [{| row0 := "s-1"; row1 := "A man sleeps."; row2 := "A man is awake.";
            row3 := "contradiction" |}];
  fever_examples := fun _ set_type _ =>
    inr [{| row0 := set_type +:+ "-1";
            row1 := "The Eiffel Tower is in Paris";
            row2 := "The Eiffel Tower is located in Paris, France";
            row3 := "SUPPORTS" |}];
  mnli_examples := fun _ _ _ => inl (OSError "no such file");
  fit := fun _ _ w => S w;
  evaluate := fun _ ev w => (w + length (sd_examples (dl_dataset (ev_dataloader ev))), w)%nat;
  model_error := fun _ _ => None;
  classifier_error := fun _ _ => None;
  torch_save := fun _ _ w => (None, w);
  model_save := fun _ _ w => (None, w)
|}.

Definition fresh : state :=
  TrainerSpec.constructed "train.csv" "dev.csv" "test.csv" "bert-base-uncased" 16 "out/" 0%nat.

Definition loader (n : nat) : DataLoader :=
  {| dl_dataset := {| sd_examples := replicate n {| guid := "g"; texts := ["a"; "b"]; label := 1 |};
                      sd_model := STModules "bert-base-uncased" 128 |};
     dl_shuffle := true;
     dl_batch_size := 16 |}.

(** A trainer whose model and loaders are set. *)
Definition prepared : state :=
  {| self := {| train_path := "train.csv"; dev_path := "dev.csv";
                test_path := "test.csv"; base_model := "bert-base-uncased";
                batch_size := 16; label2int := snli_label2int;
                path_to_save := "out/";
                model := Some (STModules "bert-base-uncased" 128);
                train_loss_nli := Some {| sl_model := STModules "bert-base-uncased" 128;
                                          sl_num_labels := 3;
                                          sl_classifier := ClassifierInit |};
                classification_model := None;
                train_dataloader_nli := Some (loader 3);
                dev_dataloader_nli := Some (loader 10);
                test_dataloader_nli := Some (loader 20) |};
     world := 0%nat;
     calls := [];
     out := [] |}.

End Demo.

(** ** What the claims about the service speak of *)

Module ServiceSpec.
Import Service.

(** A query parameter that is absent or the empty string. *)
Definition missing (args : gmap string string) (p : string) : Prop :=
  args !! p = None \/ args !! p = Some "".

(** The query parameters that the handler of a path reads with
    [request.args.get], in [start.py] and in [modules/api.py]. *)
Definition start_reads (path : string) : list string :=
  if String.eqb path "/nli_model/" then ["text"; "hypothesis"]
  else if String.eqb path "/fact_checking_model/" then ["claim"]
  else [].

Definition api_reads (path : string) : list string :=
  if String.eqb path "/nli_model/" then ["text"; "hypothesis"]
  else [].

Definition GET (path : string) (args : gmap string string) : request :=
  {| method := "GET"; path := path; args := args |}.

Section WithEnv.
Context {SE : ServiceEnv}.

Definition is_construct (e : event) : bool :=
  match e with
  | Construct _ => true
  | _ => false
  end.

(** A call into the model. *)
Definition is_prediction (e : event) : bool :=
  match e with
  | Predict _ _ _ | PredictAll _ _ => true
  | _ => false
  end.

Definition is_listen (e : event) : bool :=
  match e with
  | Listen _ _ _ _ => true
  | _ => false
  end.

(** What serving a request may add to the trace while the global
    [complex_model] is [bound]: log lines, and predictions on that model. *)
Definition request_event (bound : option Model) (e : event) : Prop :=
  match e with
  | LogInfo _ => True
  | Predict m _ _ | PredictAll m _ => bound = Some m
  | Construct _ | Listen _ _ _ _ => False
  end.

(** The value or exception of the [nli_model] handler of [start.py], as a
    function of the bound model and of the two parameters it reads. *)
Definition nli_outcome (bound : option Model) (text hypothesis : pystr)
    : exn + Raw :=
  match check_if_none text with
  | inl e => inl e
  | inr text =>
      match check_if_none hypothesis with
      | inl e => inl e
      | inr hypothesis =>
          match bound with
          | None => inl (NameError "complex_model")
          | Some m => model_level_two_predict m text hypothesis
          end
      end
  end.

(** The same for the [fact_checking_model] handler. *)
Definition fact_outcome (bound : option Model) (claim : pystr)
    : exn + list RawRecord :=
  match check_if_none claim with
  | inl e => inl e
  | inr claim =>
      match bound with
      | None => inl (NameError "complex_model")
      | Some m => predict_all m claim
      end
  end.

(** The same for the handler of [modules/api.py]. *)
Definition api_outcome (bound : option Model) (text hypothesis : pystr)
    : exn + Raw :=
  match api_check_if_none text with
  | inl e => inl e
  | inr text =>
      match api_check_if_none hypothesis with
      | inl e => inl e
      | inr hypothesis =>
          match bound with
          | None => inl (NameError "model")
          | Some m => predict m text hypothesis
          end
      end
  end.

(** The response of [start.py] to a request, as a function of the bound
    model and of the request alone. *)
Definition answer (bound : option Model) (r : request) : response :=
  if String.eqb (path r) "/nli_model/" then
    if String.eqb (method r) "GET" then
      match nli_outcome bound (args r !! "text") (args r !! "hypothesis") with
      | inr result => Ok (VerdictBody (marshal_response result))
      | inl e => Error e
      end
    else MethodNotAllowed
  else if String.eqb (path r) "/fact_checking_model/" then
    if String.eqb (method r) "GET" then
      match fact_outcome bound (args r !! "claim") with
      | inr result => Ok (ResultBody {| results := marshal_full <$> result |})
      | inl e => Error e
      end
    else MethodNotAllowed
  else NotFound.

(** The log lines of [start.py] that precede the construction of the model. *)
Definition startup_log (config_path : string) (cfg : pyval) : list event :=
  [LogInfo ("Reading config from " +:+ absolute config_path);
   LogInfo ("Using config " +:+ format_pyval cfg);
   LogInfo "Loading models ..."].

(** The addresses on which the process started to listen. *)
Definition listens (tr : list event) : list (Z * string) :=
  omap (fun e => match e with
                 | Listen _ port host _ => Some (port, host)
                 | _ => None
                 end) tr.

(** The configurations from which a model was constructed. *)
Definition constructions (tr : list event) : list pyval :=
  omap (fun e => match e with
                 | Construct cfg => Some cfg
                 | _ => None
                 end) tr.

(** The path of the configuration file: [--config] or its default. *)
Definition config_path (argv_config : option string) : string :=
  default "configs/inference/sentence_bert_config.json" argv_config.

End WithEnv.

(** The port and host that a configuration file names. *)
Definition configured_address (cfg : pyval) : option (Z * string) :=
  match cfg with
  | PyDict d =>
      match d !! "port", d !! "host" with
      | Some (PyInt port), Some (PyStr host) => Some (port, host)
      | _, _ => None
      end
  | _ => None
  end.

(** The server binds the port and the host that its configuration file
    names. *)
Definition binds_configured_address (SE : ServiceEnv)
    (argv_config : option string) (incoming : list request) : Prop :=
  forall cfg address,
    read_json (config_path argv_config) = inr cfg ->
    configured_address cfg = Some address ->
    listens (Start.trace (Start.main argv_config "__main__" incoming Start.boot).2)
      = [address].

End ServiceSpec.

Module DemoService.
Import Service.

Definition verdict : model_response Z :=
  {| label := "entailment"; contradiction_prob := 50;
     entailment_prob := 900; neutral_prob := 50 |}.

Definition record (claim text article : string) : Record_ Z :=
  {| r_claim := claim; r_text := text; r_article := article;
     r_label := Some "entailment"; r_contradiction_prob := 50;
     r_entailment_prob := 900; r_neutral_prob := 50 |}.

(** A configuration file that names a port and a host. *)
Definition config_file : pyval :=
  PyDict {[ "api_version" := PyStr "1.2";
            "model_name" := PyStr "Sentence-BERT NLI";
            "port" := PyInt 8080;
            "host" := PyStr "127.0.0.1" ]}.

(** Probabilities are in thousandths; the inference fails on an empty
    evidence sentence. *)
#[local] Instance env : ServiceEnv := {|
  Model := string;
  float := Z;
  Raw := model_response Z;
  RawRecord := Record_ Z;
  clock := fun k => 1000 + Z.of_nat k;
  str_timedelta := pretty;
  absolute := fun p => "/srv/fairapi/" +:+ p;
  format_pyval := fun _ => "{...}";
  read_json := fun _ => inr config_file;
  check_if_none := Spec.check_if_none;
  api_check_if_none := Spec.check_if_none;
  WikiFactChecker := fun _ => inr "wiki-fact-checker";
  model_level_two_predict := fun _ _ hypothesis =>
    match hypothesis with
    | Some "" => inl (InferenceError "empty evidence")
    | _ => inr verdict
    end;
  predict_all := fun _ claim =>
    inr [record (fmt claim) "The Eiffel Tower is located in Paris, France" "Eiffel Tower"];
  SentenceBertModel := fun _ => inr "sentence-bert";
  predict := fun _ _ _ => inr verdict;
  child_read_json := fun _ => inr config_file;
  child_SentenceBertModel := fun _ => inr "sentence-bert, reloaded";
  marshal_response := fun r => r;
  marshal_full := fun r => r
|}.

(** The same, with a model whose weights cannot be loaded. *)
Definition broken_env : ServiceEnv := {|
  Model := string;
  float := Z;
  Raw := model_response Z;
  RawRecord := Record_ Z;
  clock := fun k => 1000 + Z.of_nat k;
  str_timedelta := pretty;
  absolute := fun p => "/srv/fairapi/" +:+ p;
  format_pyval := fun _ => "{...}";
  read_json := fun _ => inr config_file;
  check_if_none := Spec.check_if_none;
  api_check_if_none := Spec.check_if_none;
  WikiFactChecker := fun _ => inl (ModelLoadError "weights missing");
  model_level_two_predict := fun _ _ _ => inr verdict;
  predict_all := fun _ _ => inr [];
  SentenceBertModel := fun _ => inl (ModelLoadError "weights missing");
  predict := fun _ _ _ => inr verdict;
  child_read_json := fun _ => inr config_file;
  child_SentenceBertModel := fun _ => inl (ModelLoadError "weights missing");
  marshal_response := fun r => r;
  marshal_full := fun r => r
|}.

(** Three candidates for a claim, the second one with an empty sentence. *)
Definition retrieve (m : string) (claim : string) : list Spec.candidate :=
  [ {| Spec.c_text := "The Eiffel Tower is located in Paris, France";
       Spec.c_article := "Eiffel Tower" |};
    {| Spec.c_text := ""; Spec.c_article := "Stub" |};
    {| Spec.c_text := "Paris is the capital of France";
       Spec.c_article := "Paris" |} ].



(** [GET /nli_model/?claim=...&hypothesis=...], as the route documents it. *)
Definition documented_request : request :=
  ServiceSpec.GET "/nli_model/"
    {[ "claim" := "The Eiffel Tower is in Paris";
       "hypothesis" := "The Eiffel Tower is located in Paris, France" ]}.

(** The same with the parameter names that the handler reads. *)
Definition read_request : request :=
  ServiceSpec.GET "/nli_model/"
    {[ "text" := "The Eiffel Tower is in Paris";
       "hypothesis" := "The Eiffel Tower is located in Paris, France" ]}.

Definition empty_hypothesis_request : request :=
  ServiceSpec.GET "/nli_model/"
    {[ "text" := "The Eiffel Tower is in Paris"; "hypothesis" := "" ]}.

Definition fact_request : request :=
  ServiceSpec.GET "/fact_checking_model/"
    {[ "claim" := "The Eiffel Tower is in Paris" ]}.

(** A process of [start.py] that serves, right after its start and later. *)
Definition serving : @Start.proc env :=
  {| Start.config := Some config_file;
     Start.complex_model := Some ("wiki-fact-checker" : @Model env);
     Start.api := None; Start.ticks := 0; Start.trace := [] |}.

Definition serving_later : @Start.proc env :=
  {| Start.config := Some config_file;
     Start.complex_model := Some ("wiki-fact-checker" : @Model env);
     Start.api := None; Start.ticks := 41;
     Start.trace := [LogInfo "an earlier request"] |}.

(** The same process with the input normalisation of the specification. *)
Definition serving_checked : @Start.proc (Spec.with_check_if_none env) :=
  {| Start.config := Some config_file;
     Start.complex_model := Some ("wiki-fact-checker" : @Model env);
     Start.api := None; Start.ticks := 0; Start.trace := [] |}.


End DemoService.

(** ** What the further properties of the trainer speak of *)

Module TrainerLaws.
Import ModelTrainer TrainerSpec.

(** The example that a loop builds from a row and the id of its label. *)
Definition example_of (label_id : Z) (r : row) : InputExample :=
  {| guid := row0 r; texts := [row1 r; row2 r]; label := label_id |}.

(** The label of the first row, in order, that is not a key of the mapping. *)
Fixpoint first_missing (l2i : gmap string Z) (rows : list row) : option string :=
  match rows with
  | [] => None
  | r :: rest =>
      match l2i !! row3 r with
      | Some _ => first_missing l2i rest
      | None => Some (row3 r)
      end
  end.

(** The examples of the rows whose label is a key, in the order of the rows. *)
Definition examples_of (l2i : gmap string Z) (rows : list row) : list InputExample :=
  omap (fun r => (fun label_id => example_of label_id r) <$> l2i !! row3 r) rows.

(** A row and the example built from it. *)
Definition built_from (l2i : gmap string Z) (r : row) (ex : InputExample) : Prop :=
  exists label_id, l2i !! row3 r = Some label_id /\ ex = example_of label_id r.

(** The loader that a [preparing_data*] method builds from rows. *)
Definition loader_of (t : BertTrainer) (m : SentenceTransformer) (rows : list row)
    : DataLoader :=
  {| dl_dataset := {| sd_examples := examples_of (label2int t) rows; sd_model := m |};
     dl_shuffle := true;
     dl_batch_size := batch_size t |}.

(** The trainer with its three loaders replaced. *)
Definition with_loaders (t : BertTrainer) (train dev test : DataLoader) : BertTrainer :=
  {| train_path := train_path t; dev_path := dev_path t;
     test_path := test_path t; base_model := base_model t;
     batch_size := batch_size t; label2int := label2int t;
     path_to_save := path_to_save t; model := model t;
     train_loss_nli := train_loss_nli t;
     classification_model := classification_model t;
     train_dataloader_nli := Some train;
     dev_dataloader_nli := Some dev;
     test_dataloader_nli := Some test |}.

(** The trainer with its train loader replaced, and with its dev loader
    replaced. *)
Definition with_train (t : BertTrainer) (train : DataLoader) : BertTrainer :=
  {| train_path := train_path t; dev_path := dev_path t;
     test_path := test_path t; base_model := base_model t;
     batch_size := batch_size t; label2int := label2int t;
     path_to_save := path_to_save t; model := model t;
     train_loss_nli := train_loss_nli t;
     classification_model := classification_model t;
     train_dataloader_nli := Some train;
     dev_dataloader_nli := dev_dataloader_nli t;
     test_dataloader_nli := test_dataloader_nli t |}.

Definition with_dev (t : BertTrainer) (dev : DataLoader) : BertTrainer :=
  {| train_path := train_path t; dev_path := dev_path t;
     test_path := test_path t; base_model := base_model t;
     batch_size := batch_size t; label2int := label2int t;
     path_to_save := path_to_save t; model := model t;
     train_loss_nli := train_loss_nli t;
     classification_model := classification_model t;
     train_dataloader_nli := train_dataloader_nli t;
     dev_dataloader_nli := Some dev;
     test_dataloader_nli := test_dataloader_nli t |}.

(** The dataset that a [preparing_data*] method builds from rows. *)
Definition dataset_of (t : BertTrainer) (m : SentenceTransformer) (rows : list row)
    : SentencesDataset :=
  {| sd_examples := examples_of (label2int t) rows; sd_model := m |}.

(** The three loaders, built and assigned one after the other: the outcome,
    and the trainer at that point. *)
Definition set_loaders (t : BertTrainer) (m : SentenceTransformer)
    (rows_train rows_dev rows_test : list row) : (exn + unit) * BertTrainer :=
  match new_dataloader (dataset_of t m rows_train) (batch_size t) with
  | inl e => (inl e, t)
  | inr train =>
      match new_dataloader (dataset_of t m rows_dev) (batch_size t) with
      | inl e => (inl e, with_train t train)
      | inr dev =>
          match new_dataloader (dataset_of t m rows_test) (batch_size t) with
          | inl e => (inl e, with_dev (with_train t train) dev)
          | inr test => (inr tt, with_loaders t train dev test)
          end
      end
  end.

(** The trainer with its model replaced, and nothing else. *)
Definition with_only_model (t : BertTrainer) (m : SentenceTransformer) : BertTrainer :=
  {| train_path := train_path t; dev_path := dev_path t;
     test_path := test_path t; base_model := base_model t;
     batch_size := batch_size t; label2int := label2int t;
     path_to_save := path_to_save t; model := Some m;
     train_loss_nli := train_loss_nli t;
     classification_model := classification_model t;
     train_dataloader_nli := train_dataloader_nli t;
     dev_dataloader_nli := dev_dataloader_nli t;
     test_dataloader_nli := test_dataloader_nli t |}.

(** The trainer with its model and loss replaced, and possibly its loaded
    classifier. *)
Definition with_model (t : BertTrainer) (m : SentenceTransformer) (l : SoftmaxLoss)
    (c : option Classifier) : BertTrainer :=
  {| train_path := train_path t; dev_path := dev_path t;
     test_path := test_path t; base_model := base_model t;
     batch_size := batch_size t; label2int := label2int t;
     path_to_save := path_to_save t; model := Some m;
     train_loss_nli := Some l;
     classification_model := c;
     train_dataloader_nli := train_dataloader_nli t;
     dev_dataloader_nli := dev_dataloader_nli t;
     test_dataloader_nli := test_dataloader_nli t |}.

(** The attributes that the constructor sets from its arguments. *)
Definition constructor_attributes (t : BertTrainer)
    : string * string * string * string * Z * string :=
  (train_path t, dev_path t, test_path t, base_model t, batch_size t, path_to_save t).

(** The loaders that are set. *)
Definition loaders (t : BertTrainer) : list DataLoader :=
  omap id [train_dataloader_nli t; dev_dataloader_nli t; test_dataloader_nli t].

(** An example whose label is a class index of a three-way softmax and whose
    texts are a pair. *)
Definition valid_example (ex : InputExample) : Prop :=
  0 <= label ex < 3 /\ length (texts ex) = 2%nat.

(** A loader that shuffles, has the batch size of the trainer, a positive
    one, and holds at least one example, all of them valid. *)
Definition valid_loader (t : BertTrainer) (d : DataLoader) : Prop :=
  dl_shuffle d = true /\
  dl_batch_size d = batch_size t /\
  0 < dl_batch_size d /\
  sd_examples (dl_dataset d) <> [] /\
  Forall valid_example (sd_examples (dl_dataset d)).

(** The loss, when set, has three labels, and its classifier is a new one
    or the classifier loaded last; a loss, a loaded classifier or a loader is
    set only once a model is; every loader that is set is valid. *)
Definition consistent (t : BertTrainer) : Prop :=
  (forall l, train_loss_nli t = Some l ->
             sl_num_labels l = 3%nat /\
             (sl_classifier l = ClassifierInit \/
              classification_model t = Some (sl_classifier l))) /\
  (is_Some (train_loss_nli t) \/ is_Some (classification_model t) ->
   is_Some (model t)) /\
  forall d, d ∈ loaders t -> valid_loader t d /\ is_Some (model t).

Section WithEnv.
Context {TE : TrainerEnv}.

(** The state with another trainer object. *)
Definition with_self (s : state) (t : BertTrainer) : state :=
  {| self := t; world := world s; calls := calls s; out := out s |}.

(** The state with more output. *)
Definition with_out (s : state) (o : list output) : state :=
  {| self := self s; world := world s; calls := calls s; out := out s ++ o |}.

(** The state in another world. *)
Definition with_world (s : state) (w : World) : state :=
  {| self := self s; world := w; calls := calls s; out := out s |}.

(** A computation that leaves [f] of the trainer as it is, whether it
    returns or raises. *)
Definition keeps_by {X A} (f : BertTrainer -> X) (m : M state A) : Prop :=
  forall s, f (self (m s).2) = f (self s).

(** The first attribute, in the order in which [train_model] reads them
    before its loop, that is not set. *)
Definition first_unset (t : BertTrainer) : option string :=
  match train_dataloader_nli t, train_loss_nli t,
        test_dataloader_nli t, dev_dataloader_nli t with
  | None, _, _, _ => Some "train_dataloader_nli"
  | _, None, _, _ => Some "train_loss_nli"
  | _, _, None, _ => Some "test_dataloader_nli"
  | _, _, _, None => Some "dev_dataloader_nli"
  | Some _, Some _, Some _, Some _ => None
  end.

(** A sequence of method calls on an instance. *)
Definition run (ms : list method) (s : state) : state :=
  foldl (fun s m => invoke m s) s ms.

(** The trainer is ready for [train_model]. *)
Definition ready (t : BertTrainer) : Prop :=
  is_Some (train_dataloader_nli t) /\
  is_Some (dev_dataloader_nli t) /\
  is_Some (test_dataloader_nli t).

End WithEnv.

End TrainerLaws.

(** ** What the further properties of the service speak of *)

Module ServiceLaws.
Import Service ServiceSpec.

(** A configuration that is a JSON object. *)
Definition is_object (cfg : pyval) : Prop := exists d, cfg = PyDict d.

(** The value of a key of an object, or the fallback when the key is absent. *)
Definition entry (d : gmap string pyval) (key : string) (fallback : pyval) : pyval :=
  default fallback (d !! key).

Section WithEnv.
Context {SE : ServiceEnv}.

(** The number of calls into the model in a trace. *)
Definition predictions (tr : list event) : nat :=
  length (List.filter is_prediction tr).

(** The log lines of [modules/api.py] that precede the construction of the
    model, for a configuration object [d]. *)
Definition api_startup_log (config_path : string) (d : gmap string pyval)
    : list event :=
  [LogInfo ("Reading config from " +:+ absolute config_path);
   LogInfo ("Using config " +:+ format_pyval (PyDict d));
   LogInfo ("Loading model " +:+ format_pyval (entry d "model_name" PyNone) +:+ "...")].

(** The response of [modules/api.py] to a request, as a function of the
    bound model and of the request alone. *)
Definition api_answer (bound : option Model) (r : request) : response :=
  if String.eqb (path r) "/nli_model/" then
    if String.eqb (method r) "GET" then
      match api_outcome bound (args r !! "text") (args r !! "hypothesis") with
      | inr result => Ok (VerdictBody (marshal_response result))
      | inl e => Error e
      end
    else MethodNotAllowed
  else NotFound.

(** The path of the configuration file of [modules/api.py]. *)
Definition api_config_path (argv_config : option string) : string :=
  default "modules/configs/sentence_bert_config.json" argv_config.

(** The reading of the configuration file and the constructor of the model
    in a process of [modules/api.py], started by the reloader or not. *)
Definition api_read_json (reloaded : bool) (config_path : string) : exn + pyval :=
  if reloaded then child_read_json config_path else read_json config_path.

Definition api_constructor (reloaded : bool) (cfg : pyval) : exn + Model :=
  if reloaded then child_SentenceBertModel cfg else SentenceBertModel cfg.

End WithEnv.

End ServiceLaws.

(** ** Further concrete environments *)

Module DemoTrainer.
Import ModelTrainer.

Definition snli_row (n : string) (gold : string) : row :=
  {| row0 := n; row1 := "A man inspects a uniform.";
     row2 := "The man is sleeping."; row3 := gold |}.

(** SNLI files in which the second training row has no gold label, and MNLI
    files whose rows all have one. *)
Definition files_env : TrainerEnv := {|
  World := nat;
  score := nat;
  str_score := fun n => pretty (Z.of_nat n);
  snli_examples := fun _ set_type _ =>
    if String.eqb set_type "train_s"
    then inr [snli_row "t-1" "neutral"; snli_row "t-2" "-"; snli_row "t-3" "entailment"]
    else inr [snli_row "d-1" "contradiction"];
  fever_examples := fun _ _ _ => inl (OSError "no such file");
  mnli_examples := fun _ set_type _ =>
    if String.eqb set_type "train_s"
    then inr [snli_row "m-1" "neutral"; snli_row "m-2" "entailment"]
    else inr [snli_row "m-3" "contradiction"];
  fit := fun _ _ w => S w;
  evaluate := fun _ _ w => (w, w);
  model_error := fun _ _ => None;
  classifier_error := fun _ _ => None;
  torch_save := fun _ _ w => (None, w);
  model_save := fun _ _ w => (None, w)
|}.

(** A machine on which things go wrong: the dev file has no rows, the
    classifier file [missing] cannot be loaded, and the model cannot be saved
    once the classifier file is written. *)
Definition faulty_env : TrainerEnv := {|
  World := nat;
  score := nat;
  str_score := fun n => pretty (Z.of_nat n);
  snli_examples := fun _ set_type _ =>
    if String.eqb set_type "dev_s"
    then inr []
    else inr [snli_row "t-1" "neutral"; snli_row "t-2" "entailment"];
  fever_examples := fun _ _ _ => inl (OSError "no such file");
  mnli_examples := fun _ _ _ => inl (OSError "no such file");
  fit := fun _ _ w => S w;
  evaluate := fun _ _ w => (w, w);
  model_error := fun _ _ => None;
  classifier_error := fun c _ =>
    match c with
    | ClassifierPath "missing" => Some (OSError "No such file or directory")
    | _ => None
    end;
  torch_save := fun _ _ w => (None, S w);
  model_save := fun _ _ w => (Some (OSError "No space left on device"), w)
|}.

(** A trainer on that machine, after [initialize_model]. *)
Definition faulty_initialized : @state faulty_env :=
  @TrainerSpec.invoke faulty_env TrainerSpec.InitializeModel
    (@TrainerSpec.constructed faulty_env "train.tsv" "dev.tsv" "test.tsv"
       "bert-base-uncased" 16 "out/" 0%nat).

(** A new trainer on these files, and the same after [initialize_model]. *)
Definition fresh : @state files_env :=
  @TrainerSpec.constructed files_env "train.tsv" "dev.tsv" "test.tsv"
    "bert-base-uncased" 16 "out/" 0%nat.

Definition initialized : @state files_env :=
  @TrainerSpec.invoke files_env TrainerSpec.InitializeModel fresh.

(** The trainer of [Demo] after [initialize_model], and after
    [preparing_data] as well. *)
Definition demo_initialized : @state Demo.trainer_env :=
  @TrainerSpec.invoke Demo.trainer_env TrainerSpec.InitializeModel Demo.fresh.

Definition demo_ready : @state Demo.trainer_env :=
  @TrainerLaws.run Demo.trainer_env
    [TrainerSpec.InitializeModel; TrainerSpec.PreparingData] Demo.fresh.

End DemoTrainer.

Module DemoStartup.
Import Service.

(** The entries of the configuration file of [DemoService]. *)
Definition config_object : gmap string pyval :=
  {[ "api_version" := PyStr "1.2";
     "model_name" := PyStr "Sentence-BERT NLI";
     "port" := PyInt 8080;
     "host" := PyStr "127.0.0.1" ]}.

(** The environment of [DemoService] with another way to read the
    configuration file. *)
Definition with_read_json (read : string -> exn + pyval) : ServiceEnv := {|
  Model := string;
  float := Z;
  Raw := model_response Z;
  RawRecord := Record_ Z;
  clock := fun k => 1000 + Z.of_nat k;
  str_timedelta := pretty;
  absolute := fun p => "/srv/fairapi/" +:+ p;
  format_pyval := fun _ => "{...}";
  read_json := read;
  check_if_none := Spec.check_if_none;
  api_check_if_none := Spec.check_if_none;
  WikiFactChecker := fun _ => inr "wiki-fact-checker";
  model_level_two_predict := fun _ _ _ => inr DemoService.verdict;
  predict_all := fun _ _ => inr [];
  SentenceBertModel := fun _ => inr "sentence-bert";
  predict := fun _ _ _ => inr DemoService.verdict;
  child_read_json := read;
  child_SentenceBertModel := fun _ => inr "sentence-bert, reloaded";
  marshal_response := fun r => r;
  marshal_full := fun r => r
|}.

(** No configuration file. *)
Definition no_file_env : ServiceEnv :=
  with_read_json (fun _ => inl (OSError "No such file or directory")).

(** A configuration file that holds a JSON list. *)
Definition list_file_env : ServiceEnv :=
  with_read_json (fun _ => inr (PyList [PyStr "model"; PyInt 80])).

(** A configuration file with the entries above. *)
Definition object_file_env : ServiceEnv :=
  with_read_json (fun _ => inr (PyDict config_object)).

(** The same, on a machine on which the model can be constructed in the
    first process and not in the child that the reloader starts. *)
Definition reload_fails_env : ServiceEnv := {|
  Model := string;
  float := Z;
  Raw := model_response Z;
  RawRecord := Record_ Z;
  clock := fun k => 1000 + Z.of_nat k;
  str_timedelta := pretty;
  absolute := fun p => "/srv/fairapi/" +:+ p;
  format_pyval := fun _ => "{...}";
  read_json := fun _ => inr (PyDict config_object);
  check_if_none := Spec.check_if_none;
  api_check_if_none := Spec.check_if_none;
  WikiFactChecker := fun _ => inr "wiki-fact-checker";
  model_level_two_predict := fun _ _ _ => inr DemoService.verdict;
  predict_all := fun _ _ => inr [];
  SentenceBertModel := fun _ => inr "sentence-bert";
  predict := fun _ _ _ => inr DemoService.verdict;
  child_read_json := fun _ => inr (PyDict config_object);
  child_SentenceBertModel := fun _ => inl (ModelLoadError "CUDA out of memory");
  marshal_response := fun r => r;
  marshal_full := fun r => r
|}.

Definition serving : @Start.proc object_file_env :=
  {| Start.config := Some (PyDict config_object);
     Start.complex_model := Some ("model" : @Model object_file_env);
     Start.api := None; Start.ticks := 0; Start.trace := [] |}.

Definition api_serving : @Api.proc object_file_env :=
  {| Api.run_main := true;
     Api.config := Some (PyDict config_object);
     Api.model := Some ("model" : @Model object_file_env);
     Api.api := None; Api.ticks := 7; Api.trace := [] |}.

(** Two requests for the same claim, the second with a stray parameter. *)
Definition claim_args : gmap string string :=
  {[ "claim" := "The Eiffel Tower is in Paris" ]}.

Definition claim_args_more : gmap string string :=
  {[ "claim" := "The Eiffel Tower is in Paris"; "text" := "ignored" ]}.

End DemoStartup.

(** * Theorems *)

(** ** The trainer *)

Section TrainerProofs.
Import ModelTrainer TrainerSpec.
Context {TE : TrainerEnv}.

Lemma keeps_ret {A} (a : A) : keeps (ret a).
Proof. intros s. reflexivity. Qed.

Lemma keeps_raise {A} (e : exn) : keeps (@raise state A e).
Proof. intros s. reflexivity. Qed.

Lemma keeps_gets {A} (f : state -> A) : keeps (gets f).
Proof. intros s. reflexivity. Qed.

Lemma keeps_bind {A B} (m : M state A) (k : A -> M state B) :
  keeps m -> (forall a, keeps (k a)) -> keeps (bind m k).
Proof.
  intros Hm Hk s. unfold bind. specialize (Hm s).
  destruct (m s) as [[e|a] s1]; simpl in *; [exact Hm|].
  rewrite (Hk a s1). exact Hm.
Qed.

Lemma keeps_for_each {A B} (xs : list A) (body : A -> B -> M state B) (acc : B) :
  (forall x b, keeps (body x b)) -> keeps (for_each xs body acc).
Proof.
  intros Hbody. revert acc.
  induction xs as [|x xs IH]; intros acc; simpl.
  - apply keeps_ret.
  - apply keeps_bind; [apply Hbody | exact IH].
Qed.

Lemma keeps_getattr {A} (name : string) (f : BertTrainer -> option A) :
  keeps (getattr name f).
Proof. intros s. unfold getattr. destruct (f (self s)); reflexivity. Qed.

Lemma keeps_emit (o : output) : keeps (emit o).
Proof. intros s. reflexivity. Qed.

Lemma keeps_set_self (f : BertTrainer -> BertTrainer) :
  (forall t, label2int (f t) = label2int t) -> keeps (set_self f).
Proof. intros Hf s. simpl. apply Hf. Qed.

Lemma keeps_read_examples reader (p set_type : string) :
  keeps (read_examples reader p set_type).
Proof. intros s. reflexivity. Qed.

Lemma keeps_call_fit m objs : keeps (call_fit m objs).
Proof. intros s. reflexivity. Qed.

Lemma keeps_call_evaluate m ev : keeps (call_evaluate m ev).
Proof. intros s. reflexivity. Qed.

Lemma keeps_construct (err : World -> option exn) : keeps (construct err).
Proof. intros s. unfold construct. destruct (err (world s)); reflexivity. Qed.

Lemma keeps_call_save (save : World -> option exn * World) : keeps (call_save save).
Proof. intros s. reflexivity. Qed.

Lemma keeps_lift_exc {A} (r : exn + A) : keeps (@lift_exc state A r).
Proof. intros s. reflexivity. Qed.

Lemma keeps_index_last {A} (l : list A) : keeps (@index_last state A l).
Proof. intros s. unfold index_last. destruct (last l); reflexivity. Qed.

Lemma keeps_nli_sample r samples : keeps (nli_sample r samples).
Proof.
  intros s. unfold nli_sample, bind, gets. simpl.
  destruct (label2int (self s) !! row3 r); reflexivity.
Qed.

Create HintDb keeps.
#[local] Hint Resolve keeps_ret keeps_raise keeps_gets keeps_getattr keeps_emit
  keeps_read_examples keeps_call_fit keeps_call_evaluate keeps_construct
  keeps_call_save keeps_lift_exc
  keeps_index_last keeps_nli_sample : keeps.

(** Walks through a method body, one bind at a time. *)
Ltac keeps_step :=
  first
    [ solve [auto with keeps]
    | apply keeps_set_self; intros ?; reflexivity
    | apply keeps_for_each; intros ? ?
    | apply keeps_bind; [|intros ?] ].

Ltac keeps_body := repeat keeps_step.

Lemma keeps_samples_and_loaders a b c : keeps (samples_and_loaders a b c).
Proof.
  unfold samples_and_loaders, nli_samples, make_dataloader,
    set_train_dataloader, set_dev_dataloader, set_test_dataloader.
  keeps_body.
Qed.

Lemma keeps_preparing_with reader : keeps (preparing_with reader).
Proof.
  pose proof keeps_samples_and_loaders.
  unfold preparing_with, logger_info. keeps_body.
Qed.

Lemma keeps_epoch objs dev test i acc : keeps (epoch objs dev test i acc).
Proof. unfold epoch, print. cbv zeta. keeps_body. Qed.

Lemma keeps_invoke m s : label2int (self (invoke m s)) = label2int (self s).
Proof.
  destruct m; unfold invoke.
  - revert s. change (keeps initialize_model). unfold initialize_model. keeps_body.
  - apply keeps_preparing_with.
  - apply keeps_preparing_with.
  - revert s. change (keeps preparing_data_mnli).
    unfold preparing_data_mnli, nli_samples, make_dataloader, logger_info, print,
      set_train_dataloader, set_dev_dataloader, set_test_dataloader.
    keeps_body.
  - revert s. change (keeps save_model). unfold save_model. keeps_body.
  - revert s. change (keeps (load_model text_model_path classifier_path)).
    unfold load_model. keeps_body.
  - revert s. change (keeps (train_model number_of_epochs)).
    pose proof keeps_epoch.
    unfold train_model, logger_info. cbv zeta. keeps_body.
Qed.

(** The mapping of every instance is the one the constructor chose. *)
Lemma instance_label2int s : instance s -> label2int (self s) = snli_label2int.
Proof.
  induction 1 as [tp dp sp bm bs ps w | m s Hs IH].
  - reflexivity.
  - rewrite keeps_invoke. exact IH.
Qed.

Lemma for_each_cons {S A B} (x : A) (xs : list A) (body : A -> B -> M S B)
    (acc : B) (s : S) :
  for_each (x :: xs) body acc s =
  match body x acc s with
  | (inl e, s') => (inl e, s')
  | (inr b, s') => for_each xs body b s'
  end.
Proof. reflexivity. Qed.

Lemma nli_sample_eval r acc s :
  nli_sample r acc s =
  match label2int (self s) !! row3 r with
  | Some id => (inr (acc ++ [{| guid := row0 r; texts := [row1 r; row2 r];
                                label := id |}]), s)
  | None => (inl (KeyError (row3 r)), s)
  end.
Proof.
  unfold nli_sample, bind, gets.
  destruct (label2int (self s) !! row3 r); reflexivity.
Qed.

(** The loop over the rows reads the state and never writes it; it returns
    only when every label is a key of the mapping, and otherwise raises the
    [KeyError] of a label that is not. *)
Lemma nli_loop rows acc s :
  (for_each rows nli_sample acc s).2 = s /\
  match (for_each rows nli_sample acc s).1 with
  | inr samples =>
      Forall (fun r => is_Some (label2int (self s) !! row3 r)) rows /\
      length samples = (length acc + length rows)%nat
  | inl e =>
      exists k, e = KeyError k /\ label2int (self s) !! k = None /\
                k ∈ row3 <$> rows
  end.
Proof.
  revert acc. induction rows as [|r rows IH]; intros acc.
  - simpl. split; [reflexivity|]. split; [constructor | lia].
  - rewrite for_each_cons, nli_sample_eval.
    destruct (label2int (self s) !! row3 r) as [id|] eqn:Hr; simpl.
    + destruct (IH (acc ++ [{| guid := row0 r; texts := [row1 r; row2 r];
                               label := id |}])) as [Hs Hm].
      split; [exact Hs|].
      destruct (for_each rows nli_sample _ s).1 as [e|samples].
      * destruct Hm as (k & -> & Hk & Hin).
        exists k. split; [reflexivity|]. split; [exact Hk|].
        apply list_elem_of_further. exact Hin.
      * destruct Hm as [Hall Hlen]. split.
        -- constructor; [rewrite Hr; eauto | exact Hall].
        -- rewrite Hlen, length_app. simpl. lia.
    + split; [reflexivity|].
      exists (row3 r). split; [reflexivity|]. split; [exact Hr|].
      apply list_elem_of_here.
Qed.

Lemma fever_label_not_snli r : fever_label r -> snli_label2int !! row3 r = None.
Proof. intros [-> | ->]; reflexivity. Qed.

(** Once the three files are read, a [preparing_data*] method is the log
    line followed by the loops and the loaders. *)
Lemma preparing_with_eval reader s rows_train rows_dev rows_test :
  reader (train_path (self s)) "train_s" (world s) = inr rows_train ->
  reader (dev_path (self s)) "dev_s" (world s) = inr rows_dev ->
  reader (test_path (self s)) "test_s" (world s) = inr rows_test ->
  preparing_with reader s =
  samples_and_loaders rows_train rows_dev rows_test
    {| self := self s; world := world s; calls := calls s;
       out := out s ++ [LogInfo "Read train dataset"] |}.
Proof.
  intros Htrain Hdev Htest.
  unfold preparing_with, bind, gets, read_examples, logger_info, emit, modify.
  simpl. rewrite Htrain, Hdev, Htest. reflexivity.
Qed.

(** A label outside the mapping, in any of the three lists, stops the
    method in one of its loops, before a loader is built. *)
Lemma samples_and_loaders_KeyError s rows_train rows_dev rows_test :
  Exists (fun r => label2int (self s) !! row3 r = None)
         (rows_train ++ rows_dev ++ rows_test) ->
  exists k,
    samples_and_loaders rows_train rows_dev rows_test s = (inl (KeyError k), s) /\
    label2int (self s) !! k = None /\
    k ∈ row3 <$> (rows_train ++ rows_dev ++ rows_test).
Proof.
  intros Hbad.
  unfold samples_and_loaders, nli_samples.
  destruct (nli_loop rows_train [] s) as [Hs1 Hm1].
  unfold bind at 1.
  destruct (for_each rows_train nli_sample [] s) as [[e1|x1] s2];
    simpl in Hs1, Hm1; subst s2.
  { destruct Hm1 as (k & -> & Hk & Hin). exists k.
    split; [reflexivity|]. split; [exact Hk|].
    rewrite fmap_app. apply elem_of_app. left. exact Hin. }
  destruct Hm1 as [Hall1 _].
  destruct (nli_loop rows_dev [] s) as [Hs2 Hm2].
  unfold bind at 1.
  destruct (for_each rows_dev nli_sample [] s) as [[e2|x2] s2];
    simpl in Hs2, Hm2; subst s2.
  { destruct Hm2 as (k & -> & Hk & Hin). exists k.
    split; [reflexivity|]. split; [exact Hk|].
    rewrite !fmap_app. apply elem_of_app. right. apply elem_of_app. left. exact Hin. }
  destruct Hm2 as [Hall2 _].
  destruct (nli_loop rows_test [] s) as [Hs3 Hm3].
  unfold bind at 1.
  destruct (for_each rows_test nli_sample [] s) as [[e3|x3] s2];
    simpl in Hs3, Hm3; subst s2.
  { destruct Hm3 as (k & -> & Hk & Hin). exists k.
    split; [reflexivity|]. split; [exact Hk|].
    rewrite !fmap_app. apply elem_of_app. right. apply elem_of_app. right. exact Hin. }
  destruct Hm3 as [Hall3 _].
  exfalso.
  apply Exists_exists in Hbad. destruct Hbad as (r & Hin & Hnone).
  assert (is_Some (label2int (self s) !! row3 r)) as [v Hv].
  { rewrite !elem_of_app in Hin.
    destruct Hin as [Hin | [Hin | Hin]];
      [ exact (proj1 (Forall_forall _ _) Hall1 r Hin)
      | exact (proj1 (Forall_forall _ _) Hall2 r Hin)
      | exact (proj1 (Forall_forall _ _) Hall3 r Hin) ]. }
  congruence.
Qed.

(** C10: every [BertTrainer] instance carries the three-way SNLI mapping --
    the two-way FEVER mapping of the constructor's [else] branch is never
    chosen -- so [preparing_data_fever], which looks the FEVER labels up in
    it, raises a [KeyError] and sets no loader as soon as one of the rows
    read has the label SUPPORTS or REFUTES. *)
Theorem fever_labels_raise_KeyError s rows_train rows_dev rows_test :
  instance s ->
  fever_examples (train_path (self s)) "train_s" (world s) = inr rows_train ->
  fever_examples (dev_path (self s)) "dev_s" (world s) = inr rows_dev ->
  fever_examples (test_path (self s)) "test_s" (world s) = inr rows_test ->
  Exists fever_label (rows_train ++ rows_dev ++ rows_test) ->
  label2int (self s) = snli_label2int /\
  label2int (self s) <> fever_label2int /\
  exists k,
    (preparing_data_fever s).1 = inl (KeyError k) /\
    snli_label2int !! k = None /\
    k ∈ row3 <$> (rows_train ++ rows_dev ++ rows_test) /\
    self (preparing_data_fever s).2 = self s.
Proof.
  intros Hinst Htrain Hdev Htest Hbad.
  pose proof (instance_label2int s Hinst) as HL.
  split; [exact HL|]. split.
  { rewrite HL. intros Heq.
    assert (snli_label2int !! "neutral" = fever_label2int !! "neutral") as Hn
      by (rewrite Heq; reflexivity).
    vm_compute in Hn. discriminate Hn. }
  unfold preparing_data_fever.
  rewrite (preparing_with_eval _ _ _ _ _ Htrain Hdev Htest).
  set (s1 := {| self := self s; world := world s; calls := calls s;
                out := out s ++ [LogInfo "Read train dataset"] |}).
  destruct (samples_and_loaders_KeyError s1 rows_train rows_dev rows_test)
    as (k & Heq & Hk & Hin).
  { eapply Exists_impl; [exact Hbad|].
    intros r Hr. simpl. rewrite HL. apply fever_label_not_snli. exact Hr. }
  exists k. rewrite Heq. simpl in Hk. rewrite HL in Hk.
  split; [reflexivity|]. split; [exact Hk|]. split; [exact Hin|reflexivity].
Qed.

(** One pass through the loop body of [train_model]. *)
Lemma epoch_eval objs dev test i vp tp s m :
  model (self s) = Some m ->
  exists o,
    epoch objs dev test i (vp, tp) s =
    (inr (vp ++ [dev_result m objs dev test (world s)],
          tp ++ [test_result m objs dev test (world s)]),
     {| self := self s;
        world := after_epoch m objs dev test (world s);
        calls := calls s ++ epoch_calls m objs dev test;
        out := out s ++ o |}).
Proof.
  intros Hm.
  exists [Printed ("Iteration - " +:+ pretty (i + 1) +:+ " ...");
          Printed ("Validation performance - " +:+
                 str_score (dev_result m objs dev test (world s)) +:+ " ...");
          Printed ("Test performance - " +:+
                 str_score (test_result m objs dev test (world s)) +:+ " ...")].
  unfold epoch, bind, getattr, call_fit, call_evaluate, print, emit, modify,
    index_last, ret.
  repeat (progress (cbn [self world calls out fst snd];
                    rewrite ?Hm, ?last_snoc)).
  unfold dev_result, test_result, after_epoch, epoch_calls.
  rewrite <- !app_assoc. reflexivity.
Qed.

(** The loop of [train_model] over [k] epoch indices starting at [a]. *)
Lemma epochs_eval objs dev test m k :
  forall (a : nat) vp tp s,
    model (self s) = Some m ->
    exists o,
      for_each (Z.of_nat <$> seq a k) (epoch objs dev test) (vp, tp) s =
      (inr (vp ++ ((fun j => dev_result m objs dev test
                               (after_epochs m objs dev test j (world s)))
                     <$> seq 0 k),
            tp ++ ((fun j => test_result m objs dev test
                               (after_epochs m objs dev test j (world s)))
                     <$> seq 0 k)),
       {| self := self s;
          world := after_epochs m objs dev test k (world s);
          calls := calls s ++ mjoin (replicate k (epoch_calls m objs dev test));
          out := out s ++ o |}).
Proof.
  induction k as [|k IH]; intros a vp tp s Hm.
  - exists []. simpl. unfold ret. rewrite !app_nil_r.
    destruct s; reflexivity.
  - destruct (epoch_eval objs dev test (Z.of_nat a) vp tp s m Hm) as [o1 Hstep].
    cbn [seq]. rewrite fmap_cons, for_each_cons, Hstep.
    edestruct (IH (S a) (vp ++ [dev_result m objs dev test (world s)])
                 (tp ++ [test_result m objs dev test (world s)])
                 {| self := self s;
                    world := after_epoch m objs dev test (world s);
                    calls := calls s ++ epoch_calls m objs dev test;
                    out := out s ++ o1 |}) as [o2 Hrest]; [exact Hm|].
    exists (o1 ++ o2). rewrite Hrest.
    cbn [self world calls out].
    cbn [seq]. rewrite !fmap_cons, <- !fmap_S_seq, <- !list_fmap_compose.
    cbn [replicate mjoin list_join after_epochs].
    rewrite <- !app_assoc. reflexivity.
Qed.

(** C9: for every [n >= 0], on a trainer whose model, loss and loaders are
    set, [train_model(n)] runs [n] epochs -- a fit, the evaluation on the dev
    set and the evaluation on the test set, [n] times in this order -- and
    returns the two lists of length [n] whose elements at index [i] are the
    dev and the test result recorded right after the fit of epoch [i + 1]. *)
Theorem train_model_epochs s n m loss train_dl dev_dl test_dl :
  0 <= n ->
  model (self s) = Some m ->
  train_loss_nli (self s) = Some loss ->
  train_dataloader_nli (self s) = Some train_dl ->
  dev_dataloader_nli (self s) = Some dev_dl ->
  test_dataloader_nli (self s) = Some test_dl ->
  let objs := [(train_dl, loss)] in
  let dev := {| ev_dataloader := dev_dl; ev_name := "nli_test";
                ev_softmax_model := loss |} in
  let test := {| ev_dataloader := test_dl; ev_name := "nli_test";
                 ev_softmax_model := loss |} in
  exists validation_performance test_performance s',
    train_model n s = (inr (validation_performance, test_performance), s') /\
    Z.of_nat (length validation_performance) = n /\
    Z.of_nat (length test_performance) = n /\
    (forall i, (i < Z.to_nat n)%nat ->
       validation_performance !! i =
         Some (dev_result m objs dev test (after_epochs m objs dev test i (world s))) /\
       test_performance !! i =
         Some (test_result m objs dev test (after_epochs m objs dev test i (world s)))) /\
    calls s' = calls s ++ mjoin (replicate (Z.to_nat n) (epoch_calls m objs dev test)) /\
    world s' = after_epochs m objs dev test (Z.to_nat n) (world s) /\
    self s' = self s.
Proof.
  intros Hn Hm Hloss Htrain Hdev Htest objs dev test.
  destruct (epochs_eval objs dev test m (Z.to_nat n) 0 [] []
              {| self := self s; world := world s; calls := calls s;
                 out := out s ++ [LogInfo ("Warmup-steps: " +:+ pretty 10000)] |}
              Hm) as [o Hloop].
  eexists _, _, _. split.
  { unfold train_model. cbv zeta.
    unfold bind, logger_info, emit, modify, getattr.
    repeat (progress (cbn [self world calls out fst snd];
                      rewrite ?Htrain, ?Hloss, ?Htest, ?Hdev)).
    unfold range. exact Hloop. }
  cbn [app self world calls].
  rewrite !length_fmap, !length_seq.
  split; [lia|]. split; [lia|]. split; [|auto].
  intros i Hi.
  rewrite !list_lookup_fmap, !lookup_seq_lt by exact Hi.
  split; reflexivity.
Qed.

End TrainerProofs.

(** ** The service of [start.py] *)

Section StartProofs.
Import Service ServiceSpec Start.
Context {SE : ServiceEnv}.

(** Runs a handler body on a state, case by case. *)
Ltac run_handler :=
  unfold nli_model_get, fact_checking_model_get, nli_outcome, fact_outcome,
    call_predict, call_predict_all, bind, now, lift_exc, logger_info, emit,
    modify, global, ret;
  cbn [config complex_model api ticks trace fst snd];
  repeat match goal with
         | |- context [match check_if_none ?x with _ => _ end] =>
             destruct (check_if_none x); cbn [config complex_model api ticks trace fst snd]
         | |- context [match complex_model ?s with _ => _ end] =>
             destruct (complex_model s) eqn:?; cbn [config complex_model api ticks trace fst snd]
         | |- context [match model_level_two_predict ?m ?t ?h with _ => _ end] =>
             destruct (model_level_two_predict m t h); cbn [config complex_model api ticks trace fst snd]
         | |- context [match predict_all ?m ?c with _ => _ end] =>
             destruct (predict_all m c); cbn [config complex_model api ticks trace fst snd]
         end.

(** Closes a goal [exists added, tr' = tr ++ added /\ Forall _ added]. *)
Ltac trace_added :=
  eexists; split;
  [ rewrite <- ?app_assoc; try reflexivity; symmetry; apply app_nil_r
  | repeat constructor; simpl; auto ].

Lemma nli_model_get_outcome args s :
  (nli_model_get args s).1 =
  nli_outcome (complex_model s) (args !! "text") (args !! "hypothesis").
Proof. run_handler; reflexivity. Qed.

Lemma nli_model_get_frame args s :
  config (nli_model_get args s).2 = config s /\
  complex_model (nli_model_get args s).2 = complex_model s /\
  api (nli_model_get args s).2 = api s.
Proof. run_handler; auto. Qed.

Lemma nli_model_get_trace args s :
  exists added,
    trace (nli_model_get args s).2 = trace s ++ added /\
    Forall (request_event (complex_model s)) added.
Proof. run_handler; trace_added. Qed.

Lemma fact_checking_model_get_outcome args s :
  (fact_checking_model_get args s).1 =
  fact_outcome (complex_model s) (args !! "claim").
Proof. run_handler; reflexivity. Qed.

Lemma fact_checking_model_get_frame args s :
  config (fact_checking_model_get args s).2 = config s /\
  complex_model (fact_checking_model_get args s).2 = complex_model s /\
  api (fact_checking_model_get args s).2 = api s.
Proof. run_handler; auto. Qed.

Lemma fact_checking_model_get_trace args s :
  exists added,
    trace (fact_checking_model_get args s).2 = trace s ++ added /\
    Forall (request_event (complex_model s)) added.
Proof. run_handler; trace_added. Qed.

(** A parameter that [check_if_none] refuses ends the handler before its
    first log line and before any call into the model. *)
Lemma nli_model_get_refused args s e :
  check_if_none (args !! "text") = inl e \/
  (exists t, check_if_none (args !! "text") = inr t /\
             check_if_none (args !! "hypothesis") = inl e) ->
  (nli_model_get args s).1 = inl e /\
  trace (nli_model_get args s).2 = trace s.
Proof.
  intros [Ht | (t & Ht & Hh)];
    unfold nli_model_get, bind, now, lift_exc; simpl;
    rewrite Ht; simpl; [|rewrite Hh; simpl]; auto.
Qed.

Lemma fact_checking_model_get_refused args s e :
  check_if_none (args !! "claim") = inl e ->
  (fact_checking_model_get args s).1 = inl e /\
  trace (fact_checking_model_get args s).2 = trace s.
Proof.
  intros Hc. unfold fact_checking_model_get, bind, now, lift_exc; simpl.
  rewrite Hc. simpl. auto.
Qed.

(** The marshalling decorators and the conversion of an escaped exception
    into a response touch neither the globals nor the trace. *)
Lemma respond_nli args s :
  respond (nli_model_resource args) s =
  (match (nli_model_get args s).1 with
   | inr result => Ok (VerdictBody (marshal_response result))
   | inl e => Error e
   end, (nli_model_get args s).2).
Proof.
  unfold respond, nli_model_resource. unfold bind at 1.
  destruct (nli_model_get args s) as [[e|result] s']; reflexivity.
Qed.

Lemma respond_fact_checking args s :
  respond (fact_checking_model_resource args) s =
  (match (fact_checking_model_get args s).1 with
   | inr result => Ok (ResultBody {| results := marshal_full <$> result |})
   | inl e => Error e
   end, (fact_checking_model_get args s).2).
Proof.
  unfold respond, fact_checking_model_resource. unfold bind at 1.
  destruct (fact_checking_model_get args s) as [[e|result] s']; reflexivity.
Qed.

(** The router, by cases on the path and the method. *)
Ltac route r :=
  unfold dispatch, answer;
  destruct (String.eqb (path r) "/nli_model/");
  [ destruct (String.eqb (method r) "GET"); [rewrite respond_nli|]
  | destruct (String.eqb (path r) "/fact_checking_model/");
    [ destruct (String.eqb (method r) "GET"); [rewrite respond_fact_checking|] | ] ];
  cbn [fst snd].

Lemma dispatch_answer r s : (dispatch r s).1 = answer (complex_model s) r.
Proof.
  route r; try reflexivity.
  - rewrite nli_model_get_outcome. reflexivity.
  - rewrite fact_checking_model_get_outcome. reflexivity.
Qed.

Lemma dispatch_frame r s :
  config (dispatch r s).2 = config s /\
  complex_model (dispatch r s).2 = complex_model s /\
  api (dispatch r s).2 = api s.
Proof.
  route r; auto.
  - apply nli_model_get_frame.
  - apply fact_checking_model_get_frame.
Qed.

Lemma dispatch_trace r s :
  exists added,
    trace (dispatch r s).2 = trace s ++ added /\
    Forall (request_event (complex_model s)) added.
Proof.
  route r; try (exists []; split; [symmetry; apply app_nil_r | constructor]).
  - apply nli_model_get_trace.
  - apply fact_checking_model_get_trace.
Qed.

Lemma serve_cons r rest s :
  serve (r :: rest) s =
  ((dispatch r s).1 :: (serve rest (dispatch r s).2).1,
   (serve rest (dispatch r s).2).2).
Proof.
  simpl. destruct (dispatch r s) as [a s1]. simpl.
  destruct (serve rest s1) as [answers s2]. reflexivity.
Qed.

Lemma serve_frame incoming : forall s,
  config (serve incoming s).2 = config s /\
  complex_model (serve incoming s).2 = complex_model s /\
  api (serve incoming s).2 = api s.
Proof.
  induction incoming as [|r rest IH]; intros s.
  - simpl. auto.
  - rewrite serve_cons. cbn [snd].
    destruct (IH (dispatch r s).2) as (Hc & Hm & Ha).
    destruct (dispatch_frame r s) as (Hc' & Hm' & Ha').
    rewrite Hc, Hm, Ha. auto.
Qed.

(** Every request is answered as a function of the bound model and of that
    request: nothing of an earlier request is left to influence it. *)
Lemma serve_answers incoming : forall s,
  (serve incoming s).1 = answer (complex_model s) <$> incoming.
Proof.
  induction incoming as [|r rest IH]; intros s.
  - reflexivity.
  - rewrite serve_cons. cbn [fst]. rewrite fmap_cons.
    rewrite dispatch_answer, IH.
    destruct (dispatch_frame r s) as (_ & -> & _). reflexivity.
Qed.

Lemma serve_trace incoming : forall s,
  exists added,
    trace (serve incoming s).2 = trace s ++ added /\
    Forall (request_event (complex_model s)) added.
Proof.
  induction incoming as [|r rest IH]; intros s.
  - exists []. simpl. split; [symmetry; apply app_nil_r | constructor].
  - rewrite serve_cons. cbn [snd].
    destruct (IH (dispatch r s).2) as (added2 & Ht2 & Hall2).
    destruct (dispatch_trace r s) as (added1 & Ht1 & Hall1).
    destruct (dispatch_frame r s) as (_ & Hm & _).
    exists (added1 ++ added2). split.
    + rewrite Ht2, Ht1, app_assoc. reflexivity.
    + apply Forall_app. split; [exact Hall1|]. rewrite <- Hm. exact Hall2.
Qed.

(** The handler reads the two parameters [text] and [hypothesis] and no
    other. *)
Lemma nli_model_get_reads args1 args2 s :
  args1 !! "text" = args2 !! "text" ->
  args1 !! "hypothesis" = args2 !! "hypothesis" ->
  nli_model_get args1 s = nli_model_get args2 s.
Proof.
  intros Ht Hh. unfold nli_model_get. cbv zeta. rewrite Ht, Hh. reflexivity.
Qed.

(** The script when the construction of the model fails. *)
Lemma script_load_fails argv s0 cfg e :
  read_json (config_path argv) = inr cfg ->
  WikiFactChecker cfg = inl e ->
  script argv s0 =
  (inl e, {| config := Some cfg; complex_model := complex_model s0;
             api := api s0; ticks := ticks s0;
             trace := trace s0 ++ startup_log (config_path argv) cfg ++ [Construct cfg] |}).
Proof.
  intros Hread Hload.
  unfold script, call_load, bind_config, logger_info, emit, global, lift_exc,
    bind, modify, config_path in *.
  cbn [config complex_model api ticks trace]. rewrite Hread.
  cbn [config complex_model api ticks trace]. rewrite Hload.
  unfold startup_log. rewrite <- !app_assoc. reflexivity.
Qed.

(** The script when the model is constructed. *)
Lemma script_loaded argv s0 cfg m :
  read_json (config_path argv) = inr cfg ->
  WikiFactChecker cfg = inr m ->
  exists r s1,
    script argv s0 = (r, s1) /\
    config s1 = Some cfg /\
    complex_model s1 = Some m /\
    trace s1 = trace s0 ++ startup_log (config_path argv) cfg ++
                 [Construct cfg; LogInfo "Models loaded."] /\
    forall v d,
      dict_get cfg "api_version" (PyStr "0.0") = inr v ->
      dict_get cfg "model_name" (PyStr "Wikipedia NLI model") = inr d ->
      r = inr tt /\
      api s1 = Some {| version := v; title := "WikiCheck API";
                       namespaces := [("nli_model", d);
                                      ("fact_checking_model",
                                       PyStr "Fact checking model")] |}.
Proof.
  intros Hread Hload.
  unfold script, call_load, add_namespace, bind_config, bind_complex_model,
    bind_api, logger_info, emit, global, lift_exc, bind, modify, config_path in *.
  cbn [config complex_model api ticks trace]. rewrite Hread.
  cbn [config complex_model api ticks trace]. rewrite Hload.
  cbn [config complex_model api ticks trace].
  unfold startup_log.
  destruct (dict_get cfg "api_version" (PyStr "0.0")) as [e1|v];
    [| cbn [config complex_model api ticks trace version title namespaces];
       destruct (dict_get cfg "model_name" (PyStr "Wikipedia NLI model")) as [e2|d] ];
    cbn [config complex_model api ticks trace version title namespaces];
    eexists _, _; (split; [reflexivity|]);
    cbn [config complex_model api ticks trace];
    (split; [reflexivity|]); (split; [reflexivity|]);
    (split; [rewrite <- !app_assoc; reflexivity|]);
    intros v' d' Hv Hd; try discriminate.
  inversion Hv; inversion Hd; subst. split; reflexivity.
Qed.

(** The whole file, in terms of the script and of the serving loop. *)
Lemma main_eval argv name incoming s0 :
  main argv name incoming s0 =
  match script argv s0 with
  | (inl e, s1) => (inl e, s1)
  | (inr _, s1) =>
      if String.eqb name "__main__" then
        let s2 := {| config := config s1; complex_model := complex_model s1;
                     api := api s1; ticks := ticks s1;
                     trace := trace s1 ++ [Listen false 80 "0.0.0.0" true] |} in
        (inr (serve incoming s2).1, (serve incoming s2).2)
      else (inr [], s1)
  end.
Proof.
  unfold main. unfold bind at 1.
  destruct (script argv s0) as [[e|[]] s1]; [reflexivity|].
  destruct (String.eqb name "__main__"); [|reflexivity].
  unfold app_run, bind, emit, modify. cbv zeta.
  destruct (serve incoming _) as [answers s3]. reflexivity.
Qed.

Lemma request_event_quiet bound added :
  Forall (request_event bound) added ->
  constructions added = [] /\ listens added = [] /\
  Forall (fun e => is_construct e = false) added.
Proof.
  induction 1 as [|e added He _ (IHl & IHs & IHf)]; [repeat split; constructor|].
  destruct e; simpl in He; try contradiction;
    (repeat split; [exact IHl | exact IHs | constructor; [reflexivity | exact IHf]]).
Qed.

(** The process after a successful construction of the model: the trace
    up to the construction, then only log lines, at most the start of the
    server, and predictions on the constructed model. *)
Lemma main_loaded argv name incoming cfg m :
  read_json (config_path argv) = inr cfg ->
  WikiFactChecker cfg = inr m ->
  exists rest,
    trace (main argv name incoming boot).2 =
      startup_log (config_path argv) cfg ++ Construct cfg :: rest /\
    Forall (fun e => request_event (Some m) e \/ is_listen e = true) rest /\
    config (main argv name incoming boot).2 = Some cfg /\
    complex_model (main argv name incoming boot).2 = Some m.
Proof.
  intros Hread Hload.
  destruct (script_loaded argv boot cfg m Hread Hload)
    as (r & s1 & Hs & Hc & Hm & Ht & _).
  rewrite main_eval, Hs. simpl in Ht.
  assert (Hquiet : exists rest,
             trace s1 = startup_log (config_path argv) cfg ++ Construct cfg :: rest /\
             Forall (fun e => request_event (Some m) e \/ is_listen e = true) rest).
  { exists [LogInfo "Models loaded."]. split; [exact Ht|].
    repeat constructor. }
  destruct r as [e|[]]; [destruct Hquiet as (rest & ? & ?); exists rest; auto|].
  destruct (String.eqb name "__main__");
    [|destruct Hquiet as (rest & ? & ?); exists rest; auto].
  cbv zeta. cbn [snd].
  set (s2 := {| config := config s1; complex_model := complex_model s1;
                api := api s1; ticks := ticks s1;
                trace := trace s1 ++ [Listen false 80 "0.0.0.0" true] |}).
  destruct (serve_trace incoming s2) as (added & Hta & Hall).
  destruct (serve_frame incoming s2) as (Hc2 & Hm2 & _).
  rewrite Hc2, Hm2, Hta. subst s2. cbn [config complex_model trace] in *.
  rewrite Hm in Hall.
  exists (LogInfo "Models loaded." :: Listen false 80 "0.0.0.0" true :: added).
  repeat split; auto.
  - rewrite Ht. unfold startup_log. rewrite <- !app_assoc. reflexivity.
  - constructor; [left; exact I|]. constructor; [right; reflexivity|].
    eapply Forall_impl; [exact Hall|]. intros e He. left. exact He.
Qed.

Lemma dispatch_GET_nli args s :
  dispatch (GET "/nli_model/" args) s = respond (nli_model_resource args) s.
Proof. reflexivity. Qed.

Lemma dispatch_GET_fact_checking args s :
  dispatch (GET "/fact_checking_model/" args) s =
  respond (fact_checking_model_resource args) s.
Proof. reflexivity. Qed.

(** C2 (the route documents the parameters [claim] and [hypothesis]; the
    handler reads [text] and [hypothesis]): a request with the documented
    parameters is answered exactly as the same request without [claim], and
    the first input of the pipeline is what [check_if_none] makes of an absent
    value, not the value of [claim]. *)
Theorem documented_claim_parameter_is_not_read (c h : string) s :
  dispatch (GET "/nli_model/" {[ "claim" := c; "hypothesis" := h ]}) s =
  dispatch (GET "/nli_model/" {[ "hypothesis" := h ]}) s /\
  (dispatch (GET "/nli_model/" {[ "claim" := c; "hypothesis" := h ]}) s).1 =
  match nli_outcome (complex_model s) None (Some h) with
  | inr result => Ok (VerdictBody (marshal_response result))
  | inl e => Error e
  end.
Proof.
  split.
  - rewrite !dispatch_GET_nli, !respond_nli.
    rewrite (nli_model_get_reads {[ "claim" := c; "hypothesis" := h ]}
               {[ "hypothesis" := h ]} s); reflexivity.
  - rewrite dispatch_answer. reflexivity.
Qed.

(** The handler of [nli_model] keeps no state of its own: what it answers
    depends on the process only through the bound model, and on the request
    only through the two strings it reads -- not on the clock, the log or the
    requests served before.  (Whether the prediction itself gives the same
    numbers twice is a matter of the model, which is not in these files.) *)
Lemma nli_handler_keeps_no_state args1 args2 s1 s2 :
  complex_model s1 = complex_model s2 ->
  args1 !! "text" = args2 !! "text" ->
  args1 !! "hypothesis" = args2 !! "hypothesis" ->
  (dispatch (GET "/nli_model/" args1) s1).1 =
  (dispatch (GET "/nli_model/" args2) s2).1.
Proof.
  intros Hm Ht Hh. rewrite !dispatch_answer. unfold answer, GET.
  cbn [path method args]. rewrite Hm, Ht, Hh. reflexivity.
Qed.

(** C6: when the configuration is read and the model is constructed, the
    process constructs it exactly once, before it listens and before any
    prediction; every prediction of either endpoint is made on that model,
    which is still the one bound after the last request; and each request is
    answered as a function of that model and of the request alone. *)
Theorem model_loaded_once_and_shared argv name incoming cfg m :
  read_json (config_path argv) = inr cfg ->
  WikiFactChecker cfg = inr m ->
  constructions (trace (main argv name incoming boot).2) = [cfg] /\
  (exists before after,
     trace (main argv name incoming boot).2 = before ++ Construct cfg :: after /\
     Forall (fun e => is_prediction e = false /\ is_listen e = false) before) /\
  (forall e, e ∈ trace (main argv name incoming boot).2 ->
             is_prediction e = true -> request_event (Some m) e) /\
  complex_model (main argv name incoming boot).2 = Some m /\
  (forall answers,
     (main argv name incoming boot).1 = inr answers ->
     name = "__main__" ->
     answers = answer (Some m) <$> incoming).
Proof.
  intros Hread Hload.
  destruct (main_loaded argv name incoming cfg m Hread Hload)
    as (rest & Ht & Hall & _ & Hm).
  split; [|split; [|split; [|split]]].
  - rewrite Ht. unfold constructions. rewrite omap_app. simpl.
    f_equal. clear Ht. induction Hall as [|e rest [He|He] _ IH]; [reflexivity| |];
      destruct e; simpl in *; try contradiction; try discriminate; exact IH.
  - exists (startup_log (config_path argv) cfg), rest.
    split; [exact Ht|]. repeat constructor.
  - intros e Hin Hp. rewrite Ht in Hin.
    apply elem_of_app in Hin. destruct Hin as [Hin|Hin].
    { unfold startup_log in Hin.
      repeat (apply elem_of_cons in Hin; destruct Hin as [->|Hin]; [discriminate Hp|]).
      apply elem_of_nil in Hin. contradiction. }
    apply elem_of_cons in Hin. destruct Hin as [->|Hin]; [discriminate Hp|].
    destruct (proj1 (Forall_forall _ _) Hall e Hin) as [He|He]; [exact He|].
    destruct e; discriminate.
  - exact Hm.
  - intros answers Hrun ->.
    destruct (script_loaded argv boot cfg m Hread Hload)
      as (r & s1 & Hs & _ & Hm1 & _ & _).
    rewrite main_eval, Hs in Hrun. destruct r as [e|[]]; [discriminate Hrun|].
    simpl in Hrun. inversion Hrun as [Hanswers].
    rewrite serve_answers. cbn [complex_model]. rewrite Hm1. reflexivity.
Qed.

(** C7: when the construction of the model fails, the process ends with
    that exception: the trace stops at the attempt, the server never starts to
    listen, no request is answered and no model is bound. *)
Theorem load_failure_aborts_startup argv name incoming cfg e :
  read_json (config_path argv) = inr cfg ->
  WikiFactChecker cfg = inl e ->
  (main argv name incoming boot).1 = inl e /\
  trace (main argv name incoming boot).2 =
    startup_log (config_path argv) cfg ++ [Construct cfg] /\
  listens (trace (main argv name incoming boot).2) = [] /\
  Forall (fun ev => is_prediction ev = false)
         (trace (main argv name incoming boot).2) /\
  complex_model (main argv name incoming boot).2 = None.
Proof.
  intros Hread Hload.
  rewrite main_eval, (script_load_fails argv boot cfg e Hread Hload).
  cbn [fst snd trace complex_model boot app].
  repeat split; repeat constructor.
Qed.

(** C8, as the code has it: the configuration file read at the start gives
    the configuration of the model, the API version (key [api_version]) and
    the description of the [nli_model] namespace (key [model_name]); the title
    of the API, the port and the host are fixed in the code; serving requests
    changes none of them. *)
Theorem startup_configuration argv incoming cfg m v d :
  read_json (config_path argv) = inr cfg ->
  WikiFactChecker cfg = inr m ->
  dict_get cfg "api_version" (PyStr "0.0") = inr v ->
  dict_get cfg "model_name" (PyStr "Wikipedia NLI model") = inr d ->
  config (main argv "__main__" incoming boot).2 = Some cfg /\
  constructions (trace (main argv "__main__" incoming boot).2) = [cfg] /\
  api (main argv "__main__" incoming boot).2 =
    Some {| version := v; title := "WikiCheck API";
            namespaces := [("nli_model", d);
                           ("fact_checking_model", PyStr "Fact checking model")] |} /\
  listens (trace (main argv "__main__" incoming boot).2) = [(80, "0.0.0.0")].
Proof.
  intros Hread Hload Hv Hd.
  destruct (script_loaded argv boot cfg m Hread Hload)
    as (r & s1 & Hs & Hc & Hm & Ht & Hapi).
  destruct (Hapi v d Hv Hd) as [-> Ha].
  rewrite main_eval, Hs. cbn [String.eqb Ascii.eqb Bool.eqb]. cbv zeta. cbn [snd].
  set (s2 := {| config := config s1; complex_model := complex_model s1;
                api := api s1; ticks := ticks s1;
                trace := trace s1 ++ [Listen false 80 "0.0.0.0" true] |}).
  destruct (serve_trace incoming s2) as (added & Hta & Hall).
  destruct (serve_frame incoming s2) as (Hc2 & _ & Ha2).
  destruct (request_event_quiet _ _ Hall) as (Hl & Hli & _).
  rewrite Hc2, Ha2, Hta. subst s2. cbn [config api trace]. rewrite Ht.
  unfold constructions, listens in *. rewrite !omap_app, Hl, Hli.
  repeat split; auto.
Qed.

End StartProofs.

(** ** The service of [modules/api.py] *)

Section ApiProofs.
Import Service ServiceSpec Api.
Context {SE : ServiceEnv}.

Lemma api_get_outcome args s :
  (get args s).1 = api_outcome (model s) (args !! "text") (args !! "hypothesis").
Proof.
  unfold get, api_outcome, call_predict, bind, now, lift_exc, logger_info, emit,
    modify, global, ret.
  cbn [run_main config model api ticks trace fst snd].
  destruct (api_check_if_none (args !! "text")); [reflexivity|].
  destruct (api_check_if_none (args !! "hypothesis")); [reflexivity|].
  cbn [run_main config model api ticks trace fst snd].
  destruct (model s); [|reflexivity].
  cbn [run_main config model api ticks trace fst snd].
  destruct (predict _ _ _); reflexivity.
Qed.

Lemma api_get_refused args s e :
  api_check_if_none (args !! "text") = inl e \/
  (exists t, api_check_if_none (args !! "text") = inr t /\
             api_check_if_none (args !! "hypothesis") = inl e) ->
  (get args s).1 = inl e /\ trace (get args s).2 = trace s.
Proof.
  intros [Ht | (t & Ht & Hh)];
    unfold get, bind, now, lift_exc; simpl;
    rewrite Ht; simpl; [|rewrite Hh; simpl]; auto.
Qed.

Lemma api_respond args s :
  respond (resource args) s =
  (match (get args s).1 with
   | inr result => Ok (VerdictBody (marshal_response result))
   | inl e => Error e
   end, (get args s).2).
Proof.
  unfold respond, resource. unfold bind at 1.
  destruct (get args s) as [[e|result] s']; reflexivity.
Qed.

End ApiProofs.

(** ** The service with the collaborators of the specification *)

Section SpecProofs.
Import Service ServiceSpec.
Variable E : ServiceEnv.

Lemma spec_refuses (args : gmap string string) p :
  missing args p -> Spec.check_if_none (args !! p) = inl InvalidInputError.
Proof. intros [-> | ->]; reflexivity. Qed.

Lemma spec_refusal x e : Spec.check_if_none x = inl e -> e = InvalidInputError.
Proof.
  destruct x as [s|]; simpl; [destruct (String.eqb s "")|]; congruence.
Qed.

Lemma spec_accepts (claim : string) :
  claim <> "" -> Spec.check_if_none (Some claim) = inr (Some claim).
Proof.
  intros Hne. simpl. destruct (String.eqb_spec claim ""); [contradiction|reflexivity].
Qed.

(** A handler that checks [text], then [hypothesis], refuses as soon as one
    of the two is missing. *)
Lemma spec_refuses_pair (args : gmap string string) p :
  p ∈ ["text"; "hypothesis"] ->
  missing args p ->
  Spec.check_if_none (args !! "text") = inl InvalidInputError \/
  (exists t, Spec.check_if_none (args !! "text") = inr t /\
             Spec.check_if_none (args !! "hypothesis") = inl InvalidInputError).
Proof.
  intros Hp Hmiss.
  apply elem_of_cons in Hp. destruct Hp as [-> | Hp].
  - left. apply spec_refuses. exact Hmiss.
  - apply elem_of_cons in Hp. destruct Hp as [-> | Hp];
      [|apply elem_of_nil in Hp; contradiction].
    destruct (Spec.check_if_none (args !! "text")) as [e|t] eqn:Ht.
    + left. rewrite (spec_refusal _ _ Ht). reflexivity.
    + right. exists t. split; [reflexivity|]. apply spec_refuses. exact Hmiss.
Qed.

(** With the input normalisation of the specification, a GET request in
    which a parameter that the handler reads is absent or empty is answered
    with [InvalidInputError], never with a verdict, and leaves the trace as it
    was: no call into the model, not even a log line.  This holds for the two
    endpoints of [start.py] and for the endpoint of [modules/api.py]; the
    parameters read on [/nli_model/] are [text] and [hypothesis]. *)
Lemma missing_read_parameter_is_refused (r : request) (p : string) :
  method r = "GET" ->
  missing (args r) p ->
  (p ∈ start_reads (path r) ->
   forall s : @Start.proc (Spec.with_check_if_none E),
     (Start.dispatch r s).1 = Error InvalidInputError /\
     Start.trace (Start.dispatch r s).2 = Start.trace s) /\
  (p ∈ api_reads (path r) ->
   forall s : @Api.proc (Spec.with_check_if_none E),
     (Api.dispatch r s).1 = Error InvalidInputError /\
     Api.trace (Api.dispatch r s).2 = Api.trace s).
Proof.
  intros Hget Hmiss. split.
  - intros Hp s. unfold start_reads in Hp. unfold Start.dispatch.
    rewrite Hget. cbn [String.eqb Ascii.eqb Bool.eqb].
    destruct (String.eqb (path r) "/nli_model/").
    + rewrite respond_nli. cbn [fst snd].
      destruct (nli_model_get_refused (SE := Spec.with_check_if_none E)
                  (args r) s InvalidInputError) as [-> ->];
        [exact (spec_refuses_pair _ _ Hp Hmiss) | auto].
    + destruct (String.eqb (path r) "/fact_checking_model/");
        [|apply elem_of_nil in Hp; contradiction].
      apply list_elem_of_singleton in Hp. subst p.
      rewrite respond_fact_checking. cbn [fst snd].
      destruct (fact_checking_model_get_refused (SE := Spec.with_check_if_none E)
                  (args r) s InvalidInputError) as [-> ->];
        [exact (spec_refuses _ _ Hmiss) | auto].
  - intros Hp s. unfold api_reads in Hp. unfold Api.dispatch.
    rewrite Hget. cbn [String.eqb Ascii.eqb Bool.eqb].
    destruct (String.eqb (path r) "/nli_model/");
      [|apply elem_of_nil in Hp; contradiction].
    rewrite api_respond. cbn [fst snd].
    destruct (api_get_refused (SE := Spec.with_check_if_none E)
                (args r) s InvalidInputError) as [-> ->];
      [exact (spec_refuses_pair _ _ Hp Hmiss) | auto].
Qed.

(** C1 (the route [/nli_model/] of [start.py] documents [claim] and reads
    [text]): with the input normalisation of the specification, a GET request
    to [/nli_model/] in which [claim] is absent or empty, and [text] and
    [hypothesis] are given, is not refused: the model is called on the pair
    ([text], [hypothesis]) and the response is what that prediction gives, a
    verdict whenever the model returns one. *)
Theorem missing_claim_is_not_refused (query : gmap string string) (t h : string)
    (m : @Model E) (s : @Start.proc (Spec.with_check_if_none E)) :
  missing query "claim" ->
  query !! "text" = Some t -> t <> "" ->
  query !! "hypothesis" = Some h -> h <> "" ->
  Start.complex_model s = Some m ->
  (Start.dispatch (GET "/nli_model/" query) s).1 =
    match @model_level_two_predict E m (Some t) (Some h) with
    | inr result =>
        Ok (SE := Spec.with_check_if_none E)
          (VerdictBody (SE := Spec.with_check_if_none E)
             (@marshal_response E result))
    | inl e => Error (SE := Spec.with_check_if_none E) e
    end /\
  Predict (SE := Spec.with_check_if_none E) m (Some t) (Some h)
    ∈ Start.trace (Start.dispatch (GET "/nli_model/" query) s).2.
Proof.
  intros _ Ht Hnt Hh Hnh Hm.
  rewrite dispatch_GET_nli, respond_nli. cbn [fst snd]. split.
  - rewrite nli_model_get_outcome. unfold nli_outcome. rewrite Ht, Hh, Hm.
    change (@check_if_none (Spec.with_check_if_none E)) with Spec.check_if_none.
    rewrite (spec_accepts t Hnt), (spec_accepts h Hnh). reflexivity.
  - unfold Start.nli_model_get, Start.call_predict, bind, Start.now, lift_exc,
      Start.logger_info, Start.emit, modify, Start.global, ret.
    rewrite Ht, Hh.
    change (@check_if_none (Spec.with_check_if_none E)) with Spec.check_if_none.
    rewrite (spec_accepts t Hnt), (spec_accepts h Hnh).
    cbn [Start.config Start.complex_model Start.api Start.ticks Start.trace fst snd].
    rewrite Hm.
    cbn [Start.config Start.complex_model Start.api Start.ticks Start.trace fst snd].
    destruct (@model_level_two_predict (Spec.with_check_if_none E) m (Some t) (Some h));
      cbn [Start.config Start.complex_model Start.api Start.ticks Start.trace fst snd].
    + apply elem_of_app. right. apply list_elem_of_here.
    + apply elem_of_app. left. apply elem_of_app. left.
      apply elem_of_app. right. apply list_elem_of_here.
Qed.



End SpecProofs.

(** ** The theorems on concrete runs *)

Example two_epochs :
  (ModelTrainer.train_model 2 Demo.prepared).1 = inr ([11; 12], [21; 22])%nat.
Proof. vm_compute. reflexivity. Qed.

Example no_epoch_for_a_negative_number :
  (ModelTrainer.train_model (-3) Demo.prepared).1 = inr ([], []).
Proof. vm_compute. reflexivity. Qed.

Example unprepared_trainer :
  (ModelTrainer.train_model 1 Demo.fresh).1 =
  inl (AttributeError "train_dataloader_nli").
Proof. vm_compute. reflexivity. Qed.

Example fever_row_on_a_new_trainer :
  (ModelTrainer.preparing_data_fever Demo.fresh).1 = inl (KeyError "SUPPORTS").
Proof. vm_compute. reflexivity. Qed.

(** The request that the route documents, [claim] and [hypothesis], is
    refused for its missing [text]; the one with [text] is answered. *)
Example documented_request_is_refused :
  (Start.dispatch (SE := Spec.with_check_if_none DemoService.env)
     DemoService.documented_request DemoService.serving).1 =
    Service.Error InvalidInputError /\
  Start.trace (Start.dispatch (SE := Spec.with_check_if_none DemoService.env)
                 DemoService.documented_request DemoService.serving).2 = [].
Proof. split; vm_compute; reflexivity. Qed.

Example read_request_is_answered :
  (Start.dispatch DemoService.read_request DemoService.serving).1 =
  Service.Ok (SE := DemoService.env)
    (Service.VerdictBody (SE := DemoService.env) DemoService.verdict).
Proof. vm_compute. reflexivity. Qed.

(** The claim C8 as the specification states it fails on the configuration
    file of [DemoService]: the file names port 8080 on 127.0.0.1, and the
    server listens on port 80 of 0.0.0.0. *)
Lemma configured_address_is_not_bound :
  ~ ServiceSpec.binds_configured_address DemoService.env None [].
Proof.
  intros Hclaim.
  specialize (Hclaim DemoService.config_file (8080, "127.0.0.1") eq_refl eq_refl).
  vm_compute in Hclaim. discriminate Hclaim.
Qed.

(** The configuration theorem on the run of [DemoService]. *)
Lemma startup_configuration_witness :
  let run := Start.main (SE := DemoService.env) None "__main__"
               [DemoService.read_request; DemoService.fact_request] Start.boot in
  Start.config run.2 = Some DemoService.config_file /\
  ServiceSpec.constructions (Start.trace run.2) = [DemoService.config_file] /\
  Start.api run.2 =
    Some {| Start.version := PyStr "1.2"; Start.title := "WikiCheck API";
            Start.namespaces :=
              [("nli_model", PyStr "Sentence-BERT NLI");
               ("fact_checking_model", PyStr "Fact checking model")] |} /\
  ServiceSpec.listens (Start.trace run.2) = [(80, "0.0.0.0")].
Proof.
  exact (startup_configuration (SE := DemoService.env) None
           [DemoService.read_request; DemoService.fact_request]
           DemoService.config_file "wiki-fact-checker"
           (PyStr "1.2") (PyStr "Sentence-BERT NLI")
           eq_refl eq_refl eq_refl eq_refl).
Defined.

(** [text] and [hypothesis] without [claim]: a verdict, after a prediction. *)
Lemma missing_claim_is_not_refused_witness :
  ServiceSpec.missing (Service.args DemoService.read_request) "claim" /\
  (Start.dispatch (SE := Spec.with_check_if_none DemoService.env)
     DemoService.read_request DemoService.serving_checked).1 =
    Service.Ok (SE := Spec.with_check_if_none DemoService.env)
      (Service.VerdictBody (SE := Spec.with_check_if_none DemoService.env)
         DemoService.verdict).
Proof.
  assert (Hmiss : ServiceSpec.missing (Service.args DemoService.read_request) "claim")
    by (left; reflexivity).
  split; [exact Hmiss|].
  exact (proj1 (missing_claim_is_not_refused DemoService.env
                  (Service.args DemoService.read_request)
                  "The Eiffel Tower is in Paris"
                  "The Eiffel Tower is located in Paris, France"
                  "wiki-fact-checker" DemoService.serving_checked
                  Hmiss eq_refl ltac:(discriminate) eq_refl ltac:(discriminate)
                  eq_refl)).
Defined.



(** Two requests served: one construction, the same model still bound. *)
Lemma model_loaded_once_and_shared_witness :
  let run := Start.main (SE := DemoService.env) None "__main__"
               [DemoService.read_request; DemoService.fact_request] Start.boot in
  ServiceSpec.constructions (Start.trace run.2) = [DemoService.config_file] /\
  Start.complex_model run.2 = Some "wiki-fact-checker".
Proof.
  destruct (model_loaded_once_and_shared (SE := DemoService.env) None "__main__"
              [DemoService.read_request; DemoService.fact_request]
              DemoService.config_file "wiki-fact-checker" eq_refl eq_refl)
    as (Hloads & _ & _ & Hbound & _).
  split; [exact Hloads | exact Hbound].
Defined.

(** The weights are missing: the run ends with [ModelLoadError]. *)
Lemma load_failure_aborts_startup_witness :
  let run := Start.main (SE := DemoService.broken_env) None "__main__"
               [DemoService.read_request] Start.boot in
  run.1 = inl (ModelLoadError "weights missing") /\
  ServiceSpec.listens (Start.trace run.2) = [] /\
  Start.complex_model run.2 = None.
Proof.
  destruct (load_failure_aborts_startup (SE := DemoService.broken_env) None
              "__main__" [DemoService.read_request] DemoService.config_file
              (ModelLoadError "weights missing") eq_refl eq_refl)
    as (Hrun & _ & Hlistens & _ & Hbound).
  split; [exact Hrun|]. split; [exact Hlistens | exact Hbound].
Defined.

(** Two epochs on the prepared trainer of [Demo]. *)
Lemma train_model_epochs_witness :
  0 <= 2 /\
  exists validation_performance test_performance s',
    ModelTrainer.train_model 2 Demo.prepared =
      (inr (validation_performance, test_performance), s') /\
    Z.of_nat (length validation_performance) = 2 /\
    Z.of_nat (length test_performance) = 2.
Proof.
  split; [lia|].
  destruct (train_model_epochs (TE := Demo.trainer_env) Demo.prepared 2
              (ModelTrainer.STModules "bert-base-uncased" 128)
              {| ModelTrainer.sl_model := ModelTrainer.STModules "bert-base-uncased" 128;
                 ModelTrainer.sl_num_labels := 3;
                 ModelTrainer.sl_classifier := ModelTrainer.ClassifierInit |}
              (Demo.loader 3) (Demo.loader 10) (Demo.loader 20)
              ltac:(lia) eq_refl eq_refl eq_refl eq_refl eq_refl)
    as (vp & tp & s' & Hrun & Hvp & Htp & _).
  exists vp, tp, s'. split; [exact Hrun|]. split; [exact Hvp | exact Htp].
Defined.

(** A FEVER file whose first row is labelled SUPPORTS, on a new trainer. *)
Lemma fever_labels_raise_KeyError_witness :
  TrainerSpec.instance Demo.fresh /\
  exists k,
    (ModelTrainer.preparing_data_fever Demo.fresh).1 = inl (KeyError k) /\
    ModelTrainer.snli_label2int !! k = None.
Proof.
  assert (Hinst : TrainerSpec.instance Demo.fresh) by apply TrainerSpec.instance_new.
  split; [exact Hinst|].
  destruct (fever_labels_raise_KeyError (TE := Demo.trainer_env) Demo.fresh
              _ _ _ Hinst eq_refl eq_refl eq_refl)
    as (_ & _ & k & Hrun & Hk & _).
  { apply Exists_cons_hd. left. reflexivity. }
  exists k. split; [exact Hrun | exact Hk].
Defined.

(** * Further properties *)

(** ** The trainer: data preparation *)

Section PreparingProofs.
Import ModelTrainer TrainerSpec TrainerLaws.
Context {TE : TrainerEnv}.

Lemma first_missing_app l2i rows1 rows2 :
  first_missing l2i (rows1 ++ rows2) =
  match first_missing l2i rows1 with
  | Some k => Some k
  | None => first_missing l2i rows2
  end.
Proof.
  induction rows1 as [|r rows1 IH]; simpl; [reflexivity|].
  destruct (l2i !! row3 r); [exact IH | reflexivity].
Qed.

Lemma first_missing_None l2i rows :
  first_missing l2i rows = None <->
  Forall (fun r => is_Some (l2i !! row3 r)) rows.
Proof.
  induction rows as [|r rows IH]; simpl.
  - split; [constructor | reflexivity].
  - destruct (l2i !! row3 r) as [id|] eqn:Hr.
    + rewrite IH. split.
      * intros Hall. constructor; [rewrite Hr; eauto | exact Hall].
      * intros Hall. inversion Hall; assumption.
    + split; [discriminate|]. intros Hall. inversion Hall as [|? ? [id Hid] ?].
      congruence.
Qed.

Lemma first_missing_Some l2i rows k :
  first_missing l2i rows = Some k ->
  exists before r after,
    rows = before ++ r :: after /\ row3 r = k /\ l2i !! k = None /\
    Forall (fun r => is_Some (l2i !! row3 r)) before.
Proof.
  induction rows as [|r rows IH]; simpl; [discriminate|].
  destruct (l2i !! row3 r) as [id|] eqn:Hr.
  - intros Hk. destruct (IH Hk) as (before & r' & after & -> & Hr' & Hnone & Hall).
    exists (r :: before), r', after.
    split; [reflexivity|]. split; [exact Hr'|]. split; [exact Hnone|].
    constructor; [rewrite Hr; eauto | exact Hall].
  - intros [= <-]. exists [], r, rows.
    split; [reflexivity|]. split; [reflexivity|]. split; [exact Hr|]. constructor.
Qed.

Lemma examples_of_built l2i rows :
  first_missing l2i rows = None ->
  Forall2 (built_from l2i) rows (examples_of l2i rows).
Proof.
  induction rows as [|r rows IH]; simpl; [constructor|].
  unfold examples_of. simpl.
  destruct (l2i !! row3 r) as [id|] eqn:Hr; [|discriminate].
  intros Hnone. simpl. constructor; [|exact (IH Hnone)].
  exists id. split; [exact Hr | reflexivity].
Qed.

(** The loop, exactly: the [KeyError] of the first label that is not a key,
    or the examples of all the rows appended to the list. *)
Lemma nli_loop_exact rows : forall acc s,
  for_each rows nli_sample acc s =
  match first_missing (label2int (self s)) rows with
  | Some k => (inl (KeyError k), s)
  | None => (inr (acc ++ examples_of (label2int (self s)) rows), s)
  end.
Proof.
  induction rows as [|r rows IH]; intros acc s.
  - simpl. unfold ret. rewrite app_nil_r. reflexivity.
  - rewrite for_each_cons, nli_sample_eval. cbn [first_missing].
    unfold examples_of. cbn [omap list_omap].
    destruct (label2int (self s) !! row3 r) as [id|]; [|reflexivity].
    rewrite IH. destruct (first_missing _ rows); [reflexivity|].
    simpl. rewrite <- app_assoc. reflexivity.
Qed.

(** Reduces the attribute reads of a trainer that is written out. *)
Ltac attrs :=
  cbn [self world calls out train_path dev_path test_path base_model batch_size
       label2int path_to_save model train_loss_nli classification_model
       train_dataloader_nli dev_dataloader_nli test_dataloader_nli].

Lemma new_dataloader_ok samples m bs :
  samples <> [] -> 0 < bs ->
  new_dataloader {| sd_examples := samples; sd_model := m |} bs =
  inr {| dl_dataset := {| sd_examples := samples; sd_model := m |};
         dl_shuffle := true; dl_batch_size := bs |}.
Proof.
  intros Hne Hbs. unfold new_dataloader. cbn [sd_examples].
  destruct samples as [|ex samples]; [contradiction|].
  destruct (Z.leb_spec bs 0) as [Hle|_]; [lia | reflexivity].
Qed.

Lemma new_dataloader_empty m bs :
  new_dataloader {| sd_examples := []; sd_model := m |} bs =
  inl (ValueError
         "num_samples should be a positive integer value, but got num_samples=0").
Proof. reflexivity. Qed.

Lemma new_dataloader_inr dataset bs d :
  new_dataloader dataset bs = inr d ->
  d = {| dl_dataset := dataset; dl_shuffle := true; dl_batch_size := bs |} /\
  sd_examples dataset <> [] /\ 0 < bs.
Proof.
  unfold new_dataloader. destruct (sd_examples dataset) as [|ex l]; [discriminate|].
  destruct (Z.leb_spec bs 0) as [Hle|Hlt]; [discriminate|].
  intros [= <-]. split; [reflexivity|]. split; [discriminate | exact Hlt].
Qed.


Lemma make_dataloader_eval samples s :
  make_dataloader samples s =
  match model (self s) with
  | Some m => (new_dataloader {| sd_examples := samples; sd_model := m |}
                 (batch_size (self s)), s)
  | None => (inl (AttributeError "model"), s)
  end.
Proof.
  unfold make_dataloader, bind, getattr, gets, lift_exc.
  destruct (model (self s)); reflexivity.
Qed.

Lemma examples_of_length l2i rows :
  first_missing l2i rows = None -> length (examples_of l2i rows) = length rows.
Proof.
  intros Hnone. symmetry. eapply Forall2_length, examples_of_built, Hnone.
Qed.

Lemma examples_of_nonempty l2i rows :
  first_missing l2i rows = None -> rows <> [] -> examples_of l2i rows <> [].
Proof.
  intros Hnone Hne Hnil. apply (f_equal length) in Hnil.
  rewrite (examples_of_length _ _ Hnone) in Hnil.
  destruct rows; [contradiction | discriminate].
Qed.

(** The three loaders when no file is empty and the batch size is positive. *)
Lemma set_loaders_ok t m rows_train rows_dev rows_test :
  first_missing (label2int t) (rows_train ++ rows_dev ++ rows_test) = None ->
  rows_train <> [] -> rows_dev <> [] -> rows_test <> [] ->
  0 < batch_size t ->
  set_loaders t m rows_train rows_dev rows_test =
  (inr tt, with_loaders t (loader_of t m rows_train) (loader_of t m rows_dev)
             (loader_of t m rows_test)).
Proof.
  intros Hnone H1 H2 H3 Hbs. rewrite !first_missing_app in Hnone.
  destruct (first_missing _ rows_train) eqn:E1; [discriminate|].
  destruct (first_missing _ rows_dev) eqn:E2; [discriminate|].
  unfold set_loaders, dataset_of, loader_of.
  rewrite !new_dataloader_ok by (try apply examples_of_nonempty; assumption).
  reflexivity.
Qed.


(** The loops and the loaders, exactly. *)
Lemma samples_and_loaders_exact rows_train rows_dev rows_test s :
  samples_and_loaders rows_train rows_dev rows_test s =
  match first_missing (label2int (self s)) (rows_train ++ rows_dev ++ rows_test) with
  | Some k => (inl (KeyError k), s)
  | None =>
      match model (self s) with
      | None => (inl (AttributeError "model"), s)
      | Some m =>
          let r := set_loaders (self s) m rows_train rows_dev rows_test in
          (r.1, with_self s r.2)
      end
  end.
Proof.
  unfold samples_and_loaders, nli_samples.
  rewrite !first_missing_app.
  unfold bind at 1. rewrite nli_loop_exact.
  destruct (first_missing _ rows_train); [reflexivity|].
  unfold bind at 1. rewrite nli_loop_exact.
  destruct (first_missing _ rows_dev); [reflexivity|].
  unfold bind at 1. rewrite nli_loop_exact.
  destruct (first_missing _ rows_test); [reflexivity|].
  cbn [app]. cbv zeta.
  unfold set_loaders, dataset_of, with_self, with_loaders, with_train, with_dev.
  unfold bind at 1. rewrite make_dataloader_eval.
  destruct s as [t w c o]. cbn [self world calls out].
  destruct (model t) as [m|] eqn:Hm; [|reflexivity].
  destruct (new_dataloader _ (batch_size t)) as [e|d1]; [reflexivity|].
  unfold bind at 1. unfold set_train_dataloader at 1, set_self at 1, modify at 1.
  cbn [self world calls out].
  unfold bind at 1. rewrite make_dataloader_eval.
  attrs. rewrite ?Hm.
  destruct (new_dataloader _ (batch_size t)) as [e|d2]; [reflexivity|].
  unfold bind at 1. unfold set_dev_dataloader at 1, set_self at 1, modify at 1.
  cbn [self world calls out].
  unfold bind at 1. rewrite make_dataloader_eval.
  attrs. rewrite ?Hm.
  destruct (new_dataloader _ (batch_size t)) as [e|d3]; [reflexivity|].
  reflexivity.
Qed.

(** A [preparing_data*] method that shares the three loops, exactly. *)
Lemma preparing_with_exact reader s :
  preparing_with reader s =
  match reader (train_path (self s)) "train_s" (world s) with
  | inl e => (inl e, s)
  | inr rows_train =>
      match reader (dev_path (self s)) "dev_s" (world s) with
      | inl e => (inl e, s)
      | inr rows_dev =>
          match reader (test_path (self s)) "test_s" (world s) with
          | inl e => (inl e, s)
          | inr rows_test =>
              samples_and_loaders rows_train rows_dev rows_test
                (with_out s [LogInfo "Read train dataset"])
          end
      end
  end.
Proof.
  unfold preparing_with, bind, gets, read_examples, logger_info, emit, modify.
  cbn [self world].
  destruct (reader (train_path (self s)) "train_s" (world s)); [reflexivity|].
  destruct (reader (dev_path (self s)) "dev_s" (world s)); [reflexivity|].
  destruct (reader (test_path (self s)) "test_s" (world s)); reflexivity.
Qed.

Lemma first_missing_at l2i before r after :
  Forall (fun r => is_Some (l2i !! row3 r)) before ->
  l2i !! row3 r = None ->
  first_missing l2i (before ++ r :: after) = Some (row3 r).
Proof.
  intros Hall Hr. rewrite first_missing_app.
  rewrite (proj2 (first_missing_None l2i before) Hall). simpl.
  rewrite Hr. reflexivity.
Qed.

(** [preparing_data_mnli], exactly. *)
Lemma preparing_data_mnli_exact s :
  preparing_data_mnli s =
  match mnli_examples (train_path (self s)) "train_s" (world s) with
  | inl e => (inl e, s)
  | inr rows_train =>
      match mnli_examples (dev_path (self s)) "dev_s" (world s) with
      | inl e => (inl e, s)
      | inr rows_dev =>
          match mnli_examples (test_path (self s)) "test_s" (world s) with
          | inl e => (inl e, s)
          | inr rows_test =>
              let n := Printed (pretty (Z.of_nat (length rows_train))) in
              match first_missing (label2int (self s))
                      (rows_train ++ rows_dev ++ rows_test) with
              | Some k =>
                  (inl (KeyError k),
                   with_out s [LogInfo "Read train dataset"; n])
              | None =>
                  match model (self s) with
                  | None =>
                      (inl (AttributeError "model"),
                       with_out s [LogInfo "Read train dataset"; n; n])
                  | Some m =>
                      let r := set_loaders (self s) m rows_train rows_dev rows_test in
                      (r.1,
                       with_self (with_out s [LogInfo "Read train dataset"; n; n])
                         r.2)
                  end
              end
          end
      end
  end.
Proof.
  unfold preparing_data_mnli, nli_samples.
  unfold bind at 1 2 3 4 5 6. unfold gets, read_examples. cbn [self world].
  destruct (mnli_examples (train_path (self s)) "train_s" (world s))
    as [e|rows_train]; [reflexivity|].
  destruct (mnli_examples (dev_path (self s)) "dev_s" (world s))
    as [e|rows_dev]; [reflexivity|].
  destruct (mnli_examples (test_path (self s)) "test_s" (world s))
    as [e|rows_test]; [reflexivity|].
  cbv zeta. rewrite !first_missing_app.
  unfold with_self, with_out.
  unfold bind at 1 2. unfold logger_info, print, emit, modify.
  cbn [self world calls out].
  unfold bind at 1. rewrite nli_loop_exact. cbn [self label2int].
  destruct (first_missing _ rows_train) eqn:Htrain;
    [rewrite <- !app_assoc; reflexivity|].
  unfold bind at 1. rewrite nli_loop_exact. cbn [self label2int].
  destruct (first_missing _ rows_dev); [rewrite <- !app_assoc; reflexivity|].
  unfold bind at 1. rewrite nli_loop_exact. cbn [self label2int].
  destruct (first_missing _ rows_test); [rewrite <- !app_assoc; reflexivity|].
  cbn [app]. rewrite (examples_of_length _ _ Htrain).
  unfold bind at 1. cbn [self world calls out].
  unfold set_loaders, dataset_of, with_loaders, with_train, with_dev.
  unfold bind at 1. rewrite make_dataloader_eval.
  destruct s as [t w c o]. cbn [self world calls out model batch_size].
  rewrite <- !app_assoc. cbn [app].
  destruct (model t) as [m|] eqn:Hm; [|reflexivity].
  destruct (new_dataloader _ (batch_size t)) as [e|d1]; [reflexivity|].
  unfold bind at 1. unfold set_train_dataloader at 1, set_self at 1, modify at 1.
  cbn [self world calls out].
  unfold bind at 1. rewrite make_dataloader_eval.
  attrs. rewrite ?Hm.
  destruct (new_dataloader _ (batch_size t)) as [e|d2]; [reflexivity|].
  unfold bind at 1. unfold set_dev_dataloader at 1, set_self at 1, modify at 1.
  cbn [self world calls out].
  unfold bind at 1. rewrite make_dataloader_eval.
  attrs. rewrite ?Hm.
  destruct (new_dataloader _ (batch_size t)) as [e|d3]; [reflexivity|].
  reflexivity.
Qed.

(** X1: when the three SNLI files are read and none is empty, every label
    is a key of the mapping, a model is set and the batch size is positive,
    [preparing_data] returns and sets the three loaders: each holds one
    example per row of its file, in the order of the rows, built from the
    row's id, its two sentences and the id of its label; each is bound to the
    current model, shuffles, and has the batch size of the trainer.  Nothing
    else of the trainer changes. *)
Theorem preparing_data_builds_loaders s rows_train rows_dev rows_test m :
  snli_examples (train_path (self s)) "train_s" (world s) = inr rows_train ->
  snli_examples (dev_path (self s)) "dev_s" (world s) = inr rows_dev ->
  snli_examples (test_path (self s)) "test_s" (world s) = inr rows_test ->
  rows_train <> [] -> rows_dev <> [] -> rows_test <> [] ->
  Forall (fun r => is_Some (label2int (self s) !! row3 r))
         (rows_train ++ rows_dev ++ rows_test) ->
  model (self s) = Some m ->
  0 < batch_size (self s) ->
  exists d_train d_dev d_test,
    preparing_data s =
      (inr tt, with_self (with_out s [LogInfo "Read train dataset"])
                 (with_loaders (self s) d_train d_dev d_test)) /\
    Forall2 (built_from (label2int (self s))) rows_train
            (sd_examples (dl_dataset d_train)) /\
    Forall2 (built_from (label2int (self s))) rows_dev
            (sd_examples (dl_dataset d_dev)) /\
    Forall2 (built_from (label2int (self s))) rows_test
            (sd_examples (dl_dataset d_test)) /\
    Forall (fun d => sd_model (dl_dataset d) = m /\ dl_shuffle d = true /\
                     dl_batch_size d = batch_size (self s))
           [d_train; d_dev; d_test].
Proof.
  intros Htrain Hdev Htest Hne1 Hne2 Hne3 Hall Hm Hbs.
  pose proof (proj2 (first_missing_None _ _) Hall) as Hnone.
  exists (loader_of (self s) m rows_train), (loader_of (self s) m rows_dev),
         (loader_of (self s) m rows_test).
  split.
  - unfold preparing_data. rewrite preparing_with_exact, Htrain, Hdev, Htest.
    rewrite samples_and_loaders_exact. cbn [with_out self]. rewrite Hnone, Hm.
    cbv zeta. rewrite set_loaders_ok by assumption. reflexivity.
  - rewrite !first_missing_app in Hnone.
    destruct (first_missing _ rows_train) eqn:H1; [discriminate|].
    destruct (first_missing _ rows_dev) eqn:H2; [discriminate|].
    repeat split; try (apply examples_of_built; assumption).
    repeat constructor.
Qed.

(** X2: a label that is not a key of the mapping stops [preparing_data]
    with the [KeyError] of the first such label, in the order train, dev,
    test, whether a model is set or not; the log line is written and no
    attribute of the trainer changes. *)
Theorem preparing_data_first_unknown_label s rows_train rows_dev rows_test
    before r after :
  snli_examples (train_path (self s)) "train_s" (world s) = inr rows_train ->
  snli_examples (dev_path (self s)) "dev_s" (world s) = inr rows_dev ->
  snli_examples (test_path (self s)) "test_s" (world s) = inr rows_test ->
  rows_train ++ rows_dev ++ rows_test = before ++ r :: after ->
  Forall (fun r => is_Some (label2int (self s) !! row3 r)) before ->
  label2int (self s) !! row3 r = None ->
  preparing_data s =
    (inl (KeyError (row3 r)), with_out s [LogInfo "Read train dataset"]).
Proof.
  intros Htrain Hdev Htest Hrows Hall Hr.
  unfold preparing_data. rewrite preparing_with_exact, Htrain, Hdev, Htest.
  rewrite samples_and_loaders_exact. cbn [with_out self].
  rewrite Hrows, (first_missing_at _ _ _ _ Hall Hr). reflexivity.
Qed.

(** X3: on a trainer without a model, [preparing_data] with valid files
    runs its three loops and only then raises [AttributeError] for [model]:
    no loader is set. *)
Theorem preparing_data_needs_model s rows_train rows_dev rows_test :
  snli_examples (train_path (self s)) "train_s" (world s) = inr rows_train ->
  snli_examples (dev_path (self s)) "dev_s" (world s) = inr rows_dev ->
  snli_examples (test_path (self s)) "test_s" (world s) = inr rows_test ->
  Forall (fun r => is_Some (label2int (self s) !! row3 r))
         (rows_train ++ rows_dev ++ rows_test) ->
  model (self s) = None ->
  preparing_data s =
    (inl (AttributeError "model"), with_out s [LogInfo "Read train dataset"]).
Proof.
  intros Htrain Hdev Htest Hall Hm.
  unfold preparing_data. rewrite preparing_with_exact, Htrain, Hdev, Htest.
  rewrite samples_and_loaders_exact. cbn [with_out self].
  rewrite (proj2 (first_missing_None _ _) Hall), Hm. reflexivity.
Qed.




(** X5: [preparing_data_mnli] prints the number of training rows before
    its loops and the number of training examples after them; whenever it gets
    to the second print, the two numbers are the same, and a [KeyError] leaves
    only the first. *)
Theorem preparing_data_mnli_prints s rows_train rows_dev rows_test :
  mnli_examples (train_path (self s)) "train_s" (world s) = inr rows_train ->
  mnli_examples (dev_path (self s)) "dev_s" (world s) = inr rows_dev ->
  mnli_examples (test_path (self s)) "test_s" (world s) = inr rows_test ->
  let n := Printed (pretty (Z.of_nat (length rows_train))) in
  out (preparing_data_mnli s).2 =
    out s ++ match first_missing (label2int (self s))
                     (rows_train ++ rows_dev ++ rows_test) with
             | Some _ => [LogInfo "Read train dataset"; n]
             | None => [LogInfo "Read train dataset"; n; n]
             end.
Proof.
  intros Htrain Hdev Htest n.
  rewrite preparing_data_mnli_exact, Htrain, Hdev, Htest. cbv zeta.
  destruct (first_missing _ _); [reflexivity|].
  destruct (model (self s)); reflexivity.
Qed.

(** X24: [preparing_data] is not all or nothing: with a training file that
    has rows and a dev file that has none, it assigns the train loader and
    then raises the [ValueError] of the [DataLoader] for the dev set; the dev
    and test loaders are as they were. *)
Theorem preparing_data_empty_dev_file s rows_train rows_test m :
  snli_examples (train_path (self s)) "train_s" (world s) = inr rows_train ->
  snli_examples (dev_path (self s)) "dev_s" (world s) = inr [] ->
  snli_examples (test_path (self s)) "test_s" (world s) = inr rows_test ->
  rows_train <> [] ->
  Forall (fun r => is_Some (label2int (self s) !! row3 r))
         (rows_train ++ rows_test) ->
  model (self s) = Some m ->
  0 < batch_size (self s) ->
  preparing_data s =
    (inl (ValueError
            "num_samples should be a positive integer value, but got num_samples=0"),
     with_self (with_out s [LogInfo "Read train dataset"])
       (with_train (self s) (loader_of (self s) m rows_train))).
Proof.
  intros Htrain Hdev Htest Hne Hall Hm Hbs.
  pose proof (proj2 (first_missing_None _ _) Hall) as Hnone.
  unfold preparing_data. rewrite preparing_with_exact, Htrain, Hdev, Htest.
  rewrite samples_and_loaders_exact. cbn [with_out self app].
  rewrite Hnone, Hm. cbv zeta.
  rewrite first_missing_app in Hnone.
  destruct (first_missing _ rows_train) eqn:H1; [discriminate|].
  unfold set_loaders, dataset_of, loader_of.
  rewrite new_dataloader_ok by (try apply examples_of_nonempty; assumption).
  unfold examples_of at 2. cbn [omap list_omap].
  rewrite new_dataloader_empty. reflexivity.
Qed.

End PreparingProofs.

(** ** The trainer: its attributes across method calls *)

Section AttributeProofs.
Import ModelTrainer TrainerSpec TrainerLaws.
Context {TE : TrainerEnv}.

Section Kept.
Context {X : Type} (f : BertTrainer -> X).

Lemma kept_ret {A} (a : A) : keeps_by f (ret a).
Proof. intros s. reflexivity. Qed.

Lemma kept_gets {A} (g : state -> A) : keeps_by f (gets g).
Proof. intros s. reflexivity. Qed.

Lemma kept_bind {A B} (m : M state A) (k : A -> M state B) :
  keeps_by f m -> (forall a, keeps_by f (k a)) -> keeps_by f (bind m k).
Proof.
  intros Hm Hk s. unfold bind. specialize (Hm s).
  destruct (m s) as [[e|a] s1]; simpl in *; [exact Hm|].
  rewrite (Hk a s1). exact Hm.
Qed.

Lemma kept_for_each {A B} (xs : list A) (body : A -> B -> M state B) (acc : B) :
  (forall x b, keeps_by f (body x b)) -> keeps_by f (for_each xs body acc).
Proof.
  intros Hbody. revert acc.
  induction xs as [|x xs IH]; intros acc; simpl.
  - apply kept_ret.
  - apply kept_bind; [apply Hbody | exact IH].
Qed.

Lemma kept_getattr {A} (name : string) (g : BertTrainer -> option A) :
  keeps_by f (getattr name g).
Proof. intros s. unfold getattr. destruct (g (self s)); reflexivity. Qed.

Lemma kept_emit (o : output) : keeps_by f (emit o).
Proof. intros s. reflexivity. Qed.

Lemma kept_set_self (g : BertTrainer -> BertTrainer) :
  (forall t, f (g t) = f t) -> keeps_by f (set_self g).
Proof. intros Hg s. simpl. apply Hg. Qed.

Lemma kept_read_examples reader (p set_type : string) :
  keeps_by f (read_examples reader p set_type).
Proof. intros s. reflexivity. Qed.

Lemma kept_call_fit m objs : keeps_by f (call_fit m objs).
Proof. intros s. reflexivity. Qed.

Lemma kept_call_evaluate m ev : keeps_by f (call_evaluate m ev).
Proof. intros s. reflexivity. Qed.

Lemma kept_construct (err : World -> option exn) : keeps_by f (construct err).
Proof. intros s. unfold construct. destruct (err (world s)); reflexivity. Qed.

Lemma kept_call_save (save : World -> option exn * World) :
  keeps_by f (call_save save).
Proof. intros s. reflexivity. Qed.

Lemma kept_lift_exc {A} (r : exn + A) : keeps_by f (@lift_exc state A r).
Proof. intros s. reflexivity. Qed.

Lemma kept_index_last {A} (l : list A) : keeps_by f (@index_last state A l).
Proof. intros s. unfold index_last. destruct (last l); reflexivity. Qed.

Lemma kept_nli_sample r samples : keeps_by f (nli_sample r samples).
Proof. intros s. rewrite nli_sample_eval. destruct (_ !! _); reflexivity. Qed.

End Kept.

Create HintDb kept.
#[local] Hint Resolve kept_ret kept_gets kept_getattr kept_emit
  kept_read_examples kept_call_fit kept_call_evaluate kept_construct
  kept_call_save kept_lift_exc
  kept_index_last kept_nli_sample : kept.

Ltac kept_step :=
  first
    [ solve [auto with kept]
    | apply kept_set_self; intros ?; reflexivity
    | apply kept_for_each; intros ? ?
    | apply kept_bind; [|intros ?] ].

Ltac kept_body := repeat kept_step.

Lemma train_model_kept n : keeps_by id (train_model n).
Proof.
  unfold train_model, epoch, logger_info, print. cbv zeta. kept_body.
Qed.

Lemma save_model_kept : keeps_by id save_model.
Proof. unfold save_model. kept_body. Qed.

Lemma invoke_kept m s :
  constructor_attributes (self (invoke m s)) = constructor_attributes (self s).
Proof.
  destruct m; unfold invoke.
  - revert s. change (keeps_by constructor_attributes initialize_model).
    unfold initialize_model. kept_body.
  - revert s. change (keeps_by constructor_attributes preparing_data).
    unfold preparing_data, preparing_with, samples_and_loaders, nli_samples,
      make_dataloader, logger_info,
      set_train_dataloader, set_dev_dataloader, set_test_dataloader. kept_body.
  - revert s. change (keeps_by constructor_attributes preparing_data_fever).
    unfold preparing_data_fever, preparing_with, samples_and_loaders, nli_samples,
      make_dataloader, logger_info,
      set_train_dataloader, set_dev_dataloader, set_test_dataloader. kept_body.
  - revert s. change (keeps_by constructor_attributes preparing_data_mnli).
    unfold preparing_data_mnli, nli_samples, make_dataloader, logger_info, print,
      set_train_dataloader, set_dev_dataloader, set_test_dataloader. kept_body.
  - exact (f_equal constructor_attributes (save_model_kept s)).
  - revert s.
    change (keeps_by constructor_attributes (load_model text_model_path classifier_path)).
    unfold load_model. kept_body.
  - exact (f_equal constructor_attributes (train_model_kept number_of_epochs s)).
Qed.

(** X6: no method changes what the constructor set from its arguments:
    after any sequence of method calls, returning or raising, the three paths,
    the base model, the batch size and the directory to save to are the
    arguments of the constructor. *)
Theorem constructor_attributes_are_final tp dp sp bm bs ps w ms :
  constructor_attributes (self (run ms (constructed tp dp sp bm bs ps w))) =
  (tp, dp, sp, bm, bs, ps).
Proof.
  unfold run. rewrite <- (rev_involutive ms).
  induction (rev ms) as [|m rest IH]; [reflexivity|].
  simpl. rewrite foldl_app. simpl. rewrite invoke_kept. exact IH.
Qed.

(** X7: [train_model] and [save_model] read the trainer and never write
    it: whatever they do to the model weights and the files, and whether they
    return or raise, every attribute is as before. *)
Theorem training_and_saving_keep_the_trainer n s :
  self (train_model n s).2 = self s /\ self (save_model s).2 = self s.
Proof. split; [apply (train_model_kept n s) | apply (save_model_kept s)]. Qed.

End AttributeProofs.

(** ** The trainer: model, loss and loaders of an instance *)

Section InstanceProofs.
Import ModelTrainer TrainerSpec TrainerLaws.
Context {TE : TrainerEnv}.

Lemma initialize_model_exact s :
  initialize_model s =
  let built := STModules (base_model (self s)) 128 in
  match model_error built (world s) with
  | Some e => (inl e, s)
  | None =>
      (inr tt,
       with_self s
         (with_model (self s) built
            {| sl_model := built;
               sl_num_labels := size (label2int (self s));
               sl_classifier := ClassifierInit |}
            (classification_model (self s))))
  end.
Proof.
  cbv zeta. unfold initialize_model, bind, gets, construct.
  destruct (model_error _ (world s)); reflexivity.
Qed.

Lemma load_model_exact a b s :
  load_model a b s =
  match model_error (STPath a) (world s) with
  | Some e => (inl e, s)
  | None =>
      match classifier_error (ClassifierPath b) (world s) with
      | Some e => (inl e, with_self s (with_only_model (self s) (STPath a)))
      | None =>
          (inr tt,
           with_self s
             (with_model (self s) (STPath a)
                {| sl_model := STPath a;
                   sl_num_labels := size (label2int (self s));
                   sl_classifier := ClassifierPath b |}
                (Some (ClassifierPath b))))
      end
  end.
Proof.
  unfold load_model, bind, construct, set_self, modify.
  destruct (model_error _ (world s)); [reflexivity|].
  cbn [world]. destruct (classifier_error _ (world s)); reflexivity.
Qed.

Lemma save_model_exact s :
  save_model s =
  match train_loss_nli (self s) with
  | None => (inl (AttributeError "train_loss_nli"), s)
  | Some l =>
      let r1 := torch_save (sl_classifier l)
                  (path_to_save (self s) +:+ "classifier_model") (world s) in
      match r1.1 with
      | Some e => (inl e, with_world s r1.2)
      | None =>
          match model (self s) with
          | None => (inl (AttributeError "model"), with_world s r1.2)
          | Some m =>
              let r2 := model_save m
                          (path_to_save (self s) +:+ "bert_model_trained") r1.2 in
              (match r2.1 with
               | Some e => inl e
               | None => inr tt
               end, with_world s r2.2)
          end
      end
  end.
Proof.
  unfold save_model, bind, getattr, gets, call_save, with_world.
  destruct s as [t w c o]. cbn [self world calls out].
  destruct (train_loss_nli t) as [l|]; [|reflexivity].
  cbn [self world calls out].
  destruct (torch_save _ _ w) as [[e|] w1]; [reflexivity|].
  cbn [fst snd]. destruct (model t); reflexivity.
Qed.

Lemma snli_size : size snli_label2int = 3%nat.
Proof. vm_compute. reflexivity. Qed.

Lemma snli_ids k label_id :
  snli_label2int !! k = Some label_id -> 0 <= label_id < 3.
Proof.
  unfold snli_label2int. intros Hk.
  apply lookup_insert_Some in Hk as [[_ <-]|[_ Hk]]; [lia|].
  apply lookup_insert_Some in Hk as [[_ <-]|[_ Hk]]; [lia|].
  apply lookup_singleton_Some in Hk as [_ <-]. lia.
Qed.

Lemma examples_of_valid rows :
  Forall valid_example (examples_of snli_label2int rows).
Proof.
  induction rows as [|r rows IH]; [constructor|].
  unfold examples_of. cbn [omap list_omap].
  destruct (snli_label2int !! row3 r) as [label_id|] eqn:Hr; [|exact IH].
  simpl. constructor; [|exact IH].
  split; [exact (snli_ids _ _ Hr) | reflexivity].
Qed.

Lemma consistent_with_model t m c classifier :
  label2int t = snli_label2int ->
  c = ClassifierInit \/ classifier = Some c ->
  consistent t ->
  consistent (with_model t m
                {| sl_model := m; sl_num_labels := size (label2int t);
                   sl_classifier := c |} classifier).
Proof.
  intros HL Hclass (_ & _ & Hloaders). split; [|split].
  - intros l [= <-]. simpl. rewrite HL, snli_size. split; [reflexivity | exact Hclass].
  - intros _. simpl. eauto.
  - intros d Hd. change (loaders (with_model _ _ _ _)) with (loaders t) in Hd.
    destruct (Hloaders d Hd) as [Hvalid _]. split; [exact Hvalid | simpl; eauto].
Qed.

Lemma consistent_with_only_model t m :
  consistent t -> consistent (with_only_model t m).
Proof.
  intros (Hloss & _ & Hloaders). split; [|split].
  - exact Hloss.
  - intros _. simpl. eauto.
  - intros d Hd. change (loaders (with_only_model _ _)) with (loaders t) in Hd.
    destruct (Hloaders d Hd) as [Hvalid _]. split; [exact Hvalid | simpl; eauto].
Qed.

Lemma valid_new_dataloader t m rows d :
  label2int t = snli_label2int ->
  new_dataloader (dataset_of t m rows) (batch_size t) = inr d ->
  valid_loader t d.
Proof.
  intros HL Hd. apply new_dataloader_inr in Hd as (-> & Hne & Hbs).
  repeat split; try assumption; try lia.
  simpl. rewrite HL. apply examples_of_valid.
Qed.

Lemma consistent_set_loaders t m rows1 rows2 rows3 :
  label2int t = snli_label2int ->
  model t = Some m ->
  consistent t ->
  consistent (set_loaders t m rows1 rows2 rows3).2.
Proof.
  intros HL Hm Hc. pose proof Hc as (Hloss & Hset & Hloaders).
  assert (Hmodel : is_Some (model t)) by (rewrite Hm; eauto).
  unfold set_loaders.
  destruct (new_dataloader (dataset_of t m rows1) _) as [e|d1] eqn:E1; [exact Hc|].
  pose proof (valid_new_dataloader _ _ _ _ HL E1) as V1.
  destruct (new_dataloader (dataset_of t m rows2) _) as [e|d2] eqn:E2.
  { split; [exact Hloss|]. split; [exact Hset|].
    intros d Hd. unfold loaders in Hd. cbn in Hd.
    apply elem_of_cons in Hd as [-> | Hd]; [split; assumption|].
    apply Hloaders. unfold loaders. cbn.
    destruct (train_dataloader_nli t); [apply list_elem_of_further|]; exact Hd. }
  pose proof (valid_new_dataloader _ _ _ _ HL E2) as V2.
  destruct (new_dataloader (dataset_of t m rows3) _) as [e|d3] eqn:E3.
  { split; [exact Hloss|]. split; [exact Hset|].
    intros d Hd. unfold loaders in Hd. cbn in Hd.
    apply elem_of_cons in Hd as [-> | Hd]; [split; assumption|].
    apply elem_of_cons in Hd as [-> | Hd]; [split; assumption|].
    apply Hloaders. unfold loaders. cbn.
    destruct (train_dataloader_nli t); cbn;
      [apply list_elem_of_further|];
      (destruct (dev_dataloader_nli t); cbn;
       [apply list_elem_of_further|]); exact Hd. }
  pose proof (valid_new_dataloader _ _ _ _ HL E3) as V3.
  split; [exact Hloss|]. split; [exact Hset|].
  intros d Hd. unfold loaders in Hd. cbn in Hd.
  repeat (apply elem_of_cons in Hd as [-> | Hd]; [split; assumption|]).
  apply elem_of_nil in Hd. contradiction.
Qed.

Lemma invoke_consistent m s :
  label2int (self s) = snli_label2int ->
  consistent (self s) ->
  consistent (self (invoke m s)).
Proof.
  intros HL Hc.
  assert (Hprep : forall reader, consistent (self (preparing_with reader s).2)).
  { intros reader. rewrite preparing_with_exact.
    destruct (reader _ "train_s" _); [exact Hc|].
    destruct (reader _ "dev_s" _); [exact Hc|].
    destruct (reader _ "test_s" _); [exact Hc|].
    rewrite samples_and_loaders_exact. cbn [with_out self].
    destruct (first_missing _ _); [exact Hc|].
    destruct (model (self s)) eqn:Hm; [|exact Hc].
    cbv zeta. cbn [snd with_self self].
    apply consistent_set_loaders; assumption. }
  destruct m; unfold invoke.
  - rewrite initialize_model_exact. cbv zeta.
    destruct (model_error _ _); [exact Hc|].
    apply consistent_with_model; auto.
  - apply Hprep.
  - apply Hprep.
  - rewrite preparing_data_mnli_exact.
    destruct (mnli_examples _ "train_s" _); [exact Hc|].
    destruct (mnli_examples _ "dev_s" _); [exact Hc|].
    destruct (mnli_examples _ "test_s" _); [exact Hc|].
    cbv zeta. destruct (first_missing _ _); [exact Hc|].
    destruct (model (self s)) eqn:Hm; [|exact Hc].
    cbn [snd with_self self]. apply consistent_set_loaders; assumption.
  - pose proof (save_model_kept s) as Hk. simpl in Hk. rewrite Hk. exact Hc.
  - rewrite load_model_exact.
    destruct (model_error _ _); [exact Hc|].
    destruct (classifier_error _ _).
    + apply consistent_with_only_model, Hc.
    + apply consistent_with_model; auto.
  - pose proof (train_model_kept number_of_epochs s) as Hk. simpl in Hk.
    rewrite Hk. exact Hc.
Qed.

Lemma instance_consistent s : instance s -> consistent (self s).
Proof.
  induction 1 as [tp dp sp bm bs ps w | m s Hs IH].
  - split; [|split].
    + intros l Hl. discriminate Hl.
    + intros [[l Hl]|[c Hc]]; discriminate.
    + intros d Hd. apply elem_of_nil in Hd. contradiction.
  - apply invoke_consistent; [apply instance_label2int; exact Hs | exact IH].
Qed.

(** X8: on every instance, after any sequence of method calls that return
    or raise, the loss -- when there is one -- classifies into three labels
    and holds a new classifier or the classifier loaded last; a loss, a loaded
    classifier or a loader is set only once a model is; and every loader that
    is set holds at least one example, each with a label in 0, 1, 2 and a pair
    of texts, shuffles, and has the batch size of the trainer, which is then
    positive.  (The model that the loss or a loader was built with need not be
    the model the trainer has now.) *)
Theorem instance_invariants s :
  instance s ->
  (forall l, train_loss_nli (self s) = Some l ->
             sl_num_labels l = 3%nat /\
             (sl_classifier l = ClassifierInit \/
              classification_model (self s) = Some (sl_classifier l))) /\
  (is_Some (train_loss_nli (self s)) \/
   is_Some (classification_model (self s)) \/
   loaders (self s) <> [] ->
   is_Some (model (self s))) /\
  (forall d ex,
     d ∈ loaders (self s) ->
     ex ∈ sd_examples (dl_dataset d) ->
     0 <= label ex < 3 /\ length (texts ex) = 2%nat) /\
  (forall d,
     d ∈ loaders (self s) ->
     dl_shuffle d = true /\ dl_batch_size d = batch_size (self s) /\
     0 < batch_size (self s) /\ sd_examples (dl_dataset d) <> []).
Proof.
  intros Hinst. destruct (instance_consistent s Hinst) as (Hloss & Hset & Hloaders).
  split; [exact Hloss|]. split; [|split].
  - intros [Hl|[Hc|Hd]]; [apply Hset; left; exact Hl | apply Hset; right; exact Hc|].
    destruct (loaders (self s)) as [|d rest] eqn:E; [contradiction|].
    apply (Hloaders d). apply list_elem_of_here.
  - intros d ex Hd Hex. destruct (Hloaders d Hd) as [(_ & _ & _ & _ & Hvalid) _].
    exact (proj1 (Forall_forall _ _) Hvalid ex Hex).
  - intros d Hd. destruct (Hloaders d Hd) as [(Hsh & Hbs & Hpos & Hne & _) _].
    rewrite <- Hbs. auto.
Qed.

(** X9: on every instance [save_model] never stops for want of a model.
    Without a loss it raises [AttributeError] for [train_loss_nli] and leaves
    the world as it is.  With a loss it saves the classifier of the loss under
    [path_to_save + 'classifier_model'] first; if that raises, the model is not
    saved; otherwise it saves the model the trainer has now under
    [path_to_save + 'bert_model_trained'], and an exception of that call
    leaves the classifier file written. *)
Theorem save_model_saves_classifier_then_model s :
  instance s ->
  match train_loss_nli (self s) with
  | None => save_model s = (inl (AttributeError "train_loss_nli"), s)
  | Some l =>
      exists m,
        model (self s) = Some m /\
        let r1 := torch_save (sl_classifier l)
                    (path_to_save (self s) +:+ "classifier_model") (world s) in
        let r2 := model_save m
                    (path_to_save (self s) +:+ "bert_model_trained") r1.2 in
        save_model s =
        match r1.1, r2.1 with
        | Some e, _ => (inl e, with_world s r1.2)
        | None, Some e => (inl e, with_world s r2.2)
        | None, None => (inr tt, with_world s r2.2)
        end
  end.
Proof.
  intros Hinst. destruct (instance_consistent s Hinst) as (_ & Hset & _).
  rewrite save_model_exact.
  destruct (train_loss_nli (self s)) as [l|]; [|reflexivity].
  destruct Hset as [m Hm]; [left; eauto|].
  exists m. split; [exact Hm|]. cbv zeta. rewrite Hm.
  destruct (torch_save _ _ _).1; [reflexivity|].
  destruct (model_save _ _ _).1; reflexivity.
Qed.

(** X10: what [initialize_model] and [load_model] do to an instance.  When
    the model cannot be built or loaded, both raise and change nothing.  When
    [load_model] loads the model and then fails to load the classifier, it
    raises with the model replaced and the loss and the loaded classifier as
    they were: the loss then belongs to the model before.  When they return
    they have replaced the model and the loss -- three labels, around the new
    model, with a new classifier or the loaded one.  In every case the loaders
    are as before, so a loader built earlier still holds the dataset of the
    model it was built with. *)
Theorem model_replacement_keeps_loaders s a b :
  instance s ->
  let built := STModules (base_model (self s)) 128 in
  initialize_model s =
    match model_error built (world s) with
    | Some e => (inl e, s)
    | None =>
        (inr tt,
         with_self s
           (with_model (self s) built
              {| sl_model := built; sl_num_labels := 3;
                 sl_classifier := ClassifierInit |}
              (classification_model (self s))))
    end /\
  load_model a b s =
    match model_error (STPath a) (world s),
          classifier_error (ClassifierPath b) (world s) with
    | Some e, _ => (inl e, s)
    | None, Some e => (inl e, with_self s (with_only_model (self s) (STPath a)))
    | None, None =>
        (inr tt,
         with_self s
           (with_model (self s) (STPath a)
              {| sl_model := STPath a; sl_num_labels := 3;
                 sl_classifier := ClassifierPath b |}
              (Some (ClassifierPath b))))
    end /\
  loaders (self (initialize_model s).2) = loaders (self s) /\
  loaders (self (load_model a b s).2) = loaders (self s).
Proof.
  intros Hinst built.
  rewrite initialize_model_exact, load_model_exact. cbv zeta. subst built.
  rewrite (instance_label2int s Hinst), snli_size.
  split; [reflexivity|]. split.
  - destruct (model_error (STPath a) _); [reflexivity|].
    destruct (classifier_error _ _); reflexivity.
  - split.
    + destruct (model_error (STModules _ _) _); reflexivity.
    + destruct (model_error (STPath a) _); [reflexivity|].
      destruct (classifier_error _ _); reflexivity.
Qed.

End InstanceProofs.

(** ** The trainer: training *)

Section TrainingProofs.
Import ModelTrainer TrainerSpec TrainerLaws.
Context {TE : TrainerEnv}.

(** The statements of [train_model] before its loop. *)
Lemma train_model_prelude n s :
  train_model n s =
  let s1 := with_out s [LogInfo ("Warmup-steps: " +:+ pretty 10000)] in
  match train_dataloader_nli (self s), train_loss_nli (self s),
        test_dataloader_nli (self s), dev_dataloader_nli (self s) with
  | Some train_dl, Some loss, Some test_dl, Some dev_dl =>
      for_each (range n)
        (epoch [(train_dl, loss)]
           {| ev_dataloader := dev_dl; ev_name := "nli_test";
              ev_softmax_model := loss |}
           {| ev_dataloader := test_dl; ev_name := "nli_test";
              ev_softmax_model := loss |})
        ([], []) s1
  | None, _, _, _ => (inl (AttributeError "train_dataloader_nli"), s1)
  | _, None, _, _ => (inl (AttributeError "train_loss_nli"), s1)
  | _, _, None, _ => (inl (AttributeError "test_dataloader_nli"), s1)
  | _, _, _, None => (inl (AttributeError "dev_dataloader_nli"), s1)
  end.
Proof.
  cbv zeta.
  destruct (train_dataloader_nli (self s)) eqn:H1,
           (train_loss_nli (self s)) eqn:H2,
           (test_dataloader_nli (self s)) eqn:H3,
           (dev_dataloader_nli (self s)) eqn:H4;
    unfold train_model, with_out; cbv zeta;
    unfold bind, logger_info, emit, modify, getattr;
    repeat (progress (cbn [self world calls out];
                      rewrite ?H1, ?H2, ?H3, ?H4));
    reflexivity.
Qed.

Lemma after_epochs_add m objs dev test a b w :
  after_epochs m objs dev test (a + b) w =
  after_epochs m objs dev test b (after_epochs m objs dev test a w).
Proof.
  revert w. induction a as [|a IH]; intros w; [reflexivity|].
  simpl. apply IH.
Qed.

(** [train_model] on a trainer whose attributes are set, exactly up to the
    lines it prints. *)
Lemma train_model_eval n s m loss train_dl dev_dl test_dl :
  model (self s) = Some m ->
  train_loss_nli (self s) = Some loss ->
  train_dataloader_nli (self s) = Some train_dl ->
  dev_dataloader_nli (self s) = Some dev_dl ->
  test_dataloader_nli (self s) = Some test_dl ->
  let objs := [(train_dl, loss)] in
  let dev := {| ev_dataloader := dev_dl; ev_name := "nli_test";
                ev_softmax_model := loss |} in
  let test := {| ev_dataloader := test_dl; ev_name := "nli_test";
                 ev_softmax_model := loss |} in
  exists o,
    train_model n s =
    (inr ((fun j => dev_result m objs dev test
                      (after_epochs m objs dev test j (world s)))
            <$> seq 0 (Z.to_nat n),
          (fun j => test_result m objs dev test
                      (after_epochs m objs dev test j (world s)))
            <$> seq 0 (Z.to_nat n)),
     {| self := self s;
        world := after_epochs m objs dev test (Z.to_nat n) (world s);
        calls := calls s ++
                 mjoin (replicate (Z.to_nat n) (epoch_calls m objs dev test));
        out := out s ++ o |}).
Proof.
  intros Hm Hloss Htrain Hdev Htest objs dev test.
  rewrite train_model_prelude. cbv zeta. rewrite Htrain, Hloss, Htest, Hdev.
  subst objs dev test.
  destruct (epochs_eval [(train_dl, loss)]
              {| ev_dataloader := dev_dl; ev_name := "nli_test";
                 ev_softmax_model := loss |}
              {| ev_dataloader := test_dl; ev_name := "nli_test";
                 ev_softmax_model := loss |} m (Z.to_nat n) 0 [] []
              (with_out s [LogInfo ("Warmup-steps: " +:+ pretty 10000)]) Hm)
    as [o Hloop].
  exists (LogInfo ("Warmup-steps: " +:+ pretty 10000) :: o).
  unfold range. rewrite Hloop. cbn [with_out self world calls out app].
  rewrite <- app_assoc. reflexivity.
Qed.

Lemma epoch_calls_length m objs dev test k :
  length (mjoin (replicate k (epoch_calls m objs dev test))) = (3 * k)%nat.
Proof.
  induction k as [|k IH]; [reflexivity|].
  change (S (S (S (length (mjoin (replicate k (epoch_calls m objs dev test))))))
          = (3 * S k)%nat).
  rewrite IH. lia.
Qed.

(** X11: a missing attribute stops [train_model] before its loop, whatever
    the number of epochs: the [AttributeError] names the first one that is not
    set, in the order train loader, loss, test loader, dev loader; only the
    warm-up line is logged, and the library is not called. *)
Theorem train_model_first_unset n s a :
  first_unset (self s) = Some a ->
  train_model n s =
    (inl (AttributeError a),
     with_out s [LogInfo ("Warmup-steps: " +:+ pretty 10000)]).
Proof.
  intros Ha. rewrite train_model_prelude. cbv zeta. unfold first_unset in Ha.
  destruct (train_dataloader_nli (self s)); [|congruence].
  destruct (train_loss_nli (self s)); [|congruence].
  destruct (test_dataloader_nli (self s)); [|congruence].
  destruct (dev_dataloader_nli (self s)); congruence.
Qed.

(** X12: with a number of epochs that is zero or negative, [train_model]
    on a trainer whose loaders and loss are set returns two empty lists: no
    fit, no evaluation, the world as it was; the model is not even read. *)
Theorem train_model_without_epochs n s :
  n <= 0 ->
  first_unset (self s) = None ->
  train_model n s =
    (inr ([], []), with_out s [LogInfo ("Warmup-steps: " +:+ pretty 10000)]).
Proof.
  intros Hn Hset. rewrite train_model_prelude. cbv zeta.
  unfold first_unset in Hset.
  destruct (train_dataloader_nli (self s)); [|discriminate].
  destruct (train_loss_nli (self s)); [|discriminate].
  destruct (test_dataloader_nli (self s)); [|discriminate].
  destruct (dev_dataloader_nli (self s)); [|discriminate].
  unfold range. replace (Z.to_nat n) with 0%nat by lia. reflexivity.
Qed.

(** X13: on an instance whose loss and three loaders are set,
    [train_model] meets no missing attribute, for every number of epochs: the
    model is then set as well, and as long as the library's [fit] and
    [evaluate] return, [train_model] returns two lists with one element per
    epoch after three library calls per epoch. *)
Theorem train_model_returns_when_ready n s :
  instance s ->
  is_Some (train_loss_nli (self s)) ->
  ready (self s) ->
  exists validation_performance test_performance s',
    train_model n s = (inr (validation_performance, test_performance), s') /\
    length validation_performance = Z.to_nat n /\
    length test_performance = Z.to_nat n /\
    length (calls s') = (length (calls s) + 3 * Z.to_nat n)%nat.
Proof.
  intros Hinst [loss Hl] ([train_dl Htrain] & [dev_dl Hdev] & [test_dl Htest]).
  destruct (instance_consistent s Hinst) as (_ & Hset & _).
  destruct Hset as [m Hm]; [left; eauto|].
  destruct (train_model_eval n s m loss train_dl dev_dl test_dl
              Hm Hl Htrain Hdev Htest) as [o Hrun].
  eexists _, _, _. split; [exact Hrun|].
  rewrite !length_fmap, !length_seq. split; [reflexivity|]. split; [reflexivity|].
  cbn [calls]. rewrite length_app, epoch_calls_length. reflexivity.
Qed.

(** X14: training in two runs is training in one: after [train_model(a)]
    and then [train_model(b)], the world and the sequence of library calls are
    those of [train_model(a + b)], and the lists of the single run are the
    lists of the two runs, one after the other. *)
Theorem train_model_composes a b s m loss train_dl dev_dl test_dl :
  0 <= a -> 0 <= b ->
  model (self s) = Some m ->
  train_loss_nli (self s) = Some loss ->
  train_dataloader_nli (self s) = Some train_dl ->
  dev_dataloader_nli (self s) = Some dev_dl ->
  test_dataloader_nli (self s) = Some test_dl ->
  exists vp1 tp1 s1 vp2 tp2 s2 s12,
    train_model a s = (inr (vp1, tp1), s1) /\
    train_model b s1 = (inr (vp2, tp2), s2) /\
    train_model (a + b) s = (inr (vp1 ++ vp2, tp1 ++ tp2), s12) /\
    world s12 = world s2 /\
    calls s12 = calls s2 /\
    self s12 = self s2.
Proof.
  intros Ha Hb Hm Hloss Htrain Hdev Htest.
  destruct (train_model_eval a s m loss train_dl dev_dl test_dl
              Hm Hloss Htrain Hdev Htest) as [o1 H1].
  destruct (train_model_eval (a + b) s m loss train_dl dev_dl test_dl
              Hm Hloss Htrain Hdev Htest) as [o12 H12].
  cbv zeta in H1, H12.
  lazymatch type of H1 with
  | _ = (inr (?vp1, ?tp1), ?s1) =>
      destruct (train_model_eval b s1 m loss train_dl dev_dl test_dl
                  Hm Hloss Htrain Hdev Htest) as [o2 H2];
      exists vp1, tp1, s1
  end.
  cbv zeta in H2. cbn [self world calls out] in H2.
  lazymatch type of H2 with
  | _ = (inr (?vp2, ?tp2), ?s2) => exists vp2, tp2, s2
  end.
  lazymatch type of H12 with
  | _ = (inr _, ?s12) => exists s12
  end.
  split; [exact H1|]. split; [exact H2|].
  rewrite H12. cbn [self world calls out].
  replace (Z.to_nat (a + b)) with (Z.to_nat a + Z.to_nat b)%nat by lia.
  rewrite seq_app, !fmap_app. cbn [Nat.add].
  replace (seq (Z.to_nat a) (Z.to_nat b))
    with (Nat.add (Z.to_nat a) <$> seq 0 (Z.to_nat b))
    by (rewrite fmap_add_seq; f_equal; lia).
  rewrite <- !list_fmap_compose.
  rewrite replicate_add, join_app, <- app_assoc.
  split; [|split; [apply after_epochs_add | split; reflexivity]].
  do 3 f_equal; f_equal; apply list_fmap_ext; intros i j _; simpl;
    rewrite after_epochs_add; reflexivity.
Qed.

End TrainingProofs.

(** ** The service of [start.py]: startup and cost *)

Section StartupProofs.
Import Service ServiceSpec ServiceLaws Start.
Context {SE : ServiceEnv}.

Lemma script_unreadable argv s0 e :
  read_json (config_path argv) = inl e ->
  script argv s0 =
  (inl e, {| config := config s0; complex_model := complex_model s0;
             api := api s0; ticks := ticks s0;
             trace := trace s0 ++
                      [LogInfo ("Reading config from " +:+
                                absolute (config_path argv))] |}).
Proof.
  intros Hread.
  unfold script, logger_info, emit, lift_exc, bind, modify, config_path in *.
  cbn [config complex_model api ticks trace]. rewrite Hread. reflexivity.
Qed.

Lemma dict_get_non_object cfg key fallback :
  ~ is_object cfg -> dict_get cfg key fallback = inl (AttributeError "get").
Proof.
  intros Hno. destruct cfg; try reflexivity.
  exfalso. apply Hno. eexists. reflexivity.
Qed.

Lemma dict_get_object d key fallback :
  dict_get (PyDict d) key fallback = inr (entry d key fallback).
Proof. unfold dict_get, entry. destruct (d !! key); reflexivity. Qed.

Lemma script_non_object argv s0 cfg m :
  read_json (config_path argv) = inr cfg ->
  WikiFactChecker cfg = inr m ->
  ~ is_object cfg ->
  script argv s0 =
  (inl (AttributeError "get"),
   {| config := Some cfg; complex_model := Some m;
      api := api s0; ticks := ticks s0;
      trace := trace s0 ++ startup_log (config_path argv) cfg ++
               [Construct cfg; LogInfo "Models loaded."] |}).
Proof.
  intros Hread Hload Hno.
  unfold script, call_load, add_namespace, bind_config, bind_complex_model,
    bind_api, logger_info, emit, global, lift_exc, bind, modify, config_path in *.
  cbn [config complex_model api ticks trace]. rewrite Hread.
  cbn [config complex_model api ticks trace]. rewrite Hload.
  cbn [config complex_model api ticks trace].
  rewrite (dict_get_non_object _ _ _ Hno).
  unfold startup_log. rewrite <- !app_assoc. reflexivity.
Qed.

(** X15: when the configuration file cannot be read or parsed, [start.py]
    ends with that exception after its first log line: the model constructor
    is never called, no model is bound and the server does not listen. *)
Theorem unreadable_config_aborts_startup argv name incoming e :
  read_json (config_path argv) = inl e ->
  (main argv name incoming boot).1 = inl e /\
  trace (main argv name incoming boot).2 =
    [LogInfo ("Reading config from " +:+ absolute (config_path argv))] /\
  constructions (trace (main argv name incoming boot).2) = [] /\
  listens (trace (main argv name incoming boot).2) = [] /\
  complex_model (main argv name incoming boot).2 = None.
Proof.
  intros Hread.
  rewrite main_eval, (script_unreadable argv boot e Hread).
  repeat split.
Qed.

(** X16: when the configuration file parses to something that is not an
    object -- a list, a string, a number, null -- [start.py] still passes it
    to the model constructor, and if a model comes back the script ends right
    after, at [config.get], with [AttributeError]: the model is bound, the API
    is not built and the server does not listen. *)
Theorem non_object_config_aborts_after_loading argv name incoming cfg m :
  read_json (config_path argv) = inr cfg ->
  WikiFactChecker cfg = inr m ->
  ~ is_object cfg ->
  (main argv name incoming boot).1 = inl (AttributeError "get") /\
  constructions (trace (main argv name incoming boot).2) = [cfg] /\
  listens (trace (main argv name incoming boot).2) = [] /\
  complex_model (main argv name incoming boot).2 = Some m /\
  api (main argv name incoming boot).2 = None.
Proof.
  intros Hread Hload Hno.
  rewrite main_eval, (script_non_object argv boot cfg m Hread Hload Hno).
  repeat split.
Qed.

(** X17: for every configuration object and every model that loads, the
    script of [start.py] succeeds: the API version and the description of the
    [nli_model] namespace are the values of [api_version] and [model_name] as
    they are in the file -- a string, a number, null -- and the defaults only
    when the key is absent.  Run as a program it listens on port 80 and
    answers every request; imported, it does neither. *)
Theorem object_config_starts argv name incoming d m :
  read_json (config_path argv) = inr (PyDict d) ->
  WikiFactChecker (PyDict d) = inr m ->
  (main argv name incoming boot).1 =
    inr (if String.eqb name "__main__"
         then answer (Some m) <$> incoming else []) /\
  listens (trace (main argv name incoming boot).2) =
    (if String.eqb name "__main__" then [(80, "0.0.0.0")] else []) /\
  api (main argv name incoming boot).2 =
    Some {| version := entry d "api_version" (PyStr "0.0");
            title := "WikiCheck API";
            namespaces :=
              [("nli_model", entry d "model_name" (PyStr "Wikipedia NLI model"));
               ("fact_checking_model", PyStr "Fact checking model")] |}.
Proof.
  intros Hread Hload.
  destruct (script_loaded argv boot (PyDict d) m Hread Hload)
    as (r & s1 & Hs & Hc & Hm & Ht & Hapi).
  destruct (Hapi _ _ (dict_get_object d _ _) (dict_get_object d _ _)) as [-> Ha].
  rewrite main_eval, Hs.
  destruct (String.eqb name "__main__").
  - cbv zeta. cbn [fst snd].
    set (s2 := {| config := config s1; complex_model := complex_model s1;
                  api := api s1; ticks := ticks s1;
                  trace := trace s1 ++ [Listen false 80 "0.0.0.0" true] |}).
    destruct (serve_trace incoming s2) as (added & Hta & Hall).
    destruct (serve_frame incoming s2) as (_ & _ & Ha2).
    destruct (request_event_quiet _ _ Hall) as (_ & Hli & _).
    rewrite serve_answers, Ha2, Hta. subst s2. cbn [complex_model api trace].
    rewrite Hm, Ha, Ht. unfold listens in *. rewrite !omap_app, Hli.
    repeat split.
  - cbn [fst snd]. rewrite Ha, Ht. repeat split.
Qed.

(** The events of one request hold at most one prediction. *)
Lemma nli_model_get_predictions args s :
  exists added,
    trace (nli_model_get args s).2 = trace s ++ added /\
    (predictions added <= 1)%nat.
Proof.
  unfold nli_model_get, call_predict, bind, now, lift_exc, logger_info, emit,
    modify, global, ret.
  cbn [config complex_model api ticks trace fst snd].
  destruct (check_if_none (args !! "text"));
    [exists []; split; [symmetry; apply app_nil_r | unfold predictions; simpl; lia]|].
  destruct (check_if_none (args !! "hypothesis"));
    [exists []; split; [symmetry; apply app_nil_r | unfold predictions; simpl; lia]|].
  cbn [config complex_model api ticks trace fst snd].
  destruct (complex_model s);
    cbn [config complex_model api ticks trace fst snd];
    [destruct (model_level_two_predict _ _ _);
     cbn [config complex_model api ticks trace fst snd]|];
    (eexists; split; [rewrite <- ?app_assoc; reflexivity | unfold predictions; simpl; lia]).
Qed.

Lemma fact_checking_model_get_predictions args s :
  exists added,
    trace (fact_checking_model_get args s).2 = trace s ++ added /\
    (predictions added <= 1)%nat.
Proof.
  unfold fact_checking_model_get, call_predict_all, bind, now, lift_exc,
    logger_info, emit, modify, global, ret.
  cbn [config complex_model api ticks trace fst snd].
  destruct (check_if_none (args !! "claim"));
    [exists []; split; [symmetry; apply app_nil_r | unfold predictions; simpl; lia]|].
  cbn [config complex_model api ticks trace fst snd].
  destruct (complex_model s);
    cbn [config complex_model api ticks trace fst snd];
    [destruct (predict_all _ _);
     cbn [config complex_model api ticks trace fst snd]|];
    (eexists; split; [rewrite <- ?app_assoc; reflexivity | unfold predictions; simpl; lia]).
Qed.

Lemma predictions_app (tr1 tr2 : list event) :
  predictions (tr1 ++ tr2) = (predictions tr1 + predictions tr2)%nat.
Proof. unfold predictions. rewrite List.filter_app, length_app. reflexivity. Qed.

Lemma dispatch_predictions r s :
  exists added,
    trace (dispatch r s).2 = trace s ++ added /\
    (predictions added <= 1)%nat.
Proof.
  unfold dispatch.
  destruct (String.eqb (path r) "/nli_model/");
  [ destruct (String.eqb (method r) "GET"); [rewrite respond_nli|]
  | destruct (String.eqb (path r) "/fact_checking_model/");
    [ destruct (String.eqb (method r) "GET"); [rewrite respond_fact_checking|] | ] ];
  cbn [fst snd];
  try (exists []; split; [symmetry; apply app_nil_r | unfold predictions; simpl; lia]).
  - apply nli_model_get_predictions.
  - apply fact_checking_model_get_predictions.
Qed.

Lemma serve_predictions incoming : forall s,
  exists added,
    trace (serve incoming s).2 = trace s ++ added /\
    (predictions added <= length incoming)%nat.
Proof.
  induction incoming as [|r rest IH]; intros s.
  - exists []. simpl. split; [symmetry; apply app_nil_r | unfold predictions; simpl; lia].
  - rewrite serve_cons. cbn [snd].
    destruct (IH (dispatch r s).2) as (added2 & Ht2 & Hn2).
    destruct (dispatch_predictions r s) as (added1 & Ht1 & Hn1).
    exists (added1 ++ added2). split.
    + rewrite Ht2, Ht1, app_assoc. reflexivity.
    + rewrite predictions_app. simpl. lia.
Qed.

(** X18: a run of [start.py] calls into the model at most once per request
    it receives -- refused, unrouted and failed requests included -- and not
    at all during its startup. *)
Theorem at_most_one_prediction_per_request argv name incoming :
  (predictions (trace (main argv name incoming boot).2) <= length incoming)%nat.
Proof.
  rewrite main_eval.
  assert (Hscript : predictions (trace (script argv boot).2) = 0%nat).
  { unfold script, call_load, add_namespace, bind_config, bind_complex_model,
      bind_api, logger_info, emit, global, lift_exc, bind, modify.
    cbn [config complex_model api ticks trace boot].
    destruct (read_json _); [reflexivity|].
    cbn [config complex_model api ticks trace snd].
    destruct (WikiFactChecker _); [reflexivity|].
    cbn [config complex_model api ticks trace snd].
    destruct (dict_get _ "api_version" _); [reflexivity|].
    cbn [config complex_model api ticks trace snd].
    destruct (dict_get _ "model_name" _); reflexivity. }
  destruct (script argv boot) as [[e|[]] s1]; cbn [snd] in *; [lia|].
  destruct (String.eqb name "__main__"); cbn [snd]; [|lia].
  cbv zeta.
  destruct (serve_predictions incoming
              {| config := config s1; complex_model := complex_model s1;
                 api := api s1; ticks := ticks s1;
                 trace := trace s1 ++ [Listen false 80 "0.0.0.0" true] |})
    as (added & -> & Hn).
  cbn [trace]. rewrite !predictions_app, Hscript. simpl. lia.
Qed.

(** X19: the [fact_checking_model] handler reads the parameter [claim] and
    no other: two requests that agree on it are handled alike, response and
    trace, whatever else they carry. *)
Theorem fact_checking_reads_only_claim args1 args2 s :
  args1 !! "claim" = args2 !! "claim" ->
  dispatch (GET "/fact_checking_model/" args1) s =
  dispatch (GET "/fact_checking_model/" args2) s.
Proof.
  intros Hc. rewrite !dispatch_GET_fact_checking.
  unfold respond, fact_checking_model_resource, fact_checking_model_get.
  cbv zeta. rewrite Hc. reflexivity.
Qed.

End StartupProofs.

(** ** The service of [modules/api.py]: startup and serving *)

Section ApiStartupProofs.
Import Service ServiceSpec ServiceLaws Api.
Context {SE : ServiceEnv}.

Lemma api_get_frame args s :
  run_main (get args s).2 = run_main s /\
  config (get args s).2 = config s /\
  model (get args s).2 = model s /\
  api (get args s).2 = api s.
Proof.
  unfold get, call_predict, bind, now, lift_exc, logger_info, emit, modify,
    global, ret.
  cbn [run_main config model api ticks trace fst snd].
  destruct (api_check_if_none (args !! "text")); [auto|].
  destruct (api_check_if_none (args !! "hypothesis")); [auto|].
  cbn [run_main config model api ticks trace fst snd].
  destruct (model s); cbn [run_main config model api ticks trace fst snd]; [|auto].
  destruct (predict _ _ _); auto.
Qed.

Lemma api_get_trace args s :
  exists added,
    trace (get args s).2 = trace s ++ added /\
    Forall (request_event (model s)) added.
Proof.
  unfold get, call_predict, bind, now, lift_exc, logger_info, emit, modify,
    global, ret.
  cbn [run_main config model api ticks trace fst snd].
  destruct (api_check_if_none (args !! "text"));
    [exists []; split; [symmetry; apply app_nil_r | constructor]|].
  destruct (api_check_if_none (args !! "hypothesis"));
    [exists []; split; [symmetry; apply app_nil_r | constructor]|].
  cbn [run_main config model api ticks trace fst snd].
  destruct (model s) eqn:Hm; cbn [run_main config model api ticks trace fst snd];
    [destruct (predict _ _ _); cbn [run_main config model api ticks trace fst snd]|];
    (eexists; split;
     [rewrite <- ?app_assoc; reflexivity | repeat constructor; simpl; auto]).
Qed.

Lemma api_dispatch_answer r s : (dispatch r s).1 = api_answer (model s) r.
Proof.
  unfold dispatch, api_answer.
  destruct (String.eqb (path r) "/nli_model/"); [|reflexivity].
  destruct (String.eqb (method r) "GET"); [|reflexivity].
  rewrite api_respond. cbn [fst]. rewrite api_get_outcome. reflexivity.
Qed.

Lemma api_dispatch_frame r s :
  run_main (dispatch r s).2 = run_main s /\
  config (dispatch r s).2 = config s /\
  model (dispatch r s).2 = model s /\
  api (dispatch r s).2 = api s.
Proof.
  unfold dispatch.
  destruct (String.eqb (path r) "/nli_model/"); [|auto].
  destruct (String.eqb (method r) "GET"); [|auto].
  rewrite api_respond. cbn [snd]. apply api_get_frame.
Qed.

Lemma api_dispatch_trace r s :
  exists added,
    trace (dispatch r s).2 = trace s ++ added /\
    Forall (request_event (model s)) added.
Proof.
  unfold dispatch.
  destruct (String.eqb (path r) "/nli_model/");
    [|exists []; split; [symmetry; apply app_nil_r | constructor]].
  destruct (String.eqb (method r) "GET");
    [|exists []; split; [symmetry; apply app_nil_r | constructor]].
  rewrite api_respond. cbn [snd]. apply api_get_trace.
Qed.

Lemma api_serve_cons r rest s :
  serve (r :: rest) s =
  ((dispatch r s).1 :: (serve rest (dispatch r s).2).1,
   (serve rest (dispatch r s).2).2).
Proof.
  simpl. destruct (dispatch r s) as [a s1]. simpl.
  destruct (serve rest s1) as [answers s2]. reflexivity.
Qed.

Lemma api_serve incoming : forall s,
  (serve incoming s).1 = api_answer (model s) <$> incoming /\
  run_main (serve incoming s).2 = run_main s /\
  config (serve incoming s).2 = config s /\
  model (serve incoming s).2 = model s /\
  api (serve incoming s).2 = api s /\
  exists added,
    trace (serve incoming s).2 = trace s ++ added /\
    Forall (request_event (model s)) added.
Proof.
  induction incoming as [|r rest IH]; intros s.
  - simpl. repeat split. exists []. split; [symmetry; apply app_nil_r | constructor].
  - rewrite api_serve_cons. cbn [fst snd].
    destruct (IH (dispatch r s).2) as (Ha & Hr & Hc & Hm & Hp & added2 & Ht2 & Hall2).
    destruct (api_dispatch_frame r s) as (Hr' & Hc' & Hm' & Hp').
    destruct (api_dispatch_trace r s) as (added1 & Ht1 & Hall1).
    rewrite Ha, Hr, Hc, Hm, Hp, Hr', Hc', Hm', Hp', fmap_cons, api_dispatch_answer.
    repeat split.
    exists (added1 ++ added2). split.
    + rewrite Ht2, Ht1, app_assoc. reflexivity.
    + apply Forall_app. split; [exact Hall1|]. rewrite <- Hm'. exact Hall2.
Qed.

Lemma api_file_eval again argv name incoming s0 :
  file again argv name incoming s0 =
  match script argv s0 with
  | (inl e, s1) => (inl e, s1)
  | (inr _, s1) =>
      if String.eqb name "__main__"
      then app_run again true 8001 "0.0.0.0" true incoming s1
      else (inr [], s1)
  end.
Proof.
  unfold file. unfold bind at 1.
  destruct (script argv s0) as [[e|[]] s1]; [reflexivity|].
  destruct (String.eqb name "__main__"); reflexivity.
Qed.

(** [app.run] in the process that the reloader started: it serves. *)
Lemma api_app_run_reloaded again debug port host threaded incoming s :
  run_main s = true ->
  app_run again debug port host threaded incoming s =
  (inr (serve incoming s).1, (serve incoming s).2).
Proof.
  intros Hr. destruct s as [r c m a k tr]. cbn [run_main] in Hr. subst r.
  unfold app_run, bind, gets, ret. cbn [run_main andb negb].
  rewrite andb_false_r. destruct (serve incoming _) as [answers s']. reflexivity.
Qed.

(** [app.run(debug=True)] in the process that reaches it first: it opens
    the socket and hands over to the reloader. *)
Lemma api_app_run_first again port host threaded incoming s :
  run_main s = false ->
  app_run again true port host threaded incoming s =
  restart_with_reloader again
    {| run_main := run_main s; config := config s; model := model s;
       api := api s; ticks := ticks s;
       trace := trace s ++ [Listen true port host threaded] |}.
Proof.
  intros Hr. destruct s as [r c m a k tr]. cbn [run_main] in Hr. subst r.
  reflexivity.
Qed.

Lemma api_script_unreadable argv s0 e :
  api_read_json (run_main s0) (api_config_path argv) = inl e ->
  script argv s0 =
  (inl e,
   {| run_main := run_main s0; config := config s0; model := model s0;
      api := api s0; ticks := ticks s0;
      trace := trace s0 ++
               [LogInfo ("Reading config from " +:+ absolute (api_config_path argv))] |}).
Proof.
  intros Hread.
  unfold script, load_config, logger_info, emit, bind, modify, api_config_path,
    api_read_json in *.
  cbn [run_main config model api ticks trace]. rewrite Hread. reflexivity.
Qed.

Lemma api_script_non_object argv s0 cfg :
  api_read_json (run_main s0) (api_config_path argv) = inr cfg ->
  ~ is_object cfg ->
  script argv s0 =
  (inl (AttributeError "get"),
   {| run_main := run_main s0; config := Some cfg; model := model s0;
      api := api s0; ticks := ticks s0;
      trace := trace s0 ++
               [LogInfo ("Reading config from " +:+ absolute (api_config_path argv));
                LogInfo ("Using config " +:+ format_pyval cfg)] |}).
Proof.
  intros Hread Hno.
  unfold script, load_config, call_load, add_namespace, bind_config, bind_model,
    bind_api, logger_info, emit, global, lift_exc, bind, modify, api_config_path,
    api_read_json in *.
  cbn [run_main config model api ticks trace]. rewrite Hread.
  cbn [run_main config model api ticks trace].
  rewrite (dict_get_non_object _ _ _ Hno).
  rewrite <- !app_assoc. reflexivity.
Qed.

Lemma api_script_object argv s0 d :
  api_read_json (run_main s0) (api_config_path argv) = inr (PyDict d) ->
  script argv s0 =
  match api_constructor (run_main s0) (PyDict d) with
  | inl e =>
      (inl e,
       {| run_main := run_main s0; config := Some (PyDict d); model := model s0;
          api := api s0; ticks := ticks s0;
          trace := trace s0 ++ api_startup_log (api_config_path argv) d ++
                   [Construct (PyDict d)] |})
  | inr m =>
      (inr tt,
       {| run_main := run_main s0; config := Some (PyDict d); model := Some m;
          api := Some {| Start.version := entry d "api_version" (PyStr "0.0");
                         Start.title := "Wikipedia fact checking API";
                         Start.namespaces :=
                           [("nli_model",
                             entry d "model_name" (PyStr "Wikipedia NLI model"))] |};
          ticks := ticks s0;
          trace := trace s0 ++ api_startup_log (api_config_path argv) d ++
                   [Construct (PyDict d)] |})
  end.
Proof.
  intros Hread.
  unfold script, load_config, call_load, add_namespace, bind_config, bind_model,
    bind_api, logger_info, emit, global, lift_exc, bind, modify, api_config_path,
    api_read_json, api_constructor in *.
  cbn [run_main config model api ticks trace]. rewrite Hread.
  cbn [run_main config model api ticks trace].
  rewrite !dict_get_object.
  cbn [run_main config model api ticks trace].
  unfold api_startup_log.
  destruct (if run_main s0 then child_SentenceBertModel (PyDict d)
            else SentenceBertModel (PyDict d));
    cbn [run_main config model api ticks trace
         Start.version Start.title Start.namespaces];
    rewrite <- !app_assoc; reflexivity.
Qed.

(** X20: [modules/api.py] reads [config.get('model_name')] for its log
    line before it constructs the model, so a configuration file that is not
    an object ends it with [AttributeError] before the constructor is called:
    no model is constructed or bound, and the server does not listen. *)
Theorem api_non_object_config_aborts_before_loading argv name incoming cfg :
  read_json (api_config_path argv) = inr cfg ->
  ~ is_object cfg ->
  (main argv name incoming boot).1 = inl (AttributeError "get") /\
  constructions (trace (main argv name incoming boot).2) = [] /\
  listens (trace (main argv name incoming boot).2) = [] /\
  model (main argv name incoming boot).2 = None.
Proof.
  intros Hread Hno. unfold main.
  rewrite api_file_eval, (api_script_non_object argv boot cfg Hread Hno).
  repeat split.
Qed.

(** X21: when the construction of the model fails, [modules/api.py] ends
    with that exception: the server does not listen, no request is answered
    and no model is bound. *)
Theorem api_load_failure_aborts_startup argv name incoming d e :
  read_json (api_config_path argv) = inr (PyDict d) ->
  SentenceBertModel (PyDict d) = inl e ->
  (main argv name incoming boot).1 = inl e /\
  constructions (trace (main argv name incoming boot).2) = [PyDict d] /\
  listens (trace (main argv name incoming boot).2) = [] /\
  model (main argv name incoming boot).2 = None.
Proof.
  intros Hread Hload. unfold main.
  rewrite api_file_eval, (api_script_object argv boot d Hread).
  cbn [run_main boot api_constructor]. rewrite Hload.
  repeat split.
Qed.

(** The file run as a program, when the first process gets to [app.run]:
    the socket is opened, then the child executes the file. *)
Lemma api_main_reloads argv incoming d m :
  read_json (api_config_path argv) = inr (PyDict d) ->
  SentenceBertModel (PyDict d) = inr m ->
  let first :=
    {| run_main := false; config := Some (PyDict d); model := Some m;
       api := Some {| Start.version := entry d "api_version" (PyStr "0.0");
                      Start.title := "Wikipedia fact checking API";
                      Start.namespaces :=
                        [("nli_model",
                          entry d "model_name" (PyStr "Wikipedia NLI model"))] |};
       ticks := 0;
       trace := api_startup_log (api_config_path argv) d ++
                [Construct (PyDict d); Listen true 8001 "0.0.0.0" true] |} in
  main argv "__main__" incoming boot =
  restart_with_reloader (file (ret []) argv "__main__" incoming) first.
Proof.
  intros Hread Hload first. unfold main.
  rewrite api_file_eval, (api_script_object argv boot d Hread).
  cbn [run_main boot api_constructor]. rewrite Hload.
  cbn [String.eqb Ascii.eqb Bool.eqb].
  rewrite api_app_run_first by reflexivity.
  cbn [run_main config model api ticks trace boot app].
  subst first. rewrite <- !app_assoc. reflexivity.
Qed.

(** X22: [modules/api.py] run as a program calls [app.run(debug=True)], so
    the model is constructed twice.  With a configuration object and a model
    that loads, the first process constructs its model, opens port 8001 of
    0.0.0.0 -- both fixed in the code -- and starts the reloader; the child
    reads the configuration file again, constructs a model of its own and
    builds the API from what it read; every request is answered by the child,
    as a function of the child's model and of that request, and every
    prediction is made on the child's model. *)
Theorem api_debug_constructs_the_model_twice argv incoming d m d' m' :
  read_json (api_config_path argv) = inr (PyDict d) ->
  SentenceBertModel (PyDict d) = inr m ->
  child_read_json (api_config_path argv) = inr (PyDict d') ->
  child_SentenceBertModel (PyDict d') = inr m' ->
  (main argv "__main__" incoming boot).1 = inr (api_answer (Some m') <$> incoming) /\
  constructions (trace (main argv "__main__" incoming boot).2) =
    [PyDict d; PyDict d'] /\
  listens (trace (main argv "__main__" incoming boot).2) = [(8001, "0.0.0.0")] /\
  (exists requests,
     trace (main argv "__main__" incoming boot).2 =
       api_startup_log (api_config_path argv) d ++
       [Construct (PyDict d); Listen true 8001 "0.0.0.0" true] ++
       api_startup_log (api_config_path argv) d' ++
       [Construct (PyDict d')] ++ requests /\
     Forall (request_event (Some m')) requests) /\
  run_main (main argv "__main__" incoming boot).2 = true /\
  model (main argv "__main__" incoming boot).2 = Some m' /\
  api (main argv "__main__" incoming boot).2 =
    Some {| Start.version := entry d' "api_version" (PyStr "0.0");
            Start.title := "Wikipedia fact checking API";
            Start.namespaces :=
              [("nli_model",
                entry d' "model_name" (PyStr "Wikipedia NLI model"))] |}.
Proof.
  intros Hread Hload Hread' Hload'.
  rewrite (api_main_reloads argv incoming d m Hread Hload). cbv zeta.
  unfold restart_with_reloader. cbn [ticks trace].
  rewrite api_file_eval.
  match goal with
  | |- context [script argv ?s0] =>
      rewrite (api_script_object argv s0 d' Hread')
  end.
  cbn [run_main api_constructor]. rewrite Hload'.
  cbn [String.eqb Ascii.eqb Bool.eqb].
  rewrite api_app_run_reloaded by reflexivity.
  match goal with
  | |- context [serve incoming ?s2] =>
      destruct (api_serve incoming s2) as (Ha & Hr & _ & Hm & Hp & added & Ht & Hall)
  end.
  cbn [run_main config model api ticks trace fst snd] in *.
  destruct (request_event_quiet _ _ Hall) as (Hl & Hli & _).
  rewrite Ha, Hr, Hm, Hp, Ht.
  split; [reflexivity|]. split.
  { unfold constructions in *. rewrite !omap_app, Hl. reflexivity. }
  split.
  { unfold listens in *. rewrite !omap_app, Hli. reflexivity. }
  split; [|repeat split].
  exists added. split; [|exact Hall].
  rewrite <- !app_assoc. reflexivity.
Qed.

(** X25: when the child that the reloader starts cannot construct its
    model, [modules/api.py] ends with exit status 1 although the first process
    holds a model: the socket is open, and no request is answered. *)
Theorem api_reloaded_load_failure_exits argv incoming d m d' e :
  read_json (api_config_path argv) = inr (PyDict d) ->
  SentenceBertModel (PyDict d) = inr m ->
  child_read_json (api_config_path argv) = inr (PyDict d') ->
  child_SentenceBertModel (PyDict d') = inl e ->
  (main argv "__main__" incoming boot).1 = inl (SystemExit 1) /\
  constructions (trace (main argv "__main__" incoming boot).2) =
    [PyDict d; PyDict d'] /\
  listens (trace (main argv "__main__" incoming boot).2) = [(8001, "0.0.0.0")] /\
  predictions (trace (main argv "__main__" incoming boot).2) = 0%nat /\
  model (main argv "__main__" incoming boot).2 = Some m.
Proof.
  intros Hread Hload Hread' Hload'.
  rewrite (api_main_reloads argv incoming d m Hread Hload). cbv zeta.
  unfold restart_with_reloader. cbn [ticks trace].
  rewrite api_file_eval.
  match goal with
  | |- context [script argv ?s0] =>
      rewrite (api_script_object argv s0 d' Hread')
  end.
  cbn [run_main api_constructor]. rewrite Hload'.
  cbn [run_main config model api ticks trace fst snd].
  repeat split.
Qed.

End ApiStartupProofs.

(** ** The two services side by side *)

Section SiblingProofs.
Import Service ServiceSpec ServiceLaws.
Context {SE : ServiceEnv}.

(** X23: on the route [/nli_model/] the handler of [modules/api.py] and
    the handler of [start.py] are the same function of the request up to
    their collaborators: when the two [check_if_none] helpers that the files
    import agree, the same model is bound in both processes and the two
    prediction methods agree on it, every request to that route gets the same
    response from both. *)
Theorem nli_handlers_agree (r : request) (sa : Api.proc) (ss : Start.proc) m :
  path r = "/nli_model/" ->
  (forall x, api_check_if_none x = check_if_none x) ->
  Api.model sa = Some m ->
  Start.complex_model ss = Some m ->
  (forall text hypothesis,
     predict m text hypothesis = model_level_two_predict m text hypothesis) ->
  (Api.dispatch r sa).1 = (Start.dispatch r ss).1.
Proof.
  intros Hpath Hcheck Ha Hs Hagree.
  rewrite api_dispatch_answer, dispatch_answer, Ha, Hs.
  unfold api_answer, answer. rewrite Hpath. cbn [String.eqb Ascii.eqb Bool.eqb].
  destruct (String.eqb (method r) "GET"); [|reflexivity].
  unfold api_outcome, nli_outcome. rewrite !Hcheck.
  destruct (check_if_none (args r !! "text")); [reflexivity|].
  destruct (check_if_none (args r !! "hypothesis")); [reflexivity|].
  rewrite Hagree. reflexivity.
Qed.

End SiblingProofs.

(** ** The further properties on concrete runs *)

Section RunProofs.
Import ModelTrainer TrainerSpec TrainerLaws.
Context {TE : TrainerEnv}.

Lemma instance_run ms : forall s, instance s -> instance (run ms s).
Proof.
  unfold run. induction ms as [|m ms IH]; intros s Hs; [exact Hs|].
  simpl. apply IH. apply instance_call. exact Hs.
Qed.

End RunProofs.

Lemma demo_ready_instance : TrainerSpec.instance DemoTrainer.demo_ready.
Proof. apply instance_run. apply TrainerSpec.instance_new. Qed.

(** One valid row per file, a model and batches of 16: three loaders of
    one example. *)
Lemma preparing_data_builds_loaders_witness :
  exists d_train d_dev d_test,
    (ModelTrainer.preparing_data DemoTrainer.demo_initialized).1 = inr tt /\
    ModelTrainer.self (ModelTrainer.preparing_data DemoTrainer.demo_initialized).2 =
      TrainerLaws.with_loaders (ModelTrainer.self DemoTrainer.demo_initialized)
        d_train d_dev d_test /\
    length (ModelTrainer.sd_examples (ModelTrainer.dl_dataset d_train)) = 1%nat.
Proof.
  destruct (preparing_data_builds_loaders (TE := Demo.trainer_env)
              DemoTrainer.demo_initialized _ _ _
              (ModelTrainer.STModules "bert-base-uncased" 128)
              eq_refl eq_refl eq_refl
              ltac:(discriminate) ltac:(discriminate) ltac:(discriminate))
    as (d1 & d2 & d3 & Hrun & H1 & _); [|reflexivity|reflexivity|].
  { repeat constructor; eexists; reflexivity. }
  exists d1, d2, d3. rewrite Hrun. split; [reflexivity|]. split; [reflexivity|].
  symmetry. exact (Forall2_length _ _ _ H1).
Defined.

(** The second training row has the label "-". *)
Lemma preparing_data_first_unknown_label_witness :
  (ModelTrainer.preparing_data DemoTrainer.initialized).1 = inl (KeyError "-").
Proof.
  rewrite (preparing_data_first_unknown_label (TE := DemoTrainer.files_env)
             DemoTrainer.initialized _ _ _
             [DemoTrainer.snli_row "t-1" "neutral"]
             (DemoTrainer.snli_row "t-2" "-")
             [DemoTrainer.snli_row "t-3" "entailment";
              DemoTrainer.snli_row "d-1" "contradiction";
              DemoTrainer.snli_row "d-1" "contradiction"]
             eq_refl eq_refl eq_refl eq_refl).
  - reflexivity.
  - repeat constructor. eexists. reflexivity.
  - reflexivity.
Defined.

(** Valid files on a trainer that was never given a model. *)
Lemma preparing_data_needs_model_witness :
  (ModelTrainer.preparing_data Demo.fresh).1 = inl (AttributeError "model").
Proof.
  rewrite (preparing_data_needs_model (TE := Demo.trainer_env) Demo.fresh _ _ _
             eq_refl eq_refl eq_refl).
  - reflexivity.
  - repeat constructor; eexists; reflexivity.
  - reflexivity.
Defined.

(** Two MNLI training rows: the count 2 is printed twice. *)
Lemma preparing_data_mnli_prints_witness :
  ModelTrainer.out (ModelTrainer.preparing_data_mnli DemoTrainer.initialized).2 =
  [ModelTrainer.LogInfo "Models are loaded and ready to use.";
   ModelTrainer.LogInfo "Read train dataset";
   ModelTrainer.Printed "2"; ModelTrainer.Printed "2"].
Proof.
  rewrite (preparing_data_mnli_prints (TE := DemoTrainer.files_env)
             DemoTrainer.initialized _ _ _ eq_refl eq_refl eq_refl).
  reflexivity.
Defined.


(** The dev file has no rows: the train loader is set, the dev loader not. *)
Lemma preparing_data_empty_dev_file_witness :
  exists msg d,
    (ModelTrainer.preparing_data DemoTrainer.faulty_initialized).1 =
      inl (ValueError msg) /\
    ModelTrainer.train_dataloader_nli
      (ModelTrainer.self
         (ModelTrainer.preparing_data DemoTrainer.faulty_initialized).2) = Some d /\
    ModelTrainer.dev_dataloader_nli
      (ModelTrainer.self
         (ModelTrainer.preparing_data DemoTrainer.faulty_initialized).2) = None.
Proof.
  eexists _, _.
  rewrite (preparing_data_empty_dev_file (TE := DemoTrainer.faulty_env)
             DemoTrainer.faulty_initialized _ _
             (ModelTrainer.STModules "bert-base-uncased" 128)
             eq_refl eq_refl eq_refl ltac:(discriminate)).
  - repeat split.
  - repeat constructor; eexists; reflexivity.
  - reflexivity.
  - reflexivity.
Defined.

(** The prepared trainer of [DemoTrainer]: three labels, and a model. *)
Lemma instance_invariants_witness :
  exists l,
    ModelTrainer.train_loss_nli (ModelTrainer.self DemoTrainer.demo_ready) = Some l /\
    ModelTrainer.sl_num_labels l = 3%nat /\
    is_Some (ModelTrainer.model (ModelTrainer.self DemoTrainer.demo_ready)).
Proof.
  pose proof (instance_invariants (TE := Demo.trainer_env)
                DemoTrainer.demo_ready demo_ready_instance) as (Hloss & Hset & _).
  eexists. split; [reflexivity|]. split.
  - exact (proj1 (Hloss _ eq_refl)).
  - apply Hset. left. eexists. reflexivity.
Defined.

Lemma faulty_initialized_instance :
  TrainerSpec.instance DemoTrainer.faulty_initialized.
Proof. apply TrainerSpec.instance_call, TrainerSpec.instance_new. Qed.

(** The disk is full once the classifier is written: [save_model] raises
    with the classifier file in place. *)
Lemma save_model_saves_classifier_then_model_witness :
  ModelTrainer.save_model DemoTrainer.faulty_initialized =
  (inl (OSError "No space left on device"),
   TrainerLaws.with_world DemoTrainer.faulty_initialized 1%nat).
Proof.
  destruct (save_model_saves_classifier_then_model (TE := DemoTrainer.faulty_env)
              DemoTrainer.faulty_initialized faulty_initialized_instance)
    as (m & Hm & Hrun).
  rewrite Hrun. reflexivity.
Defined.

(** The classifier file is missing: [load_model] raises with the model
    replaced and the loss of the model before. *)
Lemma model_replacement_keeps_loaders_witness :
  ModelTrainer.load_model "saved/bert" "missing" DemoTrainer.faulty_initialized =
  (inl (OSError "No such file or directory"),
   TrainerLaws.with_self DemoTrainer.faulty_initialized
     (TrainerLaws.with_only_model (ModelTrainer.self DemoTrainer.faulty_initialized)
        (ModelTrainer.STPath "saved/bert"))).
Proof.
  exact (proj1 (proj2
           (model_replacement_keeps_loaders (TE := DemoTrainer.faulty_env)
              DemoTrainer.faulty_initialized "saved/bert" "missing"
              faulty_initialized_instance))).
Defined.

(** A new trainer: the first attribute read is the train loader. *)
Lemma train_model_first_unset_witness :
  (ModelTrainer.train_model 5 Demo.fresh).1 =
  inl (AttributeError "train_dataloader_nli").
Proof.
  rewrite (train_model_first_unset (TE := Demo.trainer_env) 5 Demo.fresh
             "train_dataloader_nli" eq_refl).
  reflexivity.
Defined.

(** Minus three epochs. *)
Lemma train_model_without_epochs_witness :
  (ModelTrainer.train_model (-3) Demo.prepared).1 = inr ([], []).
Proof.
  rewrite (train_model_without_epochs (TE := Demo.trainer_env) (-3) Demo.prepared
             ltac:(lia) eq_refl).
  reflexivity.
Defined.

(** The trainer after [initialize_model] and [preparing_data]: four epochs. *)
Lemma train_model_returns_when_ready_witness :
  exists validation_performance test_performance s',
    ModelTrainer.train_model 4 DemoTrainer.demo_ready =
      (inr (validation_performance, test_performance), s') /\
    length validation_performance = 4%nat.
Proof.
  destruct (train_model_returns_when_ready (TE := Demo.trainer_env) 4
              DemoTrainer.demo_ready demo_ready_instance)
    as (vp & tp & s' & Hrun & Hvp & _).
  { eexists. reflexivity. }
  { repeat split; eexists; reflexivity. }
  exists vp, tp, s'. split; [exact Hrun | exact Hvp].
Defined.

(** One epoch, then two, against three. *)
Lemma train_model_composes_witness :
  exists vp1 tp1 s1 vp2 tp2 s2 s12,
    ModelTrainer.train_model 1 Demo.prepared = (inr (vp1, tp1), s1) /\
    ModelTrainer.train_model 2 s1 = (inr (vp2, tp2), s2) /\
    ModelTrainer.train_model 3 Demo.prepared = (inr (vp1 ++ vp2, tp1 ++ tp2), s12) /\
    ModelTrainer.world s12 = ModelTrainer.world s2.
Proof.
  destruct (train_model_composes (TE := Demo.trainer_env) 1 2 Demo.prepared
              _ _ _ _ _ ltac:(lia) ltac:(lia)
              eq_refl eq_refl eq_refl eq_refl eq_refl)
    as (vp1 & tp1 & s1 & vp2 & tp2 & s2 & s12 & H1 & H2 & H12 & Hw & _).
  exists vp1, tp1, s1, vp2, tp2, s2, s12. auto.
Defined.

(** No configuration file. *)
Lemma unreadable_config_aborts_startup_witness :
  (Start.main (SE := DemoStartup.no_file_env) None "__main__"
     [DemoService.read_request] Start.boot).1 =
  inl (OSError "No such file or directory").
Proof.
  exact (proj1 (unreadable_config_aborts_startup (SE := DemoStartup.no_file_env)
                  None "__main__" [DemoService.read_request]
                  (OSError "No such file or directory") eq_refl)).
Defined.

(** A configuration file that holds a list. *)
Lemma non_object_config_aborts_after_loading_witness :
  (Start.main (SE := DemoStartup.list_file_env) None "__main__"
     [DemoService.read_request] Start.boot).1 = inl (AttributeError "get") /\
  ServiceSpec.constructions
    (Start.trace (Start.main (SE := DemoStartup.list_file_env) None "__main__"
                    [DemoService.read_request] Start.boot).2) =
    [PyList [PyStr "model"; PyInt 80]].
Proof.
  destruct (non_object_config_aborts_after_loading
              (SE := DemoStartup.list_file_env) None "__main__"
              [DemoService.read_request] (PyList [PyStr "model"; PyInt 80])
              "wiki-fact-checker" eq_refl eq_refl)
    as (Hrun & Hc & _).
  { intros [d Hd]. discriminate Hd. }
  split; [exact Hrun | exact Hc].
Defined.

(** The configuration object of [DemoStartup], imported and run. *)
Lemma object_config_starts_witness :
  (Start.main (SE := DemoStartup.object_file_env) None "wsgi"
     [DemoService.read_request] Start.boot).1 = inr [] /\
  ServiceSpec.listens
    (Start.trace (Start.main (SE := DemoStartup.object_file_env) None "__main__"
                    [DemoService.read_request] Start.boot).2) = [(80, "0.0.0.0")].
Proof.
  split.
  - exact (proj1 (object_config_starts (SE := DemoStartup.object_file_env)
                    None "wsgi" [DemoService.read_request]
                    DemoStartup.config_object "wiki-fact-checker"
                    eq_refl eq_refl)).
  - exact (proj1 (proj2 (object_config_starts (SE := DemoStartup.object_file_env)
                           None "__main__" [DemoService.read_request]
                           DemoStartup.config_object "wiki-fact-checker"
                           eq_refl eq_refl))).
Defined.

(** The same claim with and without a stray parameter. *)
Lemma fact_checking_reads_only_claim_witness :
  Start.dispatch (ServiceSpec.GET "/fact_checking_model/" DemoStartup.claim_args)
    DemoStartup.serving =
  Start.dispatch (ServiceSpec.GET "/fact_checking_model/" DemoStartup.claim_args_more)
    DemoStartup.serving.
Proof.
  exact (fact_checking_reads_only_claim (SE := DemoStartup.object_file_env)
           DemoStartup.claim_args DemoStartup.claim_args_more
           DemoStartup.serving eq_refl).
Defined.

(** A configuration file that holds a list, for [modules/api.py]. *)
Lemma api_non_object_config_aborts_before_loading_witness :
  (Api.main (SE := DemoStartup.list_file_env) None "__main__"
     [DemoService.read_request] Api.boot).1 = inl (AttributeError "get") /\
  ServiceSpec.constructions
    (Api.trace (Api.main (SE := DemoStartup.list_file_env) None "__main__"
                  [DemoService.read_request] Api.boot).2) = [].
Proof.
  destruct (api_non_object_config_aborts_before_loading
              (SE := DemoStartup.list_file_env) None "__main__"
              [DemoService.read_request] (PyList [PyStr "model"; PyInt 80])
              eq_refl)
    as (Hrun & Hc & _).
  { intros [d Hd]. discriminate Hd. }
  split; [exact Hrun | exact Hc].
Defined.

(** The weights of the sentence model are missing. *)
Lemma api_load_failure_aborts_startup_witness :
  (Api.main (SE := DemoService.broken_env) None "__main__"
     [DemoService.read_request] Api.boot).1 =
  inl (ModelLoadError "weights missing").
Proof.
  exact (proj1 (api_load_failure_aborts_startup (SE := DemoService.broken_env)
                  None "__main__" [DemoService.read_request]
                  DemoStartup.config_object (ModelLoadError "weights missing")
                  eq_refl eq_refl)).
Defined.

(** [modules/api.py] on the configuration object of [DemoStartup]: two
    constructions, and the model of the child is the one that serves. *)
Lemma api_debug_constructs_the_model_twice_witness :
  length (ServiceSpec.constructions
            (Api.trace (Api.main (SE := DemoStartup.object_file_env) None "__main__"
                          [DemoService.read_request] Api.boot).2)) = 2%nat /\
  Api.model (Api.main (SE := DemoStartup.object_file_env) None "__main__"
               [DemoService.read_request] Api.boot).2 =
    Some "sentence-bert, reloaded".
Proof.
  destruct (api_debug_constructs_the_model_twice (SE := DemoStartup.object_file_env)
              None [DemoService.read_request]
              DemoStartup.config_object "sentence-bert"
              DemoStartup.config_object "sentence-bert, reloaded"
              eq_refl eq_refl eq_refl eq_refl)
    as (_ & Hc & _ & _ & _ & Hm & _).
  split; [rewrite Hc; reflexivity | exact Hm].
Defined.

(** The child cannot construct its model: exit status 1. *)
Lemma api_reloaded_load_failure_exits_witness :
  (Api.main (SE := DemoStartup.reload_fails_env) None "__main__"
     [DemoService.read_request] Api.boot).1 = inl (SystemExit 1).
Proof.
  exact (proj1 (api_reloaded_load_failure_exits (SE := DemoStartup.reload_fails_env)
                  None [DemoService.read_request]
                  DemoStartup.config_object "sentence-bert"
                  DemoStartup.config_object (ModelLoadError "CUDA out of memory")
                  eq_refl eq_refl eq_refl eq_refl)).
Defined.

(** The same request to the two services, the same model bound. *)
Lemma nli_handlers_agree_witness :
  (Api.dispatch DemoService.read_request DemoStartup.api_serving).1 =
  (Start.dispatch DemoService.read_request DemoStartup.serving).1.
Proof.
  exact (nli_handlers_agree (SE := DemoStartup.object_file_env)
           DemoService.read_request DemoStartup.api_serving DemoStartup.serving
           "model" eq_refl (fun _ => eq_refl) eq_refl eq_refl (fun _ _ => eq_refl)).
Defined.
